(** * A character-level tokenizer: [src/tokenizer.py]

    A shallow embedding of the class [CharTokenizer] and the properties
    its specification states about vocabulary construction, encoding,
    decoding and persistence.

    Conventions of the embedding.
    - A Python [str] is a [string]; iterating over it yields its
      characters as one-character strings, as Python does.  The order on
      characters is the order of their codes ([String.compare]).
    - A Python [int] is a [Z].
    - A [dict] is an association list in insertion order with unique keys:
      [dict_set] overwrites in place or appends, as a Python dict does.
    - Values that cross the JSON boundary are [pyval]s.  JSON numbers with
      a fraction or an exponent are outside the model.
    - An exception is a value of [exn]; a method that mutates [self] is a
      function from the instance to an outcome and the instance afterwards.
    - The file system and the modules [json] and [tempfile] are
      collaborators, taken as interfaces.  A method finds [json] and
      [tempfile] through the module-level names of the file ([globals]);
      [tokenizer_globals] are the names the file binds.

    The first part gives the definitions, the second the facts about them,
    the third the properties of the specification, each marked with its
    number (C1 to C10). *)

From Stdlib Require Import Bool List ZArith Ascii String DecimalString Lia.
From Stdlib Require Import Permutation Sorted.
Import ListNotations.

Open Scope string_scope.
Open Scope Z_scope.
Open Scope list_scope.

(** ** Python values and exceptions *)

#[local] Set Warnings "-register-all".

Inductive pyval : Type :=
| PyNone
| PyBool (b : bool)
| PyInt (z : Z)
| PyStr (s : string)
| PyList (items : list pyval)                 (* a list or a tuple *)
| PyDict (entries : list (string * pyval)).   (* a dict with str keys *)

(** The text of an exception: a literal; an f-string that ends in
    [{v!r}]; or a text followed by at most [width] characters of [repr(v)]
    (the format [%.200R] of the interpreter). *)
Inductive message : Type :=
| Msg (text : string)
| MsgRepr (text : string) (v : pyval)
| MsgReprUpTo (text : string) (width : nat) (v : pyval).

Inductive exn : Type :=
| ValueError (m : message)
| RuntimeError (m : message)
| FileNotFoundError (m : message)
| KeyError (key : pyval)
| NameError (name : string)       (* name 'x' is not defined *)
| TypeError (m : message)
| OSError (m : message)
| JSONDecodeError (m : message).

Definition result (A : Type) : Type := (exn + A)%type.

Definition ok {A} (a : A) : result A := inr a.
Definition throw {A} (e : exn) : result A := inl e.

Definition rbind {A B} (r : result A) (k : A -> result B) : result B :=
  match r with
  | inl e => inl e
  | inr a => k a
  end.

(** [[f(x) for x in l]]: the first exception ends the comprehension. *)
Fixpoint mapM {A B} (f : A -> result B) (l : list A) : result (list B) :=
  match l with
  | [] => ok []
  | x :: l' =>
      rbind (f x) (fun y => rbind (mapM f l') (fun ys => ok (y :: ys)))
  end.

(** ** Insertion-ordered dictionaries *)

Class Key (K : Type) : Type := {
  key_eqb : K -> K -> bool;
  key_eqb_spec : forall a b, reflect (a = b) (key_eqb a b)
}.

#[export] Instance string_Key : Key string :=
  {| key_eqb := String.eqb; key_eqb_spec := String.eqb_spec |}.

#[export] Instance Z_Key : Key Z :=
  {| key_eqb := Z.eqb; key_eqb_spec := Z.eqb_spec |}.

Section Dict.
Context {K V : Type} `{Key K}.

Definition dict : Type := list (K * V).

(** [d.get(k)] *)
Fixpoint dict_get (d : dict) (k : K) : option V :=
  match d with
  | [] => None
  | (k', v) :: d' => if key_eqb k k' then Some v else dict_get d' k
  end.

(** [k in d] *)
Definition dict_mem (d : dict) (k : K) : bool :=
  match dict_get d k with Some _ => true | None => false end.

(** [d.get(k, default)] *)
Definition dict_get_default (d : dict) (k : K) (default : V) : V :=
  match dict_get d k with Some v => v | None => default end.

(** [d[k] = v] *)
Fixpoint dict_set (d : dict) (k : K) (v : V) : dict :=
  match d with
  | [] => [(k, v)]
  | (k', v') :: d' =>
      if key_eqb k k' then (k', v) :: d' else (k', v') :: dict_set d' k v
  end.

Definition dict_keys (d : dict) : list K := map fst d.
Definition dict_values (d : dict) : list V := map snd d.

(** [len(d)] *)
Definition dict_len (d : dict) : Z := Z.of_nat (List.length d).

(** [bool(d)] *)
Definition dict_nonempty (d : dict) : bool :=
  match d with [] => false | _ :: _ => true end.
End Dict.

Arguments dict K V : clear implicits.

(** ** The instance *)

Record CharTokenizer : Type := {
  stoi : dict string Z;
  itos : dict Z string;
  pad_id : pyval;         (* [PyNone] until the vocabulary is built *)
  unk_id : pyval;
  vocab_size : Z
}.

Definition __init__ : CharTokenizer :=
  {| stoi := []; itos := []; pad_id := PyNone; unk_id := PyNone;
     vocab_size := 0 |}.

Definition is_fitted (self : CharTokenizer) : bool :=
  dict_nonempty (stoi self) && dict_nonempty (itos self).

(** A method that may assign to attributes of [self] and may raise. *)
Definition M (A : Type) : Type := CharTokenizer -> result A * CharTokenizer.

Definition ret {A} (a : A) : M A := fun self => (inr a, self).
Definition raise {A} (e : exn) : M A := fun self => (inl e, self).
Definition bind {A B} (m : M A) (k : A -> M B) : M B :=
  fun self =>
    match m self with
    | (inl e, self') => (inl e, self')
    | (inr a, self') => k a self'
    end.
Definition get_self : M CharTokenizer := fun self => (inr self, self).
Definition lift {A} (r : result A) : M A := fun self => (r, self).

Declare Scope method_scope.
Delimit Scope method_scope with method.
Notation "x <- m ;; k" := (bind m (fun x => k))
  (at level 100, m at next level, right associativity) : method_scope.
Notation "m ;; k" := (bind m (fun _ => k))
  (at level 100, right associativity) : method_scope.

Definition set_stoi (d : dict string Z) : M unit := fun self =>
  (inr tt, {| stoi := d; itos := itos self; pad_id := pad_id self;
              unk_id := unk_id self; vocab_size := vocab_size self |}).
Definition set_itos (d : dict Z string) : M unit := fun self =>
  (inr tt, {| stoi := stoi self; itos := d; pad_id := pad_id self;
              unk_id := unk_id self; vocab_size := vocab_size self |}).
Definition set_pad_id (v : pyval) : M unit := fun self =>
  (inr tt, {| stoi := stoi self; itos := itos self; pad_id := v;
              unk_id := unk_id self; vocab_size := vocab_size self |}).
Definition set_unk_id (v : pyval) : M unit := fun self =>
  (inr tt, {| stoi := stoi self; itos := itos self; pad_id := pad_id self;
              unk_id := v; vocab_size := vocab_size self |}).
Definition set_vocab_size (n : Z) : M unit := fun self =>
  (inr tt, {| stoi := stoi self; itos := itos self; pad_id := pad_id self;
              unk_id := unk_id self; vocab_size := n |}).

(** [self.stoi[k] = v] *)
Definition stoi_setitem (k : string) (v : Z) : M unit := fun self =>
  set_stoi (dict_set (stoi self) k v) self.

(** [d[k]], which raises [KeyError(k)] on a missing key. *)
Definition getitem {K V} `{Key K} (wrap : K -> pyval) (d : dict K V) (k : K)
  : result V :=
  match dict_get d k with
  | Some v => ok v
  | None => throw (KeyError (wrap k))
  end.

(** [any(f(x) for x in l)] *)
Fixpoint anyM {A} (f : A -> result bool) (l : list A) : result bool :=
  match l with
  | [] => ok false
  | x :: l' => rbind (f x) (fun b => if b then ok true else anyM f l')
  end.

(** ** Collaborators: the file system, [json] and [tempfile] *)

Record os_module : Type := {
  FS : Type;      (* the state of the file system *)
  File : Type;    (* a file open for reading *)
  isfile : FS -> string -> bool;              (* os.path.isfile *)
  open_r : FS -> string -> result File;       (* open(p, 'r', encoding='utf-8') *)
  read : File -> result string;               (* f.read() *)
  abspath : FS -> string -> string;           (* os.path.abspath *)
  dirname : string -> string;                 (* os.path.dirname *)
  isdir : FS -> string -> bool;               (* os.path.isdir *)
  makedirs : FS -> string -> result unit * FS; (* os.makedirs(p, exist_ok=True) *)
  write_fd : FS -> Z -> string -> result unit * FS;
      (* with os.fdopen(fd, 'w', encoding='utf-8') as f: f.write(text) *)
  replace : FS -> string -> string -> result unit * FS;  (* os.replace *)
  path_exists : FS -> string -> bool;         (* os.path.exists *)
  remove : FS -> string -> result unit * FS   (* os.remove *)
}.

Record json_module : Type := {
  loads : string -> result pyval;
  dumps : pyval -> string       (* with ensure_ascii=False, indent=2 *)
}.

Record tempfile_module (os : os_module) : Type := {
  mkstemp : FS os -> option string -> string -> string ->
            result (Z * string) * FS os
}.
Arguments mkstemp {os}.

(** The module-level names a method looks up when it runs.  [os] and
    [Counter] are imported by the file; the bindings of [json] and
    [tempfile] are what the import statements make them. *)
Record globals (os : os_module) : Type := {
  g_json : option json_module;
  g_tempfile : option (tempfile_module os)
}.
Arguments g_json {os}.
Arguments g_tempfile {os}.

(** Lines 1-4 of the file: [import os], [from collections import Counter],
    [from sys import prefix], [from typing import List, Union, Iterable].
    Nothing binds [json] or [tempfile]. *)
Definition tokenizer_globals (os : os_module) : globals os :=
  {| g_json := None; g_tempfile := None |}.

(** ** Characters, counting and sorting *)

(** [for ch in text] *)
Definition chars (text : string) : list string :=
  map (fun c => String c EmptyString) (list_ascii_of_string text).

(** [Counter(corpus)]: counts in order of first occurrence. *)
Definition Counter (corpus : string) : dict string Z :=
  fold_left (fun d ch => dict_set d ch (dict_get_default d ch 0 + 1))
            (chars corpus) [].

(** [key(x) < key(y)] for [key = lambda x: (-x[1], x[0])]. *)
Definition key_lt (x y : string * Z) : bool :=
  if (- snd x) =? (- snd y) then String.ltb (fst x) (fst y)
  else (- snd x) <? (- snd y).

Fixpoint insert_item (x : string * Z) (l : list (string * Z))
  : list (string * Z) :=
  match l with
  | [] => [x]
  | y :: l' => if key_lt y x then y :: insert_item x l' else x :: y :: l'
  end.

(** [items.sort(key=...)]: a stable sort that only asks [<] of the keys. *)
Fixpoint sort_items (l : list (string * Z)) : list (string * Z) :=
  match l with
  | [] => []
  | x :: l' => insert_item x (sort_items l')
  end.

(** [{i: s for s, i in d.items()}] *)
Definition invert (d : dict string Z) : dict Z string :=
  fold_left (fun acc si => dict_set acc (snd si) (fst si)) d [].

(** [any(self.itos[self.stoi[s]] != s for s in self.stoi)] *)
Definition mapping_mismatch (self : CharTokenizer) : result bool :=
  anyM (fun s =>
          rbind (getitem PyStr (stoi self) s) (fun i =>
          rbind (getitem PyInt (itos self) i) (fun s' =>
          ok (negb (s' =? s)%string))))
       (dict_keys (stoi self)).

Definition newline : string := String (ascii_of_nat 10) EmptyString.

(** ** [fit] *)

Section Methods.
Context (os : os_module).

Definition read_file (fs : FS os) (p : string) : result string :=
  rbind (open_r os fs p) (read os).

(** Lines 22-38: a path, raw text, or a list of paths. *)
Definition read_corpus (fs : FS os) (texts_or_paths : pyval)
  : result string :=
  match texts_or_paths with
  | PyStr s => if isfile os fs s then read_file fs s else ok s
  | PyList ps =>
      rbind
        (mapM (fun p =>
                 match p with
                 | PyStr s =>
                     if isfile os fs s then read_file fs s
                     else throw (ValueError
                            (MsgRepr "Expected file path string, got: " p))
                 | _ => throw (ValueError
                          (MsgRepr "Expected file path string, got: " p))
                 end) ps)
        (fun parts =>
           match parts with
           | [] => throw (ValueError
                     (Msg "No files provided to build a corpus."))
           | _ => ok (String.concat newline parts)
           end)
  | _ => throw (ValueError (Msg
      "Input should be a string (text or file path) or a list/tuple of file paths."))
  end.

Open Scope method_scope.

(** Lines 61-64. *)
Fixpoint assign_ids (items : list (string * Z)) (idx : Z) : M Z :=
  match items with
  | [] => ret idx
  | (ch, _) :: rest =>
      self <- get_self ;;
      if dict_mem (stoi self) ch then assign_ids rest idx
      else (stoi_setitem ch idx ;; assign_ids rest (idx + 1))
  end.

Definition fit (fs : FS os) (texts_or_paths : pyval)
           (include_specials : bool) (min_freq : Z) : M unit :=
  self <- get_self ;;
  if is_fitted self then
    raise (ValueError (Msg
      "Tokenizer is already fitted. Please create a new instance to fit again."))
  else
  corpus <- lift (read_corpus fs texts_or_paths) ;;
  let counts := Counter corpus in
  let items := filter (fun x => min_freq <=? snd x) counts in
  if negb (dict_nonempty items) && negb include_specials then
    raise (ValueError (Msg
      "No characters meet the frequency threshold; cannot build vocab."))
  else
  let items := sort_items items in
  let idx := 0 in
  set_stoi [] ;;
  set_pad_id PyNone ;;
  set_unk_id PyNone ;;
  idx <- (if include_specials then
            stoi_setitem "<PAD>" idx ;;
            set_pad_id (PyInt idx) ;;
            let idx := idx + 1 in
            stoi_setitem "<UNK>" idx ;;
            set_unk_id (PyInt idx) ;;
            ret (idx + 1)
          else ret idx) ;;
  _ <- assign_ids items idx ;;
  self <- get_self ;;
  set_itos (invert (stoi self)) ;;
  self <- get_self ;;
  set_vocab_size (dict_len (stoi self)) ;;
  self <- get_self ;;
  bad <- lift (if negb (dict_nonempty (stoi self)) then ok true
               else if negb (dict_nonempty (itos self)) then ok true
               else mapping_mismatch self) ;;
  if bad then
    raise (ValueError (Msg "Internal mapping inconsistency after fit()."))
  else ret tt.

Close Scope method_scope.
End Methods.

(** ** [encode], [decode], [get_vocab_size] *)

Definition is_none (v : pyval) : bool :=
  match v with PyNone => true | _ => false end.

(** [i == v] for an int [i]: an int equals an equal int, and the bools
    [False] and [True] as 0 and 1; it equals no other value. *)
Definition int_eq (i : Z) (v : pyval) : bool :=
  match v with
  | PyInt z => i =? z
  | PyBool b => i =? (if b then 1 else 0)
  | _ => false
  end.

Definition not_fitted_error : exn :=
  RuntimeError (Msg "Tokenizer not fitted. Call fit(...) first.").

(** [[self.stoi[ch] for ch in text]] *)
Definition lookup_all (self : CharTokenizer) (text : string)
  : result (list pyval) :=
  mapM (fun ch => rbind (getitem PyStr (stoi self) ch)
                        (fun i => ok (PyInt i)))
       (chars text).

Definition encode (self : CharTokenizer) (text : string) (strict : bool)
  : result (list pyval) :=
  if negb (is_fitted self) then throw not_fitted_error
  else if strict then lookup_all self text
  else if is_none (unk_id self) then lookup_all self text
  else ok (map (fun ch =>
                  match dict_get (stoi self) ch with
                  | Some i => PyInt i
                  | None => unk_id self
                  end)
               (chars text)).

(** [''.join(parts)] *)
Definition join (parts : list string) : string := String.concat "" parts.

Definition decode (self : CharTokenizer) (token_ids : list Z)
           (skip_specials : bool) : result string :=
  if negb (is_fitted self) then throw not_fitted_error
  else if skip_specials && negb (is_none (pad_id self))
                        && negb (is_none (unk_id self)) then
    rbind (mapM (getitem PyInt (itos self))
                (filter (fun i => negb (int_eq i (pad_id self))
                                  && negb (int_eq i (unk_id self)))
                        token_ids))
          (fun parts => ok (join parts))
  else
    rbind (mapM (getitem PyInt (itos self)) token_ids)
          (fun parts => ok (join parts)).

Definition get_vocab_size (self : CharTokenizer) : result Z :=
  if negb (is_fitted self) then throw not_fitted_error
  else ok (vocab_size self).

(** ** [save], [load], [from_file] *)

(** Lines 101-106. *)
Definition payload (self : CharTokenizer) : pyval :=
  PyDict [ ("version", PyStr "char-tokenizer.v1");
           ("stoi", PyDict (map (fun si => (fst si, PyInt (snd si)))
                                (stoi self)));
           ("pad_id", pad_id self);
           ("unk_id", unk_id self) ].

(** *** [int()]

    Line 144 applies [int] to every value of [stoi].  On an [int] or a
    [bool] it is the value; on a [str] it reads a decimal literal; the
    other values that [json.load] can put there ([None], a list, a dict)
    are refused with a [TypeError]. *)

(** The characters that [int] skips around a literal: tab to carriage
    return and the space, and the two white-space characters above 127
    (next line, no-break space), which the conversion turns into spaces
    first.  The separators 28-31 are not skipped. *)
Definition is_space (c : ascii) : bool :=
  let n := N_of_ascii c in
  ((9 <=? n) && (n <=? 13) || (n =? 32) || (n =? 133) || (n =? 160))%N.

Definition digit_of (c : ascii) : option Z :=
  let n := N_of_ascii c in
  if ((48 <=? n) && (n <=? 57))%N then Some (Z.of_N n - 48) else None.

(** The run of digits at the head of [cs], with single underscores between
    digits: its value, the number of digits, and what follows the run.
    [None] when the run does not start with a digit, has two underscores
    in a row, or ends in an underscore. *)
Fixpoint scan_digits (cs : list ascii) (acc count : Z) (after_digit : bool)
  : option (Z * Z * list ascii) :=
  match cs with
  | [] => if after_digit then Some (acc, count, []) else None
  | c :: cs' =>
      match digit_of c with
      | Some d => scan_digits cs' (10 * acc + d) (count + 1) true
      | None =>
          if Ascii.eqb c "_"
          then if after_digit then scan_digits cs' acc count false else None
          else if after_digit then Some (acc, count, cs) else None
      end
  end.

Fixpoint lstrip (cs : list ascii) : list ascii :=
  match cs with
  | c :: cs' => if is_space c then lstrip cs' else cs
  | [] => []
  end.

(** [sys.get_int_max_str_digits()], as the interpreter starts. *)
Definition int_max_str_digits : Z := 4300.

Inductive int_literal : Type :=
| IntValue (z : Z)
| IntInvalid                   (* invalid literal for int() with base 10 *)
| IntTooLong (digits : Z).     (* more digits than [int_max_str_digits] *)

(** [int(s)] for a [str]: white space, a sign, the digits, white space.
    The number of digits is checked as soon as the run of digits has been
    read, before what follows it is looked at. *)
Definition int_of_str (s : string) : int_literal :=
  let cs := lstrip (list_ascii_of_string s) in
  let '(negative, cs) :=
    match cs with
    | "-"%char :: cs' => (true, cs')
    | "+"%char :: cs' => (false, cs')
    | _ => (false, cs)
    end in
  match scan_digits cs 0 0 false with
  | None => IntInvalid
  | Some (z, count, rest) =>
      if int_max_str_digits <? count then IntTooLong count
      else match lstrip rest with
           | [] => IntValue (if negative then - z else z)
           | _ :: _ => IntInvalid
           end
  end.

Definition decimal (n : Z) : string :=
  NilZero.string_of_uint (N.to_uint (Z.to_N n)).

Definition too_many_digits_error (digits : Z) : exn :=
  ValueError
    (Msg ("Exceeds the limit (" ++ decimal int_max_str_digits
          ++ " digits) for integer string conversion: value has "
          ++ decimal digits
          ++ " digits; use sys.set_int_max_str_digits() to increase the limit")).

(** [type(v).__name__], for a value that [json.load] returns. *)
Definition type_name (v : pyval) : string :=
  match v with
  | PyNone => "NoneType"
  | PyBool _ => "bool"
  | PyInt _ => "int"
  | PyStr _ => "str"
  | PyList _ => "list"
  | PyDict _ => "dict"
  end.

(** [int(v)] *)
Definition py_int (v : pyval) : result Z :=
  match v with
  | PyInt z => ok z
  | PyBool b => ok (if b then 1 else 0)
  | PyStr s =>
      match int_of_str s with
      | IntValue z => ok z
      | IntInvalid =>
          throw (ValueError
                   (MsgReprUpTo "invalid literal for int() with base 10: "
                                200 v))
      | IntTooLong digits => throw (too_many_digits_error digits)
      end
  | _ => throw (TypeError (Msg
           ("int() argument must be a string, a bytes-like object or a real number, not '"
            ++ type_name v ++ "'")))
  end.

(** [k in data] for a [str] [k]. *)
Definition py_in (k : string) (data : pyval) : result bool :=
  match data with
  | PyDict d => ok (dict_mem d k)
  | PyList l =>
      ok (existsb (fun x => match x with
                            | PyStr s => (s =? k)%string
                            | _ => false
                            end) l)
  | PyStr s => ok (match index 0 k s with Some _ => true | None => false end)
  | _ => throw (TypeError (Msg ("argument of type '" ++ type_name data
                                ++ "' is not iterable")))
  end.

(** [data[k]] for a [str] [k]. *)
Definition py_getitem (data : pyval) (k : string) : result pyval :=
  match data with
  | PyDict d => getitem PyStr d k
  | PyList _ =>
      throw (TypeError (Msg "list indices must be integers or slices, not str"))
  | PyStr _ =>
      throw (TypeError (Msg "string indices must be integers, not 'str'"))
  | _ => throw (TypeError (Msg ("'" ++ type_name data
                                ++ "' object is not subscriptable")))
  end.

Definition is_dict (v : pyval) : bool :=
  match v with PyDict _ => true | _ => false end.

(** [{str(s): int(i) for s, i in entries}] *)
Fixpoint stoi_of_entries (entries : list (string * pyval))
         (acc : dict string Z) : result (dict string Z) :=
  match entries with
  | [] => ok acc
  | (s, i) :: rest =>
      rbind (py_int i) (fun z => stoi_of_entries rest (dict_set acc s z))
  end.

Section Persistence.
Context (os : os_module) (G : globals os).

Definition save (self : CharTokenizer) (path : string) (fs : FS os)
  : result unit * FS os :=
  if negb (is_fitted self) then
    (throw (RuntimeError
              (Msg "Tokenizer not fitted. Call fit(...) before save().")),
     fs)
  else
  let payload := payload self in
  let parent := dirname os (abspath os fs path) in
  let has_parent := negb (parent =? "")%string in
  let '(made, fs) :=
    if has_parent && negb (isdir os fs parent)
    then makedirs os fs parent else (ok tt, fs) in
  match made with
  | inl e => (inl e, fs)
  | inr _ =>
  match g_tempfile G with
  | None => (throw (NameError "tempfile"), fs)
  | Some tempfile =>
  let '(made, fs) :=
    mkstemp tempfile fs (if has_parent then Some parent else None)
            ".tmp_tok_" ".json" in
  match made with
  | inl e => (inl e, fs)
  | inr (fd, tmp_path) =>
      (* the [try] block *)
      let '(tried, fs) :=
        match g_json G with
        | None =>
            let '(closed, fs) := write_fd os fs fd "" in
            (rbind closed (fun _ => throw (NameError "json")), fs)
        | Some json =>
            let '(written, fs) := write_fd os fs fd (dumps json payload) in
            match written with
            | inl e => (inl e, fs)
            | inr _ => replace os fs tmp_path path
            end
        end in
      match tried with
      | inr _ => (ok tt, fs)
      | inl e =>
          (* [except Exception]: remove the temp file, raise again *)
          if path_exists os fs tmp_path then
            let '(removed, fs) := remove os fs tmp_path in
            match removed with
            | inl e' => (inl e', fs)
            | inr _ => (inl e, fs)
            end
          else (inl e, fs)
      end
  end
  end
  end.

Open Scope method_scope.

Definition load (fs : FS os) (path : string) : M unit :=
  if negb (isfile os fs path) then
    raise (FileNotFoundError (MsgRepr "No such file: " (PyStr path)))
  else
  f <- lift (open_r os fs path) ;;
  data <- lift (match g_json G with
                | None => throw (NameError "json")
                | Some json => rbind (read os f) (loads json)
                end) ;;
  (* Basic validation *)
  has_stoi <- lift (py_in "stoi" data) ;;
  bad_stoi <- lift (if negb has_stoi then ok true
                    else rbind (py_getitem data "stoi")
                               (fun v => ok (negb (is_dict v)))) ;;
  if bad_stoi then
    raise (ValueError (Msg "Invalid tokenizer file: missing or bad 'stoi'."))
  else
  has_pad <- lift (py_in "pad_id" data) ;;
  missing <- lift (if negb has_pad then ok true
                   else rbind (py_in "unk_id" data)
                              (fun b => ok (negb b))) ;;
  if missing then
    raise (ValueError
             (Msg "Invalid tokenizer file: missing 'pad_id'/'unk_id'."))
  else
  new_stoi <- lift (rbind (py_getitem data "stoi") (fun v =>
                      match v with
                      | PyDict entries => stoi_of_entries entries []
                      | _ => throw (TypeError (Msg "no attribute 'items'"))
                      end)) ;;
  set_stoi new_stoi ;;
  pad <- lift (py_getitem data "pad_id") ;;
  set_pad_id pad ;;
  unk <- lift (py_getitem data "unk_id") ;;
  set_unk_id unk ;;
  (* Rebuild inverse + size *)
  self <- get_self ;;
  set_itos (invert (stoi self)) ;;
  self <- get_self ;;
  set_vocab_size (dict_len (stoi self)) ;;
  (* Sanity: mappings must invert *)
  self <- get_self ;;
  bad <- lift (mapping_mismatch self) ;;
  if bad then
    raise (ValueError (Msg "Loaded tokenizer has inconsistent stoi/itos."))
  else ret tt.

Close Scope method_scope.

(** [tok = cls(); tok.load(path); return tok] *)
Definition from_file (fs : FS os) (path : string) : result CharTokenizer :=
  match load fs path __init__ with
  | (inl e, _) => inl e
  | (inr _, tok) => ok tok
  end.
End Persistence.

(** ** An in-memory file system for the examples

    Files are a dictionary from path to text; every directory exists and
    no file descriptor is open. *)

Definition mem_os : os_module :=
  {| FS := dict string string;
     File := string;
     isfile := fun fs p => dict_mem fs p;
     open_r := fun fs p =>
       match dict_get fs p with
       | Some text => ok text
       | None => throw (FileNotFoundError (MsgRepr "No such file: " (PyStr p)))
       end;
     read := fun text => ok text;
     abspath := fun _ p => p;
     dirname := fun _ => "";
     isdir := fun _ _ => true;
     makedirs := fun fs _ => (ok tt, fs);
     write_fd := fun fs _ _ => (throw (OSError (Msg "Bad file descriptor")), fs);
     replace := fun fs src dst =>
       match dict_get fs src with
       | Some text =>
           (ok tt, dict_set (filter (fun e => negb (fst e =? src)%string) fs)
                            dst text)
       | None => (throw (FileNotFoundError (MsgRepr "No such file: " (PyStr src))),
                  fs)
       end;
     path_exists := fun fs p => dict_mem fs p;
     remove := fun fs p =>
       if dict_mem fs p
       then (ok tt, filter (fun e => negb (fst e =? p)%string) fs)
       else (throw (FileNotFoundError (MsgRepr "No such file: " (PyStr p))), fs)
  |}.

(** A file system without files. *)
Definition no_files : FS mem_os := [].

(** [tok = CharTokenizer(); tok.fit(text, include_specials)] *)
Definition fitted_on (text : string) (include_specials : bool)
  : CharTokenizer :=
  snd (fit mem_os no_files (PyStr text) include_specials 1 __init__).


(** ** Notions used to state the properties *)

(** [key(x) <= key(y)], as the sort sees it: not [key(y) < key(x)]. *)
Definition key_le (x y : string * Z) : bool := negb (key_lt y x).

(** An entry [(s, i)] of [stoi] as the entry [(i, s)] of [itos]. *)
Definition swap (si : string * Z) : Z * string := (snd si, fst si).

(** How often the character [ch] occurs in [corpus]. *)
Definition occurrences (ch : string) (corpus : string) : Z :=
  Z.of_nat (count_occ string_dec (chars corpus) ch).

(** One step of [Counter]: [d[ch] = d.get(ch, 0) + 1]. *)
Definition count_step (d : dict string Z) (ch : string) : dict string Z :=
  dict_set d ch (dict_get_default d ch 0 + 1).

(** Line 42: the entries of the counter that reach [min_freq]. *)
Definition survivors (corpus : string) (min_freq : Z) : list (string * Z) :=
  filter (fun x => min_freq <=? snd x) (Counter corpus).

(** The surviving characters in the order of line 47. *)
Definition ranked (corpus : string) (min_freq : Z) : list string :=
  dict_keys (sort_items (survivors corpus min_freq)).

(** Consecutive ids from [start], in list order. *)
Fixpoint number (keys : list string) (start : Z) : dict string Z :=
  match keys with
  | [] => []
  | k :: keys' => (k, start) :: number keys' (start + 1)
  end.

(** Lines 54-60: the entries of the two special tokens. *)
Definition specials (include_specials : bool) : dict string Z :=
  if include_specials then [("<PAD>", 0); ("<UNK>", 1)] else [].

(** The value of [idx] when the loop of line 61 starts. *)
Definition first_id (include_specials : bool) : Z :=
  if include_specials then 2 else 0.

(** [stoi] after the loop, for the characters [order]. *)
Definition vocabulary (include_specials : bool) (order : list string)
  : dict string Z :=
  specials include_specials ++ number order (first_id include_specials).

(** The instance when [fit] returns. *)
Definition built (include_specials : bool) (order : list string)
  : CharTokenizer :=
  {| stoi := vocabulary include_specials order;
     itos := map swap (vocabulary include_specials order);
     pad_id := if include_specials then PyInt 0 else PyNone;
     unk_id := if include_specials then PyInt 1 else PyNone;
     vocab_size := dict_len (vocabulary include_specials order) |}.

(** A one-character string. *)
Definition is_char (s : string) : Prop := exists c, s = String c EmptyString.

(** [a] comes before [b] in the vocabulary: more frequent, or as frequent
    and of smaller code. *)
Definition precedes (corpus : string) (a b : string) : Prop :=
  occurrences b corpus < occurrences a corpus \/
  (occurrences a corpus = occurrences b corpus /\ String.ltb a b = true).

(** What a successful [fit] or [load] establishes. *)
Record consistent (self : CharTokenizer) : Prop := {
  consistent_keys : NoDup (dict_keys (stoi self));
  consistent_values : NoDup (dict_values (stoi self));
  consistent_itos : itos self = map swap (stoi self);
  consistent_size : vocab_size self = dict_len (stoi self)
}.

(** The instance that [load] installs before its sanity check. *)
Definition candidate (d : dict string Z) (pad unk : pyval) : CharTokenizer :=
  {| stoi := d; itos := invert d; pad_id := pad; unk_id := unk;
     vocab_size := dict_len d |}.

(** Line 154. *)
Definition inconsistent_error : exn :=
  ValueError (Msg "Loaded tokenizer has inconsistent stoi/itos.").

(** The instances obtained from a new one by calls of [fit] and [load],
    whether the calls succeed or raise.  The other methods do not assign to
    [self]. *)
Inductive reachable (os : os_module) (G : globals os)
  : CharTokenizer -> Prop :=
| reach_new : reachable os G __init__
| reach_fit (self : CharTokenizer) (fs : FS os) (src : pyval) (sp : bool)
            (min_freq : Z) :
    reachable os G self ->
    reachable os G (snd (fit os fs src sp min_freq self))
| reach_load (self : CharTokenizer) (fs : FS os) (path : string) :
    reachable os G self ->
    reachable os G (snd (load os G fs path self)).

(** The result of a successful [fit]. *)
Definition fit_built (self : CharTokenizer) : Prop :=
  exists sp corpus min_freq,
    (sp = true \/ survivors corpus min_freq <> []) /\
    self = built sp (ranked corpus min_freq).

(** Line 44. *)
Definition empty_vocabulary_error : exn :=
  ValueError (Msg
    "No characters meet the frequency threshold; cannot build vocab.").

(** A successful [fit] or [load] has just returned [self]. *)
Inductive established (os : os_module) (G : globals os)
  : CharTokenizer -> Prop :=
| established_fit (fs : FS os) (src : pyval) (sp : bool) (min_freq : Z)
                  (self self' : CharTokenizer) :
    fit os fs src sp min_freq self = (inr tt, self') ->
    established os G self'
| established_load (fs : FS os) (path : string)
                   (self self' : CharTokenizer) :
    load os G fs path self = (inr tt, self') ->
    established os G self'.

(** A decoder given by a table of the documents it knows, for examples. *)
Definition json_table (table : dict string pyval) : json_module :=
  {| loads := fun text =>
       match dict_get table text with
       | Some v => ok v
       | None => throw (JSONDecodeError (Msg "Expecting value"))
       end;
     dumps := fun _ => "" |}.

(** [json] bound, [tempfile] not. *)
Definition with_json (os : os_module) (json : json_module) : globals os :=
  {| g_json := Some json; g_tempfile := None |}.

(** Both names bound, as [import json] and [import tempfile] would. *)
Definition intended_globals (os : os_module) (json : json_module)
           (tempfile : tempfile_module os) : globals os :=
  {| g_json := Some json; g_tempfile := Some tempfile |}.

(** The document [{"stoi": {"a": 0, "b": 0}, "pad_id": null,
    "unk_id": null}]. *)
Definition duplicate_ids : pyval :=
  PyDict [("stoi", PyDict [("a", PyInt 0); ("b", PyInt 0)]);
          ("pad_id", PyNone); ("unk_id", PyNone)].

(** The document [{"stoi": {"a": 0, "b": 1}, "pad_id": null,
    "unk_id": null}]. *)
Definition two_letters : pyval :=
  PyDict [("stoi", PyDict [("a", PyInt 0); ("b", PyInt 1)]);
          ("pad_id", PyNone); ("unk_id", PyNone)].

(** The entries of the [stoi] object of a document. *)
Definition serialized_stoi (doc : pyval) : list (string * pyval) :=
  match py_getitem doc "stoi" with
  | inr (PyDict entries) => entries
  | _ => []
  end.

(** What [self.stoi.get(ch, self.unk_id)] returns. *)
Definition stoi_or_unk (self : CharTokenizer) (ch : string) : pyval :=
  match dict_get (stoi self) ch with
  | Some i => PyInt i
  | None => unk_id self
  end.

(** The first character of [text] that is not in the vocabulary. *)
Definition first_unknown (self : CharTokenizer) (text : string)
  : option string :=
  find (fun ch => negb (dict_mem (stoi self) ch)) (chars text).

(** The ids of the characters of [text]. *)
Definition ids_of (self : CharTokenizer) (text : string) : list Z :=
  map (fun ch => dict_get_default (stoi self) ch 0) (chars text).

(** The text ["hello\n"] of the tests. *)
Definition hello : string := "hello" ++ newline.

(** The first of [token_ids] that is not a key of [itos]. *)
Definition first_absent (self : CharTokenizer) (token_ids : list Z)
  : option Z :=
  find (fun i => negb (dict_mem (itos self) i)) token_ids.

(** Where it stands in [token_ids]. *)
Fixpoint first_absent_position (self : CharTokenizer) (token_ids : list Z)
  : option nat :=
  match token_ids with
  | [] => None
  | i :: rest =>
      if dict_mem (itos self) i
      then option_map S (first_absent_position self rest)
      else Some O
  end.

(** ** Notions used to state further properties *)

(** Line 20. *)
Definition already_fitted_error : exn :=
  ValueError (Msg
    "Tokenizer is already fitted. Please create a new instance to fit again.").

(** Line 99. *)
Definition save_not_fitted_error : exn :=
  RuntimeError (Msg "Tokenizer not fitted. Call fit(...) before save().").

(** Line 31, for the entry [p]. *)
Definition bad_entry_error (p : pyval) : exn :=
  ValueError (MsgRepr "Expected file path string, got: " p).

(** Line 35. *)
Definition no_files_error : exn :=
  ValueError (Msg "No files provided to build a corpus.").

(** Line 140. *)
Definition bad_stoi_error : exn :=
  ValueError (Msg "Invalid tokenizer file: missing or bad 'stoi'.").

(** Line 142. *)
Definition missing_ids_error : exn :=
  ValueError (Msg "Invalid tokenizer file: missing 'pad_id'/'unk_id'.").

(** [ch] is a key of [stoi]. *)
Definition known (self : CharTokenizer) (ch : string) : bool :=
  dict_mem (stoi self) ch.

(** The entry [p] of a list of paths names a file that can be read. *)
Definition readable (os : os_module) (fs : FS os) (p : pyval)
           (content : string) : Prop :=
  exists s, p = PyStr s /\ isfile os fs s = true
            /\ read_file os fs s = inr content.

(** An entry that line 30 rejects. *)
Definition rejected (os : os_module) (fs : FS os) (p : pyval) : Prop :=
  match p with
  | PyStr s => isfile os fs s = false
  | _ => True
  end.

(** The file at [path] exists and opens, [json] is bound, and
    [json.load] returns [data]. *)
Definition serves (os : os_module) (G : globals os) (fs : FS os)
           (path : string) (data : pyval) : Prop :=
  isfile os fs path = true /\
  exists f json,
    open_r os fs path = inr f /\ g_json G = Some json /\
    rbind (read os f) (loads json) = inr data.

(** An instance that is not fitted although its reserved ids are set, as
    [load] leaves it after a document with an empty [stoi]. *)
Definition leftover : CharTokenizer :=
  {| stoi := []; itos := []; pad_id := PyInt 7; unk_id := PyInt 8;
     vocab_size := 0 |}.

(** The document [{"stoi": {}, "pad_id": 7, "unk_id": 8}]. *)
Definition empty_stoi_doc : pyval :=
  PyDict [("stoi", PyDict []); ("pad_id", PyInt 7); ("unk_id", PyInt 8)].

(** The document [{"stoi": {"a": 0}, "pad_id": null}]. *)
Definition no_unk_doc : pyval :=
  PyDict [("stoi", PyDict [("a", PyInt 0)]); ("pad_id", PyNone)].

(** A file system that holds the one file [vocab.json], and the bindings
    under which [json.load] of that file returns [data]. *)
Definition one_file : FS mem_os := [("vocab.json", "doc")].
Definition decoding_to (data : pyval) : globals mem_os :=
  with_json mem_os (json_table [("doc", data)]).

(** Lines 30-33 on one entry of the list: read it, or raise. *)
Definition read_entry (os : os_module) (fs : FS os) (p : pyval)
  : result string :=
  match p with
  | PyStr s =>
      if isfile os fs s then read_file os fs s
      else throw (bad_entry_error p)
  | _ => throw (bad_entry_error p)
  end.

(** * Facts *)

(** ** The order on strings *)

Lemma ascii_compare_refl (a : ascii) : Ascii.compare a a = Eq.
Proof. unfold Ascii.compare. apply N.compare_refl. Qed.

Lemma ascii_compare_lt_trans (a b c : ascii) :
  Ascii.compare a b = Lt -> Ascii.compare b c = Lt -> Ascii.compare a c = Lt.
Proof.
  unfold Ascii.compare. rewrite !N.compare_lt_iff. lia.
Qed.

Lemma string_compare_refl (s : string) : String.compare s s = Eq.
Proof.
  induction s as [|a s IH]; simpl; [reflexivity|].
  now rewrite ascii_compare_refl.
Qed.

Lemma string_compare_lt_trans (s1 s2 s3 : string) :
  String.compare s1 s2 = Lt -> String.compare s2 s3 = Lt ->
  String.compare s1 s3 = Lt.
Proof.
  revert s2 s3.
  induction s1 as [|a s1 IH]; intros [|b s2] [|c s3]; simpl;
    try congruence.
  destruct (Ascii.compare a b) eqn:Hab; try discriminate;
    destruct (Ascii.compare b c) eqn:Hbc; try discriminate; intros H12 H23.
  - apply Ascii.compare_eq_iff in Hab, Hbc. subst.
    rewrite ascii_compare_refl. eauto.
  - apply Ascii.compare_eq_iff in Hab. subst. now rewrite Hbc.
  - apply Ascii.compare_eq_iff in Hbc. subst. now rewrite Hab.
  - now rewrite (ascii_compare_lt_trans _ _ _ Hab Hbc).
Qed.

Lemma string_ltb_irrefl (s : string) : String.ltb s s = false.
Proof. unfold String.ltb. now rewrite string_compare_refl. Qed.

Lemma string_ltb_trans (s1 s2 s3 : string) :
  String.ltb s1 s2 = true -> String.ltb s2 s3 = true ->
  String.ltb s1 s3 = true.
Proof.
  unfold String.ltb.
  destruct (String.compare s1 s2) eqn:H12; try discriminate.
  destruct (String.compare s2 s3) eqn:H23; try discriminate.
  now rewrite (string_compare_lt_trans _ _ _ H12 H23).
Qed.

Lemma string_ltb_total (s1 s2 : string) :
  String.ltb s1 s2 = false -> String.ltb s2 s1 = false -> s1 = s2.
Proof.
  unfold String.ltb. rewrite (String.compare_antisym s2 s1).
  destruct (String.compare s1 s2) eqn:H12; simpl; try discriminate.
  intros _ _. now apply String.compare_eq_iff.
Qed.

(** On characters the order is the order of the codes. *)
Lemma char_ltb_code (a b : ascii) :
  String.ltb (String a EmptyString) (String b EmptyString) = true <->
  (N_of_ascii a < N_of_ascii b)%N.
Proof.
  unfold String.ltb. simpl. unfold Ascii.compare.
  destruct (N.compare_spec (N_of_ascii a) (N_of_ascii b)); simpl;
    split; intros; try discriminate; try lia; reflexivity.
Qed.

(** ** The order of the sort key *)

Lemma key_lt_spec (x y : string * Z) :
  key_lt x y = true <->
  snd y < snd x \/ (snd x = snd y /\ String.ltb (fst x) (fst y) = true).
Proof.
  unfold key_lt.
  destruct (Z.eqb_spec (- snd x) (- snd y)) as [E|E].
  - split; [intros Hs; right; split; [lia | exact Hs]|].
    intros [Hlt | [_ Hs]]; [lia | exact Hs].
  - rewrite Z.ltb_lt. split; [intros; left; lia|].
    intros [Hlt | [Heq _]]; lia.
Qed.

Lemma key_lt_trans (x y z : string * Z) :
  key_lt x y = true -> key_lt y z = true -> key_lt x z = true.
Proof.
  rewrite !key_lt_spec.
  intros [H1 | [E1 S1]] [H2 | [E2 S2]]; try (left; lia).
  right. split; [lia|]. eapply string_ltb_trans; eauto.
Qed.

Lemma key_lt_total (x y : string * Z) :
  key_lt x y = false -> key_lt y x = false -> x = y.
Proof.
  intros Hxy Hyx.
  assert (Hs : snd x = snd y).
  { destruct (Z.lt_trichotomy (snd x) (snd y)) as [L | [E | L]]; auto.
    - assert (key_lt y x = true) by (apply key_lt_spec; left; lia).
      congruence.
    - assert (key_lt x y = true) by (apply key_lt_spec; left; lia).
      congruence. }
  assert (Hf : fst x = fst y).
  { apply string_ltb_total.
    - destruct (String.ltb (fst x) (fst y)) eqn:E; auto.
      assert (key_lt x y = true) by (apply key_lt_spec; right; auto).
      congruence.
    - destruct (String.ltb (fst y) (fst x)) eqn:E; auto.
      assert (key_lt y x = true) by (apply key_lt_spec; right; auto).
      congruence. }
  destruct x, y; simpl in *; congruence.
Qed.

Lemma key_lt_asym (x y : string * Z) :
  key_lt x y = true -> key_lt y x = false.
Proof.
  intros Hxy. destruct (key_lt y x) eqn:Hyx; auto.
  pose proof (key_lt_trans _ _ _ Hxy Hyx) as Hxx.
  apply key_lt_spec in Hxx.
  rewrite string_ltb_irrefl in Hxx. destruct Hxx as [? | [_ ?]];
    [lia | discriminate].
Qed.

Lemma key_le_trans (x y z : string * Z) :
  key_le x y = true -> key_le y z = true -> key_le x z = true.
Proof.
  unfold key_le. rewrite !negb_true_iff. intros Hyx Hzy.
  destruct (key_lt z x) eqn:Hzx; auto.
  destruct (key_lt x y) eqn:Hxy.
  - pose proof (key_lt_trans _ _ _ Hzx Hxy). congruence.
  - pose proof (key_lt_total _ _ Hxy Hyx). subst. congruence.
Qed.

(** ** Sorting *)

Lemma insert_item_perm (x : string * Z) (l : list (string * Z)) :
  Permutation (x :: l) (insert_item x l).
Proof.
  induction l as [|y l IH]; simpl; [reflexivity|].
  destruct (key_lt y x); [|reflexivity].
  rewrite perm_swap. now constructor.
Qed.

Lemma sort_items_perm (l : list (string * Z)) :
  Permutation l (sort_items l).
Proof.
  induction l as [|x l IH]; simpl; [constructor|].
  rewrite <- insert_item_perm. now constructor.
Qed.

Lemma insert_item_sorted (x : string * Z) (l : list (string * Z)) :
  StronglySorted (fun a b => key_le a b = true) l ->
  StronglySorted (fun a b => key_le a b = true) (insert_item x l).
Proof.
  induction 1 as [|y l Hs IH Hy]; simpl.
  - repeat constructor.
  - destruct (key_lt y x) eqn:Hyx.
    + constructor; [exact IH|].
      rewrite <- insert_item_perm. constructor; [|exact Hy].
      unfold key_le. now rewrite (key_lt_asym _ _ Hyx).
    + assert (Hxy : key_le x y = true) by (unfold key_le; now rewrite Hyx).
      constructor; [now constructor|].
      constructor; [exact Hxy|].
      eapply Forall_impl; [|exact Hy].
      intros z Hz. eapply key_le_trans; eauto.
Qed.

Lemma sort_items_sorted (l : list (string * Z)) :
  StronglySorted (fun a b => key_le a b = true) (sort_items l).
Proof.
  induction l as [|x l IH]; simpl; [constructor|].
  now apply insert_item_sorted.
Qed.

(** ** Dictionaries *)

Section DictFacts.
Context {K V : Type} `{Key K}.
Implicit Types (d : dict K V) (k : K) (v : V).

Lemma key_eqb_refl k : key_eqb k k = true.
Proof. destruct (key_eqb_spec k k); congruence. Qed.

Lemma key_eqb_neq k k' : k <> k' -> key_eqb k k' = false.
Proof. destruct (key_eqb_spec k k'); congruence. Qed.

Lemma dict_get_In d k v : dict_get d k = Some v -> In (k, v) d.
Proof.
  induction d as [|[k' v'] d IH]; simpl; [discriminate|].
  destruct (key_eqb_spec k k') as [->|_].
  - intros [= ->]. now left.
  - intros Hg. right. auto.
Qed.

Lemma dict_get_None d k :
  dict_get d k = None <-> ~ In k (dict_keys d).
Proof.
  induction d as [|[k' v'] d IH]; simpl; [tauto|].
  destruct (key_eqb_spec k k') as [->|Hne].
  - split; [discriminate | intros Hn; exfalso; apply Hn; now left].
  - rewrite IH. split; [intros Hn [E|Hi]; congruence | tauto].
Qed.

Lemma In_dict_get d k v :
  NoDup (dict_keys d) -> In (k, v) d -> dict_get d k = Some v.
Proof.
  induction d as [|[k' v'] d IH]; simpl; [tauto|].
  intros Hnd [E|Hi].
  - injection E as -> ->. now rewrite key_eqb_refl.
  - inversion Hnd as [|? ? Hnotin Hnd']; subst.
    rewrite key_eqb_neq; [now apply IH|].
    intros ->. apply Hnotin. apply (in_map fst) in Hi. exact Hi.
Qed.

Lemma dict_mem_true d k : dict_mem d k = true <-> In k (dict_keys d).
Proof.
  unfold dict_mem. destruct (dict_get d k) eqn:E.
  - split; [intros _|reflexivity].
    apply dict_get_In in E. apply (in_map fst) in E. exact E.
  - apply dict_get_None in E. split; [discriminate | tauto].
Qed.

Lemma dict_mem_false d k : dict_mem d k = false <-> ~ In k (dict_keys d).
Proof.
  rewrite <- dict_mem_true. destruct (dict_mem d k); split;
    congruence.
Qed.

(** Assigning to a new key appends an entry. *)
Lemma dict_set_fresh d k v :
  ~ In k (dict_keys d) -> dict_set d k v = d ++ [(k, v)].
Proof.
  induction d as [|[k' v'] d IH]; simpl; [reflexivity|].
  intros Hn. rewrite key_eqb_neq by (intros ->; apply Hn; now left).
  now rewrite IH by tauto.
Qed.

(** Assigning never changes the keys already there, nor their order. *)
Lemma dict_set_keys d k v :
  dict_keys (dict_set d k v) =
  if dict_mem d k then dict_keys d else dict_keys d ++ [k].
Proof.
  induction d as [|[k' v'] d IH]; simpl; [reflexivity|].
  unfold dict_mem in *. simpl.
  destruct (key_eqb_spec k k') as [->|Hne]; simpl; [reflexivity|].
  rewrite IH. now destruct (dict_get d k).
Qed.

Lemma dict_set_NoDup d k v :
  NoDup (dict_keys d) -> NoDup (dict_keys (dict_set d k v)).
Proof.
  intros Hnd. rewrite dict_set_keys.
  destruct (dict_mem d k) eqn:E; [exact Hnd|].
  apply dict_mem_false in E.
  apply (Permutation_NoDup (l := k :: dict_keys d)).
  - rewrite Permutation_app_comm. reflexivity.
  - now constructor.
Qed.

Lemma dict_get_set d k v k' :
  dict_get (dict_set d k v) k' =
  if key_eqb k' k then Some v else dict_get d k'.
Proof.
  induction d as [|[k0 v0] d IH]; simpl.
  - now destruct (key_eqb k' k).
  - destruct (key_eqb_spec k k0) as [->|Hne]; simpl.
    + now destruct (key_eqb k' k0).
    + rewrite IH. destruct (key_eqb_spec k' k0) as [->|Hne'].
      * now rewrite key_eqb_neq by congruence.
      * reflexivity.
Qed.
End DictFacts.

(** Folding assignments over a dictionary with unique keys keeps them
    unique. *)
Lemma stoi_of_entries_NoDup (entries : list (string * pyval))
      (acc d : dict string Z) :
  NoDup (dict_keys acc) -> stoi_of_entries entries acc = inr d ->
  NoDup (dict_keys d).
Proof.
  revert acc. induction entries as [|[s i] rest IH]; simpl; intros acc Hnd.
  - intros [= <-]. exact Hnd.
  - destruct (py_int i) as [e|z]; simpl; [discriminate|].
    apply IH. now apply dict_set_NoDup.
Qed.

(** ** Inverting a mapping *)

Lemma invert_fold_fresh (d : dict string Z) (acc : dict Z string) :
  NoDup (dict_keys acc ++ dict_values d) ->
  fold_left (fun acc si => dict_set acc (snd si) (fst si)) d acc =
  acc ++ map swap d.
Proof.
  revert acc. induction d as [|[s i] d IH]; simpl; intros acc Hnd.
  - now rewrite app_nil_r.
  - assert (Hfresh : ~ In i (dict_keys acc)).
    { apply NoDup_remove_2 in Hnd. intros Hi. apply Hnd.
      apply in_or_app. now left. }
    rewrite dict_set_fresh by exact Hfresh.
    rewrite IH.
    + now rewrite <- app_assoc.
    + unfold dict_keys. rewrite map_app. simpl.
      rewrite <- app_assoc. simpl. exact Hnd.
Qed.

(** When no id is used twice, the inverse lists the same entries,
    swapped. *)
Lemma invert_NoDup (d : dict string Z) :
  NoDup (dict_values d) -> invert d = map swap d.
Proof.
  intros Hnd. unfold invert. now rewrite invert_fold_fresh.
Qed.

(** ** Counting *)

Lemma count_fold_get (l : list string) (d : dict string Z) (ch : string) :
  dict_get (fold_left count_step l d) ch =
  if (count_occ string_dec l ch =? 0)%nat then dict_get d ch
  else Some (dict_get_default d ch 0 + Z.of_nat (count_occ string_dec l ch)).
Proof.
  revert d. induction l as [|x l IH]; intros d; simpl; [reflexivity|].
  rewrite IH. unfold dict_get_default.
  replace (dict_get (count_step d x) ch)
    with (if (ch =? x)%string
          then Some (dict_get_default d x 0 + 1) else dict_get d ch)
    by (unfold count_step; now rewrite dict_get_set).
  unfold dict_get_default.
  destruct (string_dec x ch) as [->|Hne].
  - rewrite String.eqb_refl.
    destruct (count_occ string_dec l ch) as [|n]; simpl; f_equal; lia.
  - destruct (String.eqb_spec ch x) as [->|_]; [congruence|].
    reflexivity.
Qed.

Lemma count_fold_NoDup (l : list string) (d : dict string Z) :
  NoDup (dict_keys d) -> NoDup (dict_keys (fold_left count_step l d)).
Proof.
  revert d. induction l as [|x l IH]; intros d Hnd; simpl; [exact Hnd|].
  apply IH. now apply dict_set_NoDup.
Qed.

Lemma Counter_get (corpus ch : string) :
  dict_get (Counter corpus) ch =
  if occurrences ch corpus =? 0 then None else Some (occurrences ch corpus).
Proof.
  unfold Counter, occurrences.
  change (fun d ch0 => dict_set d ch0 (dict_get_default d ch0 0 + 1))
    with count_step.
  rewrite count_fold_get. simpl.
  destruct (Nat.eqb_spec (count_occ string_dec (chars corpus) ch) 0) as [E|E].
  - now rewrite E.
  - destruct (Z.eqb_spec (Z.of_nat (count_occ string_dec (chars corpus) ch)) 0);
      [lia | reflexivity].
Qed.

Lemma Counter_NoDup (corpus : string) : NoDup (dict_keys (Counter corpus)).
Proof. apply count_fold_NoDup. constructor. Qed.

Lemma occurrences_pos (ch corpus : string) :
  0 < occurrences ch corpus <-> In ch (chars corpus).
Proof.
  unfold occurrences. rewrite (count_occ_In string_dec). lia.
Qed.

(** The entries of the counter are the characters of the corpus, each with
    its number of occurrences. *)
Lemma Counter_In (corpus ch : string) (c : Z) :
  In (ch, c) (Counter corpus) <->
  In ch (chars corpus) /\ c = occurrences ch corpus.
Proof.
  split.
  - intros Hin. apply In_dict_get in Hin; [|apply Counter_NoDup].
    rewrite Counter_get in Hin.
    destruct (Z.eqb_spec (occurrences ch corpus) 0); [discriminate|].
    injection Hin as <-. split; [|reflexivity].
    apply occurrences_pos. unfold occurrences in *. lia.
  - intros [Hin ->]. apply dict_get_In. rewrite Counter_get.
    apply occurrences_pos in Hin.
    destruct (Z.eqb_spec (occurrences ch corpus) 0); [lia | reflexivity].
Qed.

(** ** The vocabulary that [fit] builds *)

Lemma chars_is_char (text ch : string) : In ch (chars text) -> is_char ch.
Proof.
  unfold chars. rewrite in_map_iff. intros [c [<- _]]. now exists c.
Qed.

Lemma number_keys (keys : list string) (start : Z) :
  dict_keys (number keys start) = keys.
Proof.
  revert start. induction keys as [|k keys IH]; intros start; simpl;
    [reflexivity|]. now rewrite IH.
Qed.

Lemma number_length (keys : list string) (start : Z) :
  List.length (number keys start) = List.length keys.
Proof.
  revert start. induction keys as [|k keys IH]; intros start; simpl;
    [reflexivity|]. now rewrite IH.
Qed.

Lemma number_In (keys : list string) (start : Z) (k : string) (i : Z) :
  In (k, i) (number keys start) ->
  In k keys /\ start <= i < start + Z.of_nat (List.length keys).
Proof.
  revert start. induction keys as [|k' keys IH]; intros start; simpl;
    [tauto|].
  intros [E|Hin].
  - injection E as -> ->. split; [now left | lia].
  - apply IH in Hin. split; [tauto | lia].
Qed.

Lemma number_values_NoDup (keys : list string) (start : Z) :
  NoDup (dict_values (number keys start)).
Proof.
  revert start. induction keys as [|k keys IH]; intros start; simpl;
    [constructor|].
  constructor; [|apply IH].
  unfold dict_values. rewrite in_map_iff. intros [[k' i] [E Hin]].
  simpl in E. subst i. apply number_In in Hin. lia.
Qed.

Lemma number_app (l1 l2 : list string) (start : Z) :
  number (l1 ++ l2) start =
  number l1 start ++ number l2 (start + Z.of_nat (List.length l1)).
Proof.
  revert start. induction l1 as [|k l1 IH]; intros start; simpl.
  - now rewrite Z.add_0_r.
  - rewrite IH. do 3 f_equal. lia.
Qed.

Lemma specials_keys_not_char (sp : bool) (k : string) :
  In k (dict_keys (specials sp)) -> ~ is_char k.
Proof.
  destruct sp; simpl; [|tauto].
  intros [<- | [<- | []]] [c Hc]; discriminate.
Qed.

Lemma vocabulary_keys_NoDup (sp : bool) (order : list string) :
  NoDup order -> Forall is_char order ->
  NoDup (dict_keys (vocabulary sp order)).
Proof.
  intros Hnd Hch. unfold vocabulary, dict_keys. rewrite map_app.
  fold (dict_keys (number order (first_id sp))). rewrite number_keys.
  assert (Hsp : forall k, In k (map fst (specials sp)) -> ~ In k order).
  { intros k Hk Hin. apply (specials_keys_not_char sp k Hk).
    rewrite Forall_forall in Hch. auto. }
  destruct sp; simpl in *; [|exact Hnd].
  constructor; [|constructor]; simpl.
  - intros [E | Hin]; [discriminate|]. revert Hin. apply Hsp. now left.
  - apply Hsp. right. now left.
  - exact Hnd.
Qed.

Lemma vocabulary_values_NoDup (sp : bool) (order : list string) :
  NoDup (dict_values (vocabulary sp order)).
Proof.
  unfold vocabulary, dict_values. rewrite map_app.
  pose proof (number_values_NoDup order (first_id sp)) as Hnd.
  assert (Hge : forall i, In i (map snd (number order (first_id sp))) ->
                          first_id sp <= i).
  { intros i. rewrite in_map_iff. intros [[k j] [E Hin]]. simpl in E.
    subst j. apply number_In in Hin. lia. }
  destruct sp; simpl in *; [|exact Hnd].
  constructor; [|constructor]; simpl.
  - intros [E | Hin]; [discriminate|]. apply Hge in Hin. lia.
  - intros Hin. apply Hge in Hin. lia.
  - exact Hnd.
Qed.

Lemma survivors_In (corpus : string) (min_freq : Z) (ch : string) (c : Z) :
  In (ch, c) (survivors corpus min_freq) <->
  In ch (chars corpus) /\ c = occurrences ch corpus /\ min_freq <= c.
Proof.
  unfold survivors. rewrite filter_In, Counter_In. simpl.
  rewrite Z.leb_le. tauto.
Qed.

Lemma NoDup_keys_filter {V} (f : string * V -> bool) (d : dict string V) :
  NoDup (dict_keys d) -> NoDup (dict_keys (filter f d)).
Proof.
  induction d as [|x d IH]; simpl; [auto|].
  intros Hnd. inversion Hnd as [|? ? Hnotin Hnd']; subst.
  destruct (f x); simpl; [|auto].
  constructor; [|auto].
  intros Hin. apply Hnotin. unfold dict_keys in *.
  rewrite in_map_iff in *. destruct Hin as [y [E Hy]].
  exists y. rewrite filter_In in Hy. tauto.
Qed.

Lemma sorted_survivors_In (corpus : string) (min_freq : Z) (x : string * Z) :
  In x (sort_items (survivors corpus min_freq)) <->
  In (fst x) (chars corpus) /\ snd x = occurrences (fst x) corpus
  /\ min_freq <= snd x.
Proof.
  destruct x as [ch c]. simpl. rewrite <- survivors_In.
  split; apply Permutation_in;
    [symmetry|]; apply sort_items_perm.
Qed.

Lemma ranked_In (corpus : string) (min_freq : Z) (ch : string) :
  In ch (ranked corpus min_freq) <->
  In ch (chars corpus) /\ min_freq <= occurrences ch corpus.
Proof.
  unfold ranked, dict_keys. rewrite in_map_iff. split.
  - intros [[k c] [E Hin]]. simpl in E. subst k.
    apply sorted_survivors_In in Hin. simpl in Hin.
    destruct Hin as [Hin [-> Hle]]. tauto.
  - intros [Hin Hle]. exists (ch, occurrences ch corpus).
    split; [reflexivity|]. apply sorted_survivors_In. simpl. tauto.
Qed.

Lemma ranked_NoDup (corpus : string) (min_freq : Z) :
  NoDup (ranked corpus min_freq).
Proof.
  unfold ranked, dict_keys.
  eapply Permutation_NoDup.
  - apply Permutation_map. apply sort_items_perm.
  - apply NoDup_keys_filter. apply Counter_NoDup.
Qed.

Lemma ranked_is_char (corpus : string) (min_freq : Z) :
  Forall is_char (ranked corpus min_freq).
Proof.
  apply Forall_forall. intros ch Hin. apply ranked_In in Hin.
  eapply chars_is_char. apply Hin.
Qed.

Lemma sorted_keys_precede (corpus : string) (items : list (string * Z)) :
  StronglySorted (fun a b => key_le a b = true) items ->
  NoDup (dict_keys items) ->
  (forall x, In x items -> snd x = occurrences (fst x) corpus) ->
  StronglySorted (precedes corpus) (dict_keys items).
Proof.
  induction 1 as [|x items Hs IH Hx]; simpl; intros Hnd Hocc;
    [constructor|].
  inversion Hnd as [|? ? Hnotin Hnd']; subst.
  constructor; [apply IH; auto|].
  apply Forall_forall. intros k Hk.
  unfold dict_keys in Hk. rewrite in_map_iff in Hk.
  destruct Hk as [y [<- Hy]].
  rewrite Forall_forall in Hx. specialize (Hx y Hy).
  unfold key_le in Hx. rewrite negb_true_iff in Hx.
  assert (Hlt : key_lt x y = true).
  { destruct (key_lt x y) eqn:E; auto.
    pose proof (key_lt_total _ _ E Hx). subst y.
    exfalso. apply Hnotin. now apply (in_map fst). }
  apply key_lt_spec in Hlt. unfold precedes.
  rewrite <- (Hocc x) by now left.
  rewrite <- (Hocc y) by now right.
  exact Hlt.
Qed.

Lemma ranked_sorted (corpus : string) (min_freq : Z) :
  StronglySorted (precedes corpus) (ranked corpus min_freq).
Proof.
  apply sorted_keys_precede.
  - apply sort_items_sorted.
  - apply ranked_NoDup.
  - intros x Hx. now apply sorted_survivors_In in Hx.
Qed.

Lemma ranked_nil (corpus : string) (min_freq : Z) :
  ranked corpus min_freq = [] <-> survivors corpus min_freq = [].
Proof.
  unfold ranked, dict_keys. split; intros E.
  - apply map_eq_nil in E.
    apply Permutation_nil. rewrite <- E. symmetry. apply sort_items_perm.
  - now rewrite E.
Qed.

(** ** Running [fit] *)

Lemma assign_ids_fresh (items : list (string * Z)) (idx : Z)
      (self : CharTokenizer) :
  NoDup (dict_keys (stoi self) ++ dict_keys items) ->
  assign_ids items idx self =
  (inr (idx + Z.of_nat (List.length items)),
   snd (set_stoi (stoi self ++ number (dict_keys items) idx) self)).
Proof.
  revert idx self.
  induction items as [|[ch c] rest IH]; intros idx self Hnd; simpl.
  - unfold ret. rewrite app_nil_r, Z.add_0_r. now destruct self.
  - unfold bind, get_self.
    assert (Hfresh : ~ In ch (dict_keys (stoi self))).
    { apply NoDup_remove_2 in Hnd. intros Hin. apply Hnd.
      apply in_or_app. now left. }
    replace (dict_mem (stoi self) ch) with false
      by (symmetry; now apply dict_mem_false).
    unfold stoi_setitem, set_stoi at 1.
    rewrite dict_set_fresh by exact Hfresh.
    rewrite IH; simpl.
    + rewrite <- app_assoc. simpl. do 2 f_equal. lia.
    + unfold dict_keys in *. rewrite map_app. simpl.
      rewrite <- app_assoc. exact Hnd.
Qed.

Lemma anyM_all_false {A} (f : A -> result bool) (l : list A) :
  (forall x, In x l -> f x = ok false) -> anyM f l = ok false.
Proof.
  induction l as [|x l IH]; simpl; intros Hall; [reflexivity|].
  rewrite Hall by now left. simpl. apply IH. auto.
Qed.

Lemma anyM_false_inv {A} (f : A -> result bool) (l : list A) :
  anyM f l = ok false -> forall x, In x l -> f x = ok false.
Proof.
  induction l as [|x l IH]; simpl; intros Hany y; [tauto|].
  destruct (f x) as [e|[|]] eqn:E; simpl in Hany; try discriminate.
  intros [<-|Hin]; auto.
Qed.

Lemma swap_keys (d : dict string Z) :
  dict_keys (map swap d) = dict_values d.
Proof.
  unfold dict_keys, dict_values. rewrite map_map. reflexivity.
Qed.

(** A one-to-one [stoi] and its swapped copy pass the sanity check. *)
Lemma mapping_mismatch_swap (self : CharTokenizer) :
  NoDup (dict_keys (stoi self)) -> NoDup (dict_values (stoi self)) ->
  itos self = map swap (stoi self) ->
  mapping_mismatch self = ok false.
Proof.
  intros Hk Hv Hi. unfold mapping_mismatch.
  apply anyM_all_false. intros s Hs.
  unfold dict_keys in Hs. rewrite in_map_iff in Hs.
  destruct Hs as [[s' i] [E Hin]]. simpl in E. subst s'.
  unfold getitem.
  rewrite (In_dict_get _ _ _ Hk Hin). simpl.
  rewrite Hi.
  rewrite (In_dict_get (map swap (stoi self)) i s).
  - simpl. now rewrite String.eqb_refl.
  - now rewrite swap_keys.
  - apply (in_map swap) in Hin. exact Hin.
Qed.

Section FitFacts.
Context (os : os_module).

(** [fit] raises only before it assigns to [self]. *)
Lemma fit_run (fs : FS os) (src : pyval) (sp : bool) (min_freq : Z)
      (self : CharTokenizer) (corpus : string) :
  is_fitted self = false ->
  read_corpus os fs src = inr corpus ->
  sp = true \/ survivors corpus min_freq <> [] ->
  fit os fs src sp min_freq self =
  (inr tt, built sp (ranked corpus min_freq)).
Proof.
  intros Hunfit Hread Hne.
  unfold fit, bind, get_self, lift. rewrite Hunfit, Hread.
  fold (survivors corpus min_freq).
  assert (Hgate : negb (dict_nonempty (survivors corpus min_freq))
                  && negb sp = false).
  { destruct Hne as [-> | Hne]; [apply andb_false_r|].
    destruct (survivors corpus min_freq); [congruence | reflexivity]. }
  rewrite Hgate.
  pose proof (ranked_NoDup corpus min_freq) as Hnd.
  pose proof (ranked_is_char corpus min_freq) as Hch.
  pose proof (vocabulary_keys_NoDup sp _ Hnd Hch) as Hkeys.
  pose proof (vocabulary_values_NoDup sp (ranked corpus min_freq)) as Hvals.
  unfold vocabulary in Hkeys, Hvals. unfold ranked in *.
  set (items := sort_items (survivors corpus min_freq)) in *.
  assert (Hstoi : forall pad unk size,
    mapping_mismatch
      {| stoi := specials sp ++ number (dict_keys items) (first_id sp);
         itos := map swap
                   (specials sp ++ number (dict_keys items) (first_id sp));
         pad_id := pad; unk_id := unk; vocab_size := size |} = ok false).
  { intros. now apply mapping_mismatch_swap. }
  destruct sp; simpl in *.
  - rewrite assign_ids_fresh; simpl.
    + rewrite invert_NoDup by exact Hvals. simpl.
      rewrite Hstoi. reflexivity.
    + rewrite number_keys in Hkeys. exact Hkeys.
  - rewrite assign_ids_fresh; simpl.
    + rewrite invert_NoDup by exact Hvals.
      assert (Hitems : exists k ks, dict_keys items = k :: ks).
      { destruct Hne as [? | Hne]; [discriminate|].
        destruct (dict_keys items) as [|k ks] eqn:E; [|eauto].
        exfalso. apply Hne. now apply ranked_nil. }
      destruct Hitems as [k [ks Hitems]].
      unfold built, vocabulary. simpl.
      rewrite Hitems in *. simpl in *.
      rewrite Hstoi. reflexivity.
    + rewrite number_keys in Hkeys. exact Hkeys.
Qed.
End FitFacts.

(** ** Consistent instances *)

Lemma consistent_inverse (self : CharTokenizer) (c : string) (i : Z) :
  consistent self ->
  dict_get (stoi self) c = Some i <-> dict_get (itos self) i = Some c.
Proof.
  intros [Hk Hv Hi _]. rewrite Hi. split; intros Hg.
  - apply In_dict_get; [now rewrite swap_keys|].
    apply dict_get_In in Hg. apply (in_map swap) in Hg. exact Hg.
  - apply dict_get_In in Hg. rewrite in_map_iff in Hg.
    destruct Hg as [[c' i'] [E Hin]]. unfold swap in E. simpl in E.
    injection E as -> ->. now apply In_dict_get.
Qed.

Lemma consistent_len (self : CharTokenizer) :
  consistent self -> dict_len (itos self) = dict_len (stoi self).
Proof.
  intros [_ _ Hi _]. rewrite Hi. unfold dict_len. now rewrite length_map.
Qed.

Lemma built_consistent (sp : bool) (order : list string) :
  NoDup order -> Forall is_char order -> consistent (built sp order).
Proof.
  intros Hnd Hch. constructor; simpl; try reflexivity.
  - now apply vocabulary_keys_NoDup.
  - apply vocabulary_values_NoDup.
Qed.

Lemma built_fitted (sp : bool) (order : list string) :
  sp = true \/ order <> [] -> is_fitted (built sp order) = true.
Proof.
  unfold is_fitted, built, vocabulary. simpl.
  intros [-> | Hne]; [reflexivity|].
  destruct order as [|k ks]; [congruence|]. now destruct sp.
Qed.

Lemma NoDup_values_of_injective (d : dict string Z) :
  NoDup (dict_keys d) ->
  (forall x y, In x d -> In y d -> snd x = snd y -> fst x = fst y) ->
  NoDup (dict_values d).
Proof.
  induction d as [|[s i] d IH]; simpl; intros Hnd Hinj; [constructor|].
  inversion Hnd as [|? ? Hnotin Hnd']; subst.
  constructor.
  - unfold dict_values. rewrite in_map_iff. intros [[s' i'] [E Hin]].
    simpl in E. subst i'. apply Hnotin.
    assert (s = s') as ->.
    { apply (Hinj (s, i) (s', i)); auto. }
    now apply (in_map fst) in Hin.
  - apply IH; auto.
Qed.

(** Whatever [itos] is, a passed sanity check means no id is used
    twice. *)
Lemma mismatch_false_injective (self : CharTokenizer) :
  NoDup (dict_keys (stoi self)) ->
  mapping_mismatch self = ok false ->
  NoDup (dict_values (stoi self)).
Proof.
  intros Hk Hm. apply NoDup_values_of_injective; [exact Hk|].
  assert (Hback : forall s i, In (s, i) (stoi self) ->
                              dict_get (itos self) i = Some s).
  { intros s i Hin.
    pose proof (anyM_false_inv _ _ Hm s) as Hs.
    specialize (Hs (in_map fst _ _ Hin)). simpl in Hs.
    unfold getitem in Hs.
    rewrite (In_dict_get _ _ _ Hk Hin) in Hs. simpl in Hs.
    destruct (dict_get (itos self) i) as [s'|]; simpl in Hs;
      [|discriminate].
    destruct (String.eqb_spec s' s); [congruence | discriminate]. }
  intros [s1 i1] [s2 i2] H1 H2 E. simpl in *. subst i2.
  apply Hback in H1, H2. congruence.
Qed.

Section FitInversion.
Context (os : os_module).

(** The two ways [fit] can end. *)
Lemma fit_inv (fs : FS os) (src : pyval) (sp : bool) (min_freq : Z)
      (self self' : CharTokenizer) (r : result unit) :
  fit os fs src sp min_freq self = (r, self') ->
  (exists e, r = inl e /\ self' = self) \/
  (r = inr tt /\ is_fitted self = false /\
   exists corpus,
     read_corpus os fs src = inr corpus /\
     (sp = true \/ survivors corpus min_freq <> []) /\
     self' = built sp (ranked corpus min_freq)).
Proof.
  destruct (is_fitted self) eqn:Hf.
  { unfold fit, bind, get_self. rewrite Hf. unfold raise.
    intros [= <- <-]. left. eauto. }
  destruct (read_corpus os fs src) as [e|corpus] eqn:Hr.
  { unfold fit, bind, get_self, lift. rewrite Hf, Hr.
    intros [= <- <-]. left. eauto. }
  destruct sp eqn:Hsp.
  - rewrite (fit_run os fs src true min_freq self corpus Hf Hr)
      by now left.
    intros [= <- <-]. right. repeat split; eauto 6.
  - destruct (survivors corpus min_freq) as [|x l] eqn:Hs.
    + unfold fit, bind, get_self, lift. rewrite Hf, Hr.
      fold (survivors corpus min_freq). rewrite Hs. simpl. unfold raise.
      intros [= <- <-]. left. eauto.
    + rewrite (fit_run os fs src false min_freq self corpus Hf Hr)
        by (right; congruence).
      intros [= <- <-]. right. repeat split; auto.
      exists corpus. repeat split; auto. right. congruence.
Qed.

Lemma fit_ok_built (fs : FS os) (src : pyval) (sp : bool) (min_freq : Z)
      (self self' : CharTokenizer) :
  fit os fs src sp min_freq self = (inr tt, self') ->
  exists corpus,
    read_corpus os fs src = inr corpus /\
    (sp = true \/ survivors corpus min_freq <> []) /\
    self' = built sp (ranked corpus min_freq).
Proof.
  intros Hfit. apply fit_inv in Hfit.
  destruct Hfit as [[e [? _]] | [_ [_ Hb]]]; [discriminate | exact Hb].
Qed.
End FitInversion.

(** ** [int] on strings *)

(** White space around the digits is skipped, the separators 28-31 are
    not; underscores stand between digits only. *)
Example int_of_str_spaces :
  int_of_str (String (ascii_of_nat 9) " 7 ") = IntValue 7 /\
  int_of_str (String (ascii_of_nat 133) "-7") = IntValue (-7) /\
  int_of_str (String (ascii_of_nat 160) "+1_0") = IntValue 10 /\
  int_of_str (String (ascii_of_nat 28) "7") = IntInvalid /\
  int_of_str (String (ascii_of_nat 31) "7") = IntInvalid /\
  int_of_str "- 7" = IntInvalid /\
  int_of_str "1__0" = IntInvalid /\
  int_of_str "_1" = IntInvalid /\
  int_of_str "1_" = IntInvalid /\
  int_of_str EmptyString = IntInvalid.
Proof. repeat split. Qed.

(** 4300 digits are read, 4301 are refused, whatever follows them. *)
Example int_of_str_digit_limit :
  (exists z,
     int_of_str (string_of_list_ascii (repeat "1"%char 4300)) = IntValue z) /\
  int_of_str (string_of_list_ascii (repeat "0"%char 4301)) = IntTooLong 4301 /\
  int_of_str (string_of_list_ascii (repeat "1"%char 4301 ++ ["x"%char]))
  = IntTooLong 4301 /\
  too_many_digits_error 4301
  = ValueError (Msg "Exceeds the limit (4300 digits) for integer string conversion: value has 4301 digits; use sys.set_int_max_str_digits() to increase the limit").
Proof.
  split; [eexists; vm_compute; reflexivity|].
  repeat split; vm_compute; reflexivity.
Qed.

Lemma py_int_refuses (v : pyval) :
  match v with PyNone | PyList _ | PyDict _ => True | _ => False end ->
  py_int v
  = inl (TypeError (Msg ("int() argument must be a string, a bytes-like object or a real number, not '"
                         ++ type_name v ++ "'"))).
Proof. destruct v; simpl; tauto. Qed.

(** ** Running [load] *)

Lemma invert_fold_keys (d : dict string Z) (acc : dict Z string) (i : Z) :
  In i (dict_keys acc) \/ In i (dict_values d) ->
  In i (dict_keys
          (fold_left (fun acc si => dict_set acc (snd si) (fst si)) d acc)).
Proof.
  revert acc. induction d as [|[s j] d IH]; simpl; intros acc Hin;
    [tauto|].
  apply IH. rewrite dict_set_keys.
  destruct (dict_mem acc j) eqn:Hm.
  - apply dict_mem_true in Hm.
    destruct Hin as [Hin | [<- | Hin]]; auto.
  - rewrite in_app_iff. simpl.
    destruct Hin as [Hin | [<- | Hin]]; auto.
Qed.

Lemma anyM_total {A} (f : A -> result bool) (l : list A) :
  (forall x, In x l -> exists b, f x = ok b) -> exists b, anyM f l = ok b.
Proof.
  induction l as [|x l IH]; simpl; intros Hall; [eauto|].
  destruct (Hall x) as [b Hb]; [now left|]. rewrite Hb. simpl.
  destruct b; [eauto|]. apply IH. auto.
Qed.

(** After [itos] has been rebuilt from [stoi], the sanity check itself
    cannot raise. *)
Lemma mapping_mismatch_total (self : CharTokenizer) :
  itos self = invert (stoi self) ->
  exists b, mapping_mismatch self = ok b.
Proof.
  intros Hi. unfold mapping_mismatch. apply anyM_total.
  intros s Hs. unfold getitem.
  destruct (dict_get (stoi self) s) as [i|] eqn:Hg.
  - simpl.
    assert (Hin : In i (dict_keys (itos self))).
    { rewrite Hi. unfold invert. apply invert_fold_keys. right.
      apply dict_get_In in Hg. now apply (in_map snd) in Hg. }
    destruct (dict_get (itos self) i) as [s'|] eqn:Hg'; simpl; [eauto|].
    apply dict_get_None in Hg'. tauto.
  - apply dict_get_None in Hg. tauto.
Qed.

(** The call has raised and [self] is as it was. *)
Ltac raised_early := intros [= <- <-]; left; eauto.

Section LoadFacts.
Context (os : os_module) (G : globals os).

(** The three ways [load] can end: an exception before anything is
    assigned; all five attributes replaced and the check passed; all five
    replaced and the check failed. *)
Lemma load_inv (fs : FS os) (path : string) (self self' : CharTokenizer)
      (r : result unit) :
  load os G fs path self = (r, self') ->
  (exists e, r = inl e /\ self' = self) \/
  (exists d pad unk,
      NoDup (dict_keys d) /\ self' = candidate d pad unk /\
      ((r = inr tt /\ mapping_mismatch self' = ok false) \/
       (r = inl inconsistent_error /\ mapping_mismatch self' = ok true))).
Proof.
  unfold load.
  destruct (isfile os fs path);
    [|raised_early].
  simpl. unfold bind, lift, raise, ret, get_self.
  destruct (open_r os fs path) as [e|f];
    [raised_early|].
  destruct (match g_json G with
            | Some json => rbind (read os f) (loads json)
            | None => throw (NameError "json")
            end) as [e|data];
    [raised_early|].
  destruct (py_in "stoi" data) as [e|has_stoi];
    [raised_early|].
  destruct (if negb has_stoi then ok true
            else rbind (py_getitem data "stoi")
                       (fun v => ok (negb (is_dict v)))) as [e|[|]];
    [raised_early | raised_early |].
  destruct (py_in "pad_id" data) as [e|has_pad] eqn:Hpad;
    [raised_early|].
  destruct (if negb has_pad then ok true
            else rbind (py_in "unk_id" data) (fun b => ok (negb b)))
    as [e|[|]] eqn:Hunk;
    [raised_early | raised_early |].
  destruct (rbind (py_getitem data "stoi")
              (fun v => match v with
                        | PyDict entries => stoi_of_entries entries []
                        | _ => throw (TypeError (Msg "no attribute 'items'"))
                        end)) as [e|new_stoi] eqn:Hnew;
    [raised_early|].
  assert (Hnd : NoDup (dict_keys new_stoi)).
  { destruct (py_getitem data "stoi") as [e|v]; [discriminate|].
    simpl in Hnew. destruct v; try discriminate.
    eapply stoi_of_entries_NoDup; [|exact Hnew]. constructor. }
  (* both keys were found above, so the lookups succeed *)
  assert (Hkeys : exists pad unk,
             py_getitem data "pad_id" = ok pad /\
             py_getitem data "unk_id" = ok unk).
  { destruct data; simpl in Hnew; try discriminate.
    simpl in Hpad, Hunk. injection Hpad as <-.
    unfold py_getitem, getitem, dict_mem in *.
    destruct (dict_get entries "pad_id") as [pad|]; simpl in Hunk;
      [|discriminate].
    destruct (dict_get entries "unk_id") as [unk|]; simpl in Hunk;
      [|discriminate].
    eauto. }
  destruct Hkeys as [pad [unk [Hp Hu]]].
  unfold set_stoi. simpl. rewrite Hp. simpl. rewrite Hu.
  simpl. fold (candidate new_stoi pad unk).
  destruct (mapping_mismatch_total (candidate new_stoi pad unk) eq_refl)
    as [b Hb].
  rewrite Hb. intros Hrun. right. exists new_stoi, pad, unk.
  split; [exact Hnd|].
  destruct b; injection Hrun as <- <-; auto.
Qed.
End LoadFacts.

(** Every successful [load] leaves a consistent instance. *)
Lemma load_ok_consistent (os : os_module) (G : globals os) (fs : FS os)
      (path : string) (self self' : CharTokenizer) :
  load os G fs path self = (inr tt, self') -> consistent self'.
Proof.
  intros Hload. apply load_inv in Hload.
  destruct Hload as [[e [? _]] | [d [pad [unk [Hnd [-> Hcase]]]]]];
    [discriminate|].
  destruct Hcase as [[_ Hm] | [? _]]; [|discriminate].
  pose proof (mismatch_false_injective (candidate d pad unk) Hnd Hm) as Hv.
  simpl in Hv.
  constructor; simpl; auto. now apply invert_NoDup.
Qed.

(** ** The module as it is written

    With [json] and [tempfile] unbound, [save] and [load] stop at the first
    use of those names. *)

Section Shipped.
Context (os : os_module).

Lemma save_shipped (self : CharTokenizer) (path : string) (fs : FS os) :
  exists e, fst (save os (tokenizer_globals os) self path fs) = inl e.
Proof.
  unfold save. destruct (is_fitted self); simpl; [|eauto].
  destruct (negb (dirname os (abspath os fs path) =? "")%string
            && negb (isdir os fs (dirname os (abspath os fs path))));
    [|simpl; eauto].
  destruct (makedirs os fs (dirname os (abspath os fs path)))
    as [[e|[]] fs']; simpl; eauto.
Qed.

(** Where no directory has to be made, the exception is the name
    error. *)
Lemma save_shipped_name_error (self : CharTokenizer) (path : string)
      (fs : FS os) :
  is_fitted self = true ->
  isdir os fs (dirname os (abspath os fs path)) = true ->
  save os (tokenizer_globals os) self path fs =
  (inl (NameError "tempfile"), fs).
Proof.
  intros Hf Hd. unfold save. rewrite Hf, Hd. simpl.
  rewrite andb_false_r. reflexivity.
Qed.

Lemma load_shipped (fs : FS os) (path : string)
      (self self' : CharTokenizer) (r : result unit) :
  load os (tokenizer_globals os) fs path self = (r, self') ->
  self' = self /\ exists e, r = inl e.
Proof.
  unfold load. destruct (isfile os fs path); simpl.
  - unfold bind, lift. destruct (open_r os fs path) as [e|f]; simpl;
      intros [= <- <-]; eauto.
  - unfold raise. intros [= <- <-]. eauto.
Qed.

Lemma load_shipped_name_error (fs : FS os) (path : string)
      (self : CharTokenizer) (f : File os) :
  isfile os fs path = true -> open_r os fs path = inr f ->
  load os (tokenizer_globals os) fs path self =
  (inl (NameError "json"), self).
Proof.
  intros Hi Ho. unfold load, bind, lift. rewrite Hi, Ho. reflexivity.
Qed.

Lemma from_file_shipped (fs : FS os) (path : string) :
  exists e, from_file os (tokenizer_globals os) fs path = inl e.
Proof.
  unfold from_file.
  destruct (load os (tokenizer_globals os) fs path __init__)
    as [r self'] eqn:Hl.
  apply load_shipped in Hl. destruct Hl as [_ [e ->]]. eauto.
Qed.
End Shipped.

(** ** The instances a program can hold *)

Lemma fit_ok_fitted (os : os_module) (fs : FS os) (src : pyval)
      (sp : bool) (min_freq : Z) (self self' : CharTokenizer) :
  fit os fs src sp min_freq self = (inr tt, self') -> is_fitted self' = true.
Proof.
  intros Hfit. apply fit_ok_built in Hfit.
  destruct Hfit as [corpus [_ [Hne ->]]].
  apply built_fitted. destruct Hne as [? | Hne]; [now left|].
  right. now rewrite ranked_nil.
Qed.

Lemma fit_ok_fit_built (os : os_module) (fs : FS os) (src : pyval)
      (sp : bool) (min_freq : Z) (self self' : CharTokenizer) :
  fit os fs src sp min_freq self = (inr tt, self') -> fit_built self'.
Proof.
  intros Hfit. apply fit_ok_built in Hfit.
  destruct Hfit as [corpus [_ [Hne ->]]]. exists sp, corpus, min_freq. auto.
Qed.

(** As the module is written, a fitted instance was built by [fit]. *)
Lemma reachable_shipped (os : os_module) (self : CharTokenizer) :
  reachable os (tokenizer_globals os) self ->
  self = __init__ \/ fit_built self.
Proof.
  induction 1 as [|self fs src sp min_freq Hr IH|self fs path Hr IH].
  - now left.
  - destruct (fit os fs src sp min_freq self) as [r self'] eqn:Hfit.
    simpl. destruct (fit_inv os _ _ _ _ _ _ _ Hfit)
      as [[e [_ ->]] | [-> _]]; [exact IH|].
    right. eapply fit_ok_fit_built. exact Hfit.
  - destruct (load os (tokenizer_globals os) fs path self) as [r self'] eqn:Hl.
    simpl. apply load_shipped in Hl. destruct Hl as [-> _]. exact IH.
Qed.

Lemma fitted_shipped (os : os_module) (self : CharTokenizer) :
  reachable os (tokenizer_globals os) self -> is_fitted self = true ->
  fit_built self.
Proof.
  intros Hr Hf. destruct (reachable_shipped os self Hr) as [-> | Hb];
    [discriminate | exact Hb].
Qed.

Lemma fit_built_consistent (self : CharTokenizer) :
  fit_built self -> consistent self.
Proof.
  intros [sp [corpus [min_freq [_ ->]]]].
  apply built_consistent; [apply ranked_NoDup | apply ranked_is_char].
Qed.

(** ** Lists of results *)

Lemma mapM_ok_map {A B} (f : A -> result B) (g : A -> B) (l : list A) :
  (forall x, In x l -> f x = ok (g x)) -> mapM f l = ok (map g l).
Proof.
  induction l as [|x l IH]; simpl; intros Hall; [reflexivity|].
  rewrite Hall by now left. simpl. rewrite IH by auto. reflexivity.
Qed.

Lemma mapM_inv {A B} (f : A -> result B) (l : list A) (ys : list B) :
  mapM f l = inr ys -> Forall2 (fun x y => f x = inr y) l ys.
Proof.
  revert ys. induction l as [|x l IH]; simpl; intros ys.
  - intros [= <-]. constructor.
  - destruct (f x) as [e|y] eqn:Hx; simpl; [discriminate|].
    destruct (mapM f l) as [e|ys']; simpl; [discriminate|].
    intros [= <-]. constructor; auto.
Qed.

(** The comprehension raises what its first failing element raises. *)
Lemma mapM_first_failure {A B} (f : A -> result B) (bad : A -> bool)
      (err : A -> exn) (l : list A) (x : A) :
  (forall a, bad a = false -> exists b, f a = ok b) ->
  (forall a, bad a = true -> f a = inl (err a)) ->
  find bad l = Some x -> mapM f l = inl (err x).
Proof.
  intros Hgood Hbad. induction l as [|a l IH]; simpl; [discriminate|].
  destruct (bad a) eqn:Ha.
  - intros [= <-]. now rewrite Hbad.
  - intros Hfind. destruct (Hgood a Ha) as [b ->]. simpl.
    now rewrite IH.
Qed.

Lemma find_filter {A} (p keep : A -> bool) (l : list A) :
  (forall a, p a = true -> keep a = true) ->
  find p (filter keep l) = find p l.
Proof.
  intros Hkeep. induction l as [|a l IH]; simpl; [reflexivity|].
  destruct (keep a) eqn:Hk; simpl.
  - now rewrite IH.
  - destruct (p a) eqn:Hp; [|exact IH].
    rewrite Hkeep in Hk by exact Hp. discriminate.
Qed.

Lemma Forall2_length_nth {A B} (R : A -> B -> Prop) (l : list A)
      (ys : list B) :
  Forall2 R l ys ->
  List.length ys = List.length l /\
  forall k x, nth_error l k = Some x ->
              exists y, nth_error ys k = Some y /\ R x y.
Proof.
  induction 1 as [|x y l ys Hxy HF [IHlen IHnth]]; simpl.
  - split; [reflexivity|]. intros [|k] x; discriminate.
  - split; [now rewrite IHlen|].
    intros [|k] x'; simpl.
    + intros [= <-]. eauto.
    + apply IHnth.
Qed.

(** ** Characters of a text *)

Lemma chars_length (text : string) :
  List.length (chars text) = String.length text.
Proof.
  unfold chars. rewrite length_map.
  induction text as [|c text IH]; simpl; [reflexivity|]. now rewrite IH.
Qed.

Lemma join_chars (text : string) : join (chars text) = text.
Proof.
  unfold join, chars.
  induction text as [|c text IH]; simpl; [reflexivity|].
  destruct text as [|c' text']; [reflexivity|].
  simpl in *. now rewrite IH.
Qed.

(** ** Looking up the vocabulary *)

Lemma dict_get_app {K V} `{Key K} (d1 d2 : dict K V) (k : K) :
  dict_get (d1 ++ d2) k =
  match dict_get d1 k with Some v => Some v | None => dict_get d2 k end.
Proof.
  induction d1 as [|[k' v'] d1 IH]; simpl; [reflexivity|].
  destruct (key_eqb k k'); [reflexivity | exact IH].
Qed.

Lemma number_nth (keys : list string) (start : Z) (k : nat) (ch : string) :
  NoDup keys -> nth_error keys k = Some ch ->
  dict_get (number keys start) ch = Some (start + Z.of_nat k).
Proof.
  revert start k. induction keys as [|x keys IH]; intros start k Hnd.
  - destruct k; discriminate.
  - inversion Hnd as [|? ? Hnotin Hnd']; subst.
    destruct k as [|k]; simpl.
    + intros [= ->]. rewrite String.eqb_refl. f_equal. lia.
    + intros Hnth.
      destruct (String.eqb_spec ch x) as [->|_].
      * exfalso. apply Hnotin. eapply nth_error_In. exact Hnth.
      * rewrite (IH (start + 1) k Hnd' Hnth). f_equal. lia.
Qed.

Lemma specials_get_char (sp : bool) (ch : string) :
  is_char ch -> dict_get (specials sp) ch = None.
Proof.
  intros Hch. apply dict_get_None. intros Hin.
  exact (specials_keys_not_char sp ch Hin Hch).
Qed.

Lemma vocabulary_get_char (sp : bool) (order : list string) (ch : string) :
  is_char ch ->
  dict_get (vocabulary sp order) ch =
  dict_get (number order (first_id sp)) ch.
Proof.
  intros Hch. unfold vocabulary.
  now rewrite dict_get_app, specials_get_char.
Qed.

(** The id of a character is never one of the reserved ids. *)
Lemma vocabulary_char_id (sp : bool) (order : list string) (ch : string)
      (i : Z) :
  is_char ch -> dict_get (vocabulary sp order) ch = Some i ->
  first_id sp <= i.
Proof.
  intros Hch. rewrite vocabulary_get_char by exact Hch.
  intros Hg. apply dict_get_In, number_In in Hg. lia.
Qed.

(** * The properties of the specification *)

(** ** Vocabulary construction *)

(** C4.  A successful [fit] ranks the characters whose count reaches
    [min_freq] by descending count, ties by ascending code, and gives them
    consecutive ids in that order: from 2 after the pad token (id 0) and the
    unknown token (id 1) when specials are requested, from 0 otherwise. *)
Theorem fit_ranks_characters (os : os_module) (fs : FS os) (src : pyval)
        (include_specials : bool) (min_freq : Z)
        (self self' : CharTokenizer) :
  fit os fs src include_specials min_freq self = (inr tt, self') ->
  exists corpus order,
    read_corpus os fs src = inr corpus /\
    (forall ch, In ch order <->
                In ch (chars corpus) /\ min_freq <= occurrences ch corpus) /\
    NoDup order /\
    Forall is_char order /\
    StronglySorted (precedes corpus) order /\
    stoi self' =
      (if include_specials then [("<PAD>", 0); ("<UNK>", 1)] else [])
      ++ number order (if include_specials then 2 else 0) /\
    pad_id self' = (if include_specials then PyInt 0 else PyNone) /\
    unk_id self' = (if include_specials then PyInt 1 else PyNone) /\
    (forall k ch, nth_error order k = Some ch ->
       dict_get (stoi self') ch =
       Some ((if include_specials then 2 else 0) + Z.of_nat k)).
Proof.
  intros Hfit. apply fit_ok_built in Hfit.
  destruct Hfit as [corpus [Hread [_ ->]]].
  exists corpus, (ranked corpus min_freq).
  split; [exact Hread|].
  split; [apply ranked_In|].
  split; [apply ranked_NoDup|].
  split; [apply ranked_is_char|].
  split; [apply ranked_sorted|].
  split; [reflexivity|].
  split; [reflexivity|].
  split; [reflexivity|].
  intros k ch Hnth. simpl.
  rewrite vocabulary_get_char.
  - apply number_nth; [apply ranked_NoDup | exact Hnth].
  - pose proof (ranked_is_char corpus min_freq) as Hch.
    rewrite Forall_forall in Hch. apply Hch.
    eapply nth_error_In. exact Hnth.
Qed.

(** [fit("ab", include_specials=True)] where no file is named [ab]:
    [pad_id = 0], [unk_id = 1], [a -> 2], [b -> 3]. *)
Lemma fit_ranks_characters_witness :
  fit mem_os no_files (PyStr "ab") true 1 __init__
  = (inr tt, fitted_on "ab" true) /\
  stoi (fitted_on "ab" true)
  = [("<PAD>", 0); ("<UNK>", 1); ("a", 2); ("b", 3)] /\
  exists corpus order,
    read_corpus mem_os no_files (PyStr "ab") = inr corpus /\
    (forall ch, In ch order <->
                In ch (chars corpus) /\ 1 <= occurrences ch corpus) /\
    NoDup order /\
    Forall is_char order /\
    StronglySorted (precedes corpus) order /\
    stoi (fitted_on "ab" true)
    = [("<PAD>", 0); ("<UNK>", 1)] ++ number order 2 /\
    pad_id (fitted_on "ab" true) = PyInt 0 /\
    unk_id (fitted_on "ab" true) = PyInt 1 /\
    (forall k ch, nth_error order k = Some ch ->
       dict_get (stoi (fitted_on "ab" true)) ch = Some (2 + Z.of_nat k)).
Proof.
  split; [reflexivity|]. split; [reflexivity|].
  apply (fit_ranks_characters mem_os no_files (PyStr "ab") true 1 __init__).
  reflexivity.
Defined.

Lemma nothing_survives (corpus : string) (min_freq : Z) :
  (forall ch, In ch (chars corpus) -> occurrences ch corpus < min_freq) ->
  survivors corpus min_freq = [].
Proof.
  intros Hlow. destruct (survivors corpus min_freq) as [|[ch c] l] eqn:E;
    [reflexivity|].
  assert (Hin : In (ch, c) (survivors corpus min_freq))
    by (rewrite E; now left).
  apply survivors_In in Hin. destruct Hin as [Hin [-> Hle]].
  specialize (Hlow ch Hin). lia.
Qed.

(** C9.  When no character of the corpus reaches [min_freq] (the empty
    corpus, for one): without specials [fit] raises and assigns nothing;
    with specials it succeeds, the vocabulary holds exactly the two special
    tokens, its size is 2 and the instance is fitted. *)
Theorem fit_when_nothing_survives (os : os_module) (fs : FS os)
        (src : pyval) (min_freq : Z) (self : CharTokenizer)
        (corpus : string) :
  is_fitted self = false ->
  read_corpus os fs src = inr corpus ->
  (forall ch, In ch (chars corpus) -> occurrences ch corpus < min_freq) ->
  fit os fs src false min_freq self = (inl empty_vocabulary_error, self) /\
  exists self',
    fit os fs src true min_freq self = (inr tt, self') /\
    stoi self' = [("<PAD>", 0); ("<UNK>", 1)] /\
    itos self' = [(0, "<PAD>"); (1, "<UNK>")] /\
    pad_id self' = PyInt 0 /\ unk_id self' = PyInt 1 /\
    vocab_size self' = 2 /\
    get_vocab_size self' = inr 2 /\
    is_fitted self' = true.
Proof.
  intros Hunfit Hread Hlow.
  pose proof (nothing_survives corpus min_freq Hlow) as Hnone.
  split.
  - unfold fit, bind, get_self, lift. rewrite Hunfit, Hread.
    fold (survivors corpus min_freq). rewrite Hnone. reflexivity.
  - exists (built true (ranked corpus min_freq)).
    split; [apply fit_run; auto|].
    assert (Hr : ranked corpus min_freq = []) by now apply ranked_nil.
    rewrite Hr. repeat split.
Qed.

(** The empty corpus. *)
Lemma fit_when_nothing_survives_witness :
  (is_fitted __init__ = false /\
   read_corpus mem_os no_files (PyStr "") = inr "" /\
   (forall ch, In ch (chars "") -> occurrences ch "" < 1)) /\
  fit mem_os no_files (PyStr "") false 1 __init__
  = (inl empty_vocabulary_error, __init__) /\
  exists self',
    fit mem_os no_files (PyStr "") true 1 __init__ = (inr tt, self') /\
    stoi self' = [("<PAD>", 0); ("<UNK>", 1)] /\
    itos self' = [(0, "<PAD>"); (1, "<UNK>")] /\
    pad_id self' = PyInt 0 /\ unk_id self' = PyInt 1 /\
    vocab_size self' = 2 /\
    get_vocab_size self' = inr 2 /\
    is_fitted self' = true.
Proof.
  assert (H : is_fitted __init__ = false /\
              read_corpus mem_os no_files (PyStr "") = inr "" /\
              (forall ch, In ch (chars "") -> occurrences ch "" < 1)).
  { split; [reflexivity|]. split; [reflexivity|]. intros ch []. }
  split; [exact H|].
  destruct H as [H1 [H2 H3]].
  exact (fit_when_nothing_survives mem_os no_files (PyStr "") 1 __init__ ""
           H1 H2 H3).
Defined.

(** ** The bijection invariant *)

Lemma established_consistent (os : os_module) (G : globals os)
      (self : CharTokenizer) :
  established os G self -> consistent self.
Proof.
  intros [fs src sp min_freq self0 self' Hfit | fs path self0 self' Hload].
  - apply fit_built_consistent. eapply fit_ok_fit_built. exact Hfit.
  - eapply load_ok_consistent. exact Hload.
Qed.

(** C5.  After a successful [fit] or [load], whatever [json] is bound to,
    [itos[stoi[c]] == c] for every key [c] of [stoi], [stoi[itos[i]] == i]
    for every key [i] of [itos], and [vocab_size] is the number of entries
    of either mapping. *)
Theorem mappings_inverse_after_success (os : os_module) (G : globals os)
        (self : CharTokenizer) :
  established os G self ->
  (forall c i, dict_get (stoi self) c = Some i ->
               dict_get (itos self) i = Some c) /\
  (forall i c, dict_get (itos self) i = Some c ->
               dict_get (stoi self) c = Some i) /\
  vocab_size self = dict_len (stoi self) /\
  vocab_size self = dict_len (itos self).
Proof.
  intros Hest. apply established_consistent in Hest.
  split; [intros c i; now apply consistent_inverse|].
  split; [intros i c; now apply consistent_inverse|].
  split; [apply Hest|].
  rewrite consistent_len by exact Hest. apply Hest.
Qed.

Lemma mappings_inverse_after_success_witness :
  established mem_os (tokenizer_globals mem_os) (fitted_on "ab" true) /\
  (forall c i, dict_get (stoi (fitted_on "ab" true)) c = Some i ->
               dict_get (itos (fitted_on "ab" true)) i = Some c) /\
  (forall i c, dict_get (itos (fitted_on "ab" true)) i = Some c ->
               dict_get (stoi (fitted_on "ab" true)) c = Some i) /\
  vocab_size (fitted_on "ab" true) = dict_len (stoi (fitted_on "ab" true)) /\
  vocab_size (fitted_on "ab" true) = dict_len (itos (fitted_on "ab" true)).
Proof.
  assert (H : established mem_os (tokenizer_globals mem_os)
                          (fitted_on "ab" true)).
  { apply (established_fit mem_os _ no_files (PyStr "ab") true 1 __init__).
    reflexivity. }
  split; [exact H|].
  exact (mappings_inverse_after_success mem_os _ _ H).
Defined.

(** ** Persistence *)

(** C1.  As the module is written, no call of [save] returns normally, and
    neither does [from_file]: the names [tempfile] and [json] are not bound
    (lines 114 and 136).  So no fitted tokenizer can be persisted and
    restored. *)
Theorem persist_restore_unavailable (os : os_module) (self : CharTokenizer)
        (path : string) (fs : FS os) :
  (exists e, fst (save os (tokenizer_globals os) self path fs) = inl e) /\
  (exists e, from_file os (tokenizer_globals os) fs path = inl e).
Proof.
  split; [apply save_shipped | apply from_file_shipped].
Qed.

(** [tok.fit("ab"); tok.save("vocab.json")], and [from_file] on a file that
    exists. *)
Example save_ab_raises :
  save mem_os (tokenizer_globals mem_os) (fitted_on "ab" true) "vocab.json"
       no_files
  = (inl (NameError "tempfile"), no_files) /\
  from_file mem_os (tokenizer_globals mem_os)
            [("vocab.json", "{}")] "vocab.json"
  = inl (NameError "json").
Proof. split; reflexivity. Qed.

(** *** The body of [load]

    What lines 138-154 do once [json] is bound: the two documents below
    give each character its own id, and the same id to two characters. *)

Example load_two_letters :
  load mem_os (with_json mem_os (json_table [("doc", two_letters)]))
       [("vocab.json", "doc")] "vocab.json" __init__
  = (inr tt, {| stoi := [("a", 0); ("b", 1)];
                itos := [(0, "a"); (1, "b")];
                pad_id := PyNone; unk_id := PyNone; vocab_size := 2 |}).
Proof. reflexivity. Qed.

Example load_duplicate_ids :
  load mem_os (with_json mem_os (json_table [("doc", duplicate_ids)]))
       [("vocab.json", "doc")] "vocab.json" (fitted_on "ab" true)
  = (inl inconsistent_error,
     {| stoi := [("a", 0); ("b", 0)]; itos := [(0, "b")];
        pad_id := PyNone; unk_id := PyNone; vocab_size := 2 |}).
Proof. reflexivity. Qed.






(** *** The serialized state *)

Lemma serialized_stoi_payload (self : CharTokenizer) :
  serialized_stoi (payload self) =
  map (fun si => (fst si, PyInt (snd si))) (stoi self).
Proof. reflexivity. Qed.

Lemma marker_not_char : ~ is_char "<PAD>" /\ ~ is_char "<UNK>".
Proof. split; intros [c Hc]; discriminate. Qed.

(** C2, as stated, fails: the payload of a tokenizer fitted with specials
    has the five-character key [<PAD>]. *)
Lemma payload_keys_not_all_chars :
  fit mem_os no_files (PyStr "ab") true 1 __init__
  = (inr tt, fitted_on "ab" true) /\
  is_fitted (fitted_on "ab" true) = true /\
  ~ (forall k v,
       In (k, v) (serialized_stoi (payload (fitted_on "ab" true))) ->
       is_char k).
Proof.
  split; [reflexivity|]. split; [reflexivity|].
  intros Hall. apply (proj1 marker_not_char).
  apply (Hall "<PAD>" (PyInt 0)). vm_compute. left. reflexivity.
Qed.

Lemma NoDup_map_PyInt (l : list Z) : NoDup l -> NoDup (map PyInt l).
Proof.
  induction 1 as [|x l Hnotin Hnd IH]; simpl; constructor; [|exact IH].
  rewrite in_map_iff. intros [y [[= ->] Hin]]. contradiction.
Qed.

(** C2, amended.  In the payload that [save] builds for a tokenizer that
    [fit] has fitted, every key of [stoi] is a single character or one of
    the two markers [<PAD>] and [<UNK>], the markers only when specials
    were requested; keys are unique and the values are unique non-negative
    integers. *)
Theorem payload_keys_and_ids (os : os_module) (fs : FS os) (src : pyval)
        (include_specials : bool) (min_freq : Z)
        (self0 self : CharTokenizer) :
  fit os fs src include_specials min_freq self0 = (inr tt, self) ->
  (forall k v, In (k, v) (serialized_stoi (payload self)) ->
     (is_char k \/
      ((k = "<PAD>" \/ k = "<UNK>") /\ include_specials = true)) /\
     exists z, v = PyInt z /\ 0 <= z) /\
  NoDup (map fst (serialized_stoi (payload self))) /\
  NoDup (map snd (serialized_stoi (payload self))).
Proof.
  intros Hfit. apply fit_ok_built in Hfit.
  destruct Hfit as [corpus [_ [_ ->]]].
  pose proof (built_consistent include_specials _
                (ranked_NoDup corpus min_freq)
                (ranked_is_char corpus min_freq)) as [Hk Hv _ _].
  rewrite serialized_stoi_payload.
  split; [|split].
  - intros k v. rewrite in_map_iff. intros [[s i] [[= <- <-] Hin]].
    simpl in Hin. unfold vocabulary in Hin.
    apply in_app_or in Hin. destruct Hin as [Hin | Hin].
    + destruct include_specials; simpl in Hin; [|tauto].
      destruct Hin as [[= <- <-] | [[= <- <-] | []]]; simpl;
        (split; [right; split; auto
                |eexists; split; [reflexivity | lia]]).
    + apply number_In in Hin. destruct Hin as [Hin Hrange].
      split.
      * left. pose proof (ranked_is_char corpus min_freq) as Hch.
        rewrite Forall_forall in Hch. auto.
      * exists i. split; [reflexivity|].
        destruct include_specials; simpl in *; lia.
  - rewrite map_map. simpl. exact Hk.
  - rewrite map_map. simpl.
    rewrite <- (map_map snd PyInt). apply NoDup_map_PyInt. exact Hv.
Qed.

Lemma payload_keys_and_ids_witness :
  fit mem_os no_files (PyStr "ab") true 1 __init__
  = (inr tt, fitted_on "ab" true) /\
  (forall k v,
     In (k, v) (serialized_stoi (payload (fitted_on "ab" true))) ->
     (is_char k \/ ((k = "<PAD>" \/ k = "<UNK>") /\ true = true)) /\
     exists z, v = PyInt z /\ 0 <= z) /\
  NoDup (map fst (serialized_stoi (payload (fitted_on "ab" true)))) /\
  NoDup (map snd (serialized_stoi (payload (fitted_on "ab" true)))).
Proof.
  split; [reflexivity|].
  apply (payload_keys_and_ids mem_os no_files (PyStr "ab") true 1 __init__).
  reflexivity.
Defined.

(** ** Encoding *)

Lemma lookup_all_inv (self : CharTokenizer) (text : string)
      (ids : list pyval) :
  lookup_all self text = inr ids ->
  Forall2 (fun ch y => exists i, dict_get (stoi self) ch = Some i
                                 /\ y = PyInt i)
          (chars text) ids.
Proof.
  intros Hl. apply mapM_inv in Hl.
  eapply Forall2_impl; [|exact Hl].
  intros ch y. unfold getitem.
  destruct (dict_get (stoi self) ch) as [i|]; simpl; [|discriminate].
  intros [= <-]. eauto.
Qed.

Lemma lookup_all_unknown (self : CharTokenizer) (text ch : string) :
  first_unknown self text = Some ch ->
  lookup_all self text = inl (KeyError (PyStr ch)).
Proof.
  unfold first_unknown, lookup_all.
  apply (mapM_first_failure _ _ (fun ch => KeyError (PyStr ch)));
    intros a; unfold getitem, dict_mem;
    destruct (dict_get (stoi self) a); simpl; intros; eauto; discriminate.
Qed.

Lemma lookup_all_known (self : CharTokenizer) (text : string) :
  (forall ch, In ch (chars text) -> dict_mem (stoi self) ch = true) ->
  lookup_all self text =
  inr (map (fun ch => PyInt (dict_get_default (stoi self) ch 0))
           (chars text)).
Proof.
  intros Hall. unfold lookup_all. apply mapM_ok_map.
  intros ch Hin. specialize (Hall ch Hin).
  unfold getitem, dict_mem, dict_get_default in *.
  destruct (dict_get (stoi self) ch); [reflexivity | discriminate].
Qed.

Lemma encode_inv (self : CharTokenizer) (text : string) (strict : bool)
      (ids : list pyval) :
  encode self text strict = inr ids ->
  Forall2 (fun ch y => y = stoi_or_unk self ch) (chars text) ids.
Proof.
  unfold encode. destruct (is_fitted self); simpl; [|discriminate].
  assert (Hstrict : lookup_all self text = inr ids ->
            Forall2 (fun ch y => y = stoi_or_unk self ch) (chars text) ids).
  { intros Hl. apply lookup_all_inv in Hl.
    eapply Forall2_impl; [|exact Hl].
    intros ch y [i [Hg ->]]. unfold stoi_or_unk. now rewrite Hg. }
  destruct strict; [exact Hstrict|].
  destruct (is_none (unk_id self)); [exact Hstrict|].
  intros [= <-]. clear Hstrict.
  induction (chars text) as [|ch l IH]; simpl; constructor; auto.
Qed.

Lemma first_unknown_none (self : CharTokenizer) (text : string) :
  first_unknown self text = None ->
  forall ch, In ch (chars text) -> dict_mem (stoi self) ch = true.
Proof.
  intros Hnone ch Hin. unfold first_unknown in Hnone.
  apply (find_none _ _ Hnone) in Hin.
  now apply negb_false_iff in Hin.
Qed.

(** C7.  For a fitted tokenizer [encode] produces one id per character, in
    order.  On a text whose characters are all in the vocabulary, strict
    and non-strict [encode] return the list of their ids, which is as long
    as the text.  Non-strict [encode] with an unknown-id configured returns
    for every text, with that id in place of every character that is not in
    the vocabulary.  Strict [encode] raises [KeyError] at the first such
    character; with no unknown-id configured non-strict [encode] is strict
    [encode], and raises likewise.  Whenever [encode] returns, the list has
    the length of the text and its k-th element is the id of the k-th
    character. *)
Theorem encode_one_id_per_character (self : CharTokenizer) (text : string) :
  is_fitted self = true ->
  List.length (map (stoi_or_unk self) (chars text)) = String.length text /\
  (first_unknown self text = None ->
     (forall strict,
        encode self text strict
        = inr (map (stoi_or_unk self) (chars text))) /\
     (forall ch, In ch (chars text) ->
        exists i, dict_get (stoi self) ch = Some i /\
                  stoi_or_unk self ch = PyInt i)) /\
  (forall ch, first_unknown self text = Some ch ->
     encode self text true = inl (KeyError (PyStr ch))) /\
  (forall strict ids,
     encode self text strict = inr ids ->
     List.length ids = String.length text /\
     forall k ch, nth_error (chars text) k = Some ch ->
                  nth_error ids k = Some (stoi_or_unk self ch)) /\
  (unk_id self <> PyNone ->
     encode self text false = inr (map (stoi_or_unk self) (chars text))) /\
  (unk_id self = PyNone ->
     encode self text false = encode self text true /\
     forall ch, first_unknown self text = Some ch ->
                encode self text false = inl (KeyError (PyStr ch))).
Proof.
  intros Hf. split; [|split; [|split; [|split; [|split]]]].
  - now rewrite length_map, chars_length.
  - intros Hnone. pose proof (first_unknown_none self text Hnone) as Hknown.
    assert (Hids : forall ch, In ch (chars text) ->
              exists i, dict_get (stoi self) ch = Some i /\
                        stoi_or_unk self ch = PyInt i).
    { intros ch Hin. specialize (Hknown ch Hin).
      unfold dict_mem, stoi_or_unk in *.
      destruct (dict_get (stoi self) ch) as [i|]; [eauto | discriminate]. }
    split; [|exact Hids].
    assert (Hlook : lookup_all self text
                    = inr (map (stoi_or_unk self) (chars text))).
    { rewrite (lookup_all_known self text Hknown). unfold ok. f_equal.
      apply map_ext_in. intros ch Hin.
      destruct (Hids ch Hin) as [i [Hg ->]].
      unfold dict_get_default. now rewrite Hg. }
    intros strict. unfold encode. rewrite Hf. cbn [negb].
    destruct strict; [exact Hlook|].
    destruct (is_none (unk_id self)); [exact Hlook | reflexivity].
  - intros ch Hch. unfold encode. rewrite Hf. cbn [negb].
    now apply lookup_all_unknown.
  - intros strict ids Henc. apply encode_inv in Henc.
    apply Forall2_length_nth in Henc. destruct Henc as [Hlen Hnth].
    split; [now rewrite Hlen, chars_length|].
    intros k ch Hk. destruct (Hnth k ch Hk) as [y [Hy ->]]. exact Hy.
  - intros Hunk. unfold encode, stoi_or_unk. rewrite Hf. simpl.
    destruct (unk_id self); try reflexivity. congruence.
  - intros Hunk. unfold encode. rewrite Hf, Hunk. simpl.
    split; [reflexivity|]. apply lookup_all_unknown.
Qed.

Lemma encode_one_id_per_character_witness :
  is_fitted (fitted_on "ab" true) = true /\
  (encode (fitted_on "ab" true) "ba" true = inr [PyInt 3; PyInt 2] /\
   encode (fitted_on "ab" true) "ba" false = inr [PyInt 3; PyInt 2] /\
   encode (fitted_on "ab" false) "ba" true = inr [PyInt 1; PyInt 0] /\
   encode (fitted_on "ab" false) "ba" false = inr [PyInt 1; PyInt 0] /\
   encode (fitted_on "ab" true) "abz" false
   = inr [PyInt 2; PyInt 3; PyInt 1] /\
   encode (fitted_on "ab" true) "abz" true = inl (KeyError (PyStr "z")) /\
   encode (fitted_on "ab" false) "abz" false
   = inl (KeyError (PyStr "z"))) /\
  List.length (map (stoi_or_unk (fitted_on "ab" true)) (chars "ba"))
  = String.length "ba" /\
  (first_unknown (fitted_on "ab" true) "ba" = None ->
     (forall strict,
        encode (fitted_on "ab" true) "ba" strict
        = inr (map (stoi_or_unk (fitted_on "ab" true)) (chars "ba"))) /\
     (forall ch, In ch (chars "ba") ->
        exists i, dict_get (stoi (fitted_on "ab" true)) ch = Some i /\
                  stoi_or_unk (fitted_on "ab" true) ch = PyInt i)) /\
  (forall ch, first_unknown (fitted_on "ab" true) "ba" = Some ch ->
     encode (fitted_on "ab" true) "ba" true = inl (KeyError (PyStr ch))) /\
  (forall strict ids,
     encode (fitted_on "ab" true) "ba" strict = inr ids ->
     List.length ids = String.length "ba" /\
     forall k ch, nth_error (chars "ba") k = Some ch ->
                  nth_error ids k
                  = Some (stoi_or_unk (fitted_on "ab" true) ch)) /\
  (unk_id (fitted_on "ab" true) <> PyNone ->
     encode (fitted_on "ab" true) "ba" false
     = inr (map (stoi_or_unk (fitted_on "ab" true)) (chars "ba"))) /\
  (unk_id (fitted_on "ab" true) = PyNone ->
     encode (fitted_on "ab" true) "ba" false
     = encode (fitted_on "ab" true) "ba" true /\
     forall ch, first_unknown (fitted_on "ab" true) "ba" = Some ch ->
                encode (fitted_on "ab" true) "ba" false
                = inl (KeyError (PyStr ch))).
Proof.
  split; [vm_compute; reflexivity|].
  split; [repeat split; vm_compute; reflexivity|].
  apply (encode_one_id_per_character (fitted_on "ab" true) "ba").
  vm_compute. reflexivity.
Defined.

(** C10.  After a successful [fit] with specials, [pad_id] is 0 and every
    element of every list that [encode] returns, strict or not, is an
    integer that is at least 1: the pad id is never among them. *)
Theorem encode_never_outputs_pad (os : os_module) (fs : FS os)
        (src : pyval) (min_freq : Z) (self self' : CharTokenizer) :
  fit os fs src true min_freq self = (inr tt, self') ->
  pad_id self' = PyInt 0 /\
  forall text strict ids,
    encode self' text strict = inr ids ->
    Forall (fun x => exists z, x = PyInt z /\ 1 <= z) ids /\
    ~ In (pad_id self') ids.
Proof.
  intros Hfit. apply fit_ok_built in Hfit.
  destruct Hfit as [corpus [_ [_ ->]]].
  split; [reflexivity|].
  intros text strict ids Henc.
  assert (Hall : Forall (fun x => exists z, x = PyInt z /\ 1 <= z) ids).
  { apply encode_inv in Henc.
    assert (Hch : Forall is_char (chars text)).
    { apply Forall_forall. intros ch. apply chars_is_char. }
    induction Henc as [|ch y l ids' Hy HF IH]; constructor.
    - inversion Hch as [|? ? Hc _]; subst. unfold stoi_or_unk.
      cbn [stoi unk_id built].
      destruct (dict_get (vocabulary true (ranked corpus min_freq)) ch)
        as [i|] eqn:Hg.
      + apply vocabulary_char_id in Hg; [|exact Hc]. simpl in Hg.
        exists i. split; [reflexivity | lia].
      + exists 1. split; [reflexivity | lia].
    - apply IH. now inversion Hch. }
  split; [exact Hall|].
  simpl. intros Hin. rewrite Forall_forall in Hall.
  destruct (Hall _ Hin) as [z [[= <-] Hz]]. lia.
Qed.

Lemma encode_never_outputs_pad_witness :
  fit mem_os no_files (PyStr "ab") true 1 __init__
  = (inr tt, fitted_on "ab" true) /\
  pad_id (fitted_on "ab" true) = PyInt 0 /\
  forall text strict ids,
    encode (fitted_on "ab" true) text strict = inr ids ->
    Forall (fun x => exists z, x = PyInt z /\ 1 <= z) ids /\
    ~ In (pad_id (fitted_on "ab" true)) ids.
Proof.
  split; [reflexivity|].
  apply (encode_never_outputs_pad mem_os no_files (PyStr "ab") 1 __init__).
  reflexivity.
Defined.

(** ** Decoding *)

Lemma filter_all {A} (keep : A -> bool) (l : list A) :
  (forall a, In a l -> keep a = true) -> filter keep l = l.
Proof.
  induction l as [|a l IH]; simpl; intros Hall; [reflexivity|].
  rewrite Hall by now left. now rewrite IH by auto.
Qed.

(** On a consistent instance, the ids of a text whose characters are all
    known decode to the text, provided none of them is skipped. *)
Lemma decode_ids_of (self : CharTokenizer) (text : string) (skip : bool) :
  is_fitted self = true -> consistent self ->
  (forall ch, In ch (chars text) -> dict_mem (stoi self) ch = true) ->
  (forall i, In i (ids_of self text) ->
             int_eq i (pad_id self) = false /\
             int_eq i (unk_id self) = false) ->
  decode self (ids_of self text) skip = inr text.
Proof.
  intros Hf Hc Hknown Hplain.
  assert (Hall : mapM (getitem PyInt (itos self)) (ids_of self text)
                 = inr (chars text)).
  { unfold ids_of. clear Hplain.
    induction (chars text) as [|ch l IH]; simpl; [reflexivity|].
    assert (Hin : dict_mem (stoi self) ch = true) by (apply Hknown; now left).
    unfold dict_mem, dict_get_default in *.
    destruct (dict_get (stoi self) ch) as [i|] eqn:Hg; [|discriminate].
    apply (consistent_inverse self ch i Hc) in Hg.
    unfold getitem at 1. rewrite Hg. simpl.
    rewrite IH by (intros; apply Hknown; now right). reflexivity. }
  unfold decode. rewrite Hf. simpl.
  rewrite filter_all.
  - rewrite Hall. simpl. rewrite join_chars.
    now destruct (skip && negb (is_none (pad_id self))
                  && negb (is_none (unk_id self))).
  - intros i Hi. destruct (Hplain i Hi) as [-> ->]. reflexivity.
Qed.

Lemma encode_known (self : CharTokenizer) (text : string) (strict : bool) :
  is_fitted self = true ->
  (forall ch, In ch (chars text) -> dict_mem (stoi self) ch = true) ->
  encode self text strict = inr (map PyInt (ids_of self text)).
Proof.
  intros Hf Hknown. unfold encode, ids_of. rewrite Hf. simpl.
  rewrite map_map.
  destruct strict; [now apply lookup_all_known|].
  destruct (is_none (unk_id self)); [now apply lookup_all_known|].
  unfold ok. f_equal. apply map_ext_in.
  intros ch Hin. specialize (Hknown ch Hin).
  unfold dict_mem, dict_get_default in *.
  destruct (dict_get (stoi self) ch); [reflexivity | discriminate].
Qed.

Lemma fit_built_plain_ids (self : CharTokenizer) (text : string) (i : Z) :
  fit_built self ->
  (forall ch, In ch (chars text) -> dict_mem (stoi self) ch = true) ->
  In i (ids_of self text) ->
  int_eq i (pad_id self) = false /\ int_eq i (unk_id self) = false.
Proof.
  intros [sp [corpus [min_freq [_ ->]]]] Hknown Hin.
  unfold ids_of in Hin. rewrite in_map_iff in Hin.
  destruct Hin as [ch [<- Hch]].
  specialize (Hknown ch Hch). simpl in *.
  unfold dict_mem, dict_get_default in *.
  destruct (dict_get (vocabulary sp (ranked corpus min_freq)) ch)
    as [i|] eqn:Hg; [|discriminate].
  apply vocabulary_char_id in Hg; [|eapply chars_is_char; exact Hch].
  destruct sp; simpl in *; [|auto].
  split; apply Z.eqb_neq; lia.
Qed.

(** C6.  For every tokenizer that [fit] has fitted and every text whose
    characters are all in the vocabulary, [encode] returns integer ids,
    none of them a reserved id, and [decode] maps them back to the text,
    with or without [skip_specials]. *)
Theorem decode_encode_roundtrip (os : os_module) (fs : FS os) (src : pyval)
        (include_specials : bool) (min_freq : Z)
        (self0 self : CharTokenizer)
        (text : string) (strict skip_specials : bool) :
  fit os fs src include_specials min_freq self0 = (inr tt, self) ->
  (forall ch, In ch (chars text) -> dict_mem (stoi self) ch = true) ->
  exists ids,
    encode self text strict = inr (map PyInt ids) /\
    (forall i, In i ids -> int_eq i (pad_id self) = false
                           /\ int_eq i (unk_id self) = false) /\
    decode self ids skip_specials = inr text.
Proof.
  intros Hfit Hknown.
  pose proof (fit_ok_fit_built _ _ _ _ _ _ _ Hfit) as Hb.
  pose proof (fit_ok_fitted _ _ _ _ _ _ _ Hfit) as Hf.
  exists (ids_of self text).
  split; [now apply encode_known|].
  split; [intros i; now apply fit_built_plain_ids|].
  apply decode_ids_of; auto.
  - now apply fit_built_consistent.
  - intros i; now apply fit_built_plain_ids.
Qed.

(** [tok.fit("hello\n"); tok.decode(tok.encode("hello\n"))] *)
Lemma decode_encode_roundtrip_witness :
  (fit mem_os no_files (PyStr hello) true 1 __init__
   = (inr tt, fitted_on hello true) /\
   (forall ch, In ch (chars hello) ->
               dict_mem (stoi (fitted_on hello true)) ch = true)) /\
  exists ids,
    encode (fitted_on hello true) hello false = inr (map PyInt ids) /\
    (forall i, In i ids ->
               int_eq i (pad_id (fitted_on hello true)) = false
               /\ int_eq i (unk_id (fitted_on hello true)) = false) /\
    decode (fitted_on hello true) ids true = inr hello.
Proof.
  assert (Hk : forall ch, In ch (chars hello) ->
                          dict_mem (stoi (fitted_on hello true)) ch = true).
  { intros ch Hin. vm_compute in Hin.
    repeat (destruct Hin as [<- | Hin]; [vm_compute; reflexivity|]).
    destruct Hin. }
  assert (Hfit : fit mem_os no_files (PyStr hello) true 1 __init__
                 = (inr tt, fitted_on hello true)).
  { vm_compute. reflexivity. }
  split; [split; [exact Hfit | exact Hk]|].
  exact (decode_encode_roundtrip mem_os no_files (PyStr hello) true 1
           __init__ (fitted_on hello true) hello false true Hfit Hk).
Defined.

(** C8, as stated, fails: the exception that [decode] raises is the
    [KeyError] of the dictionary lookup.  It carries the id and nothing
    else, so the same exception is raised for an unknown id at position 0
    and at position 1, and no reading of it gives the position. *)
Lemma decode_error_has_no_position :
  decode (fitted_on "ab" true) [999999] true
  = inl (KeyError (PyInt 999999)) /\
  decode (fitted_on "ab" true) [2; 999999] true
  = inl (KeyError (PyInt 999999)) /\
  ~ exists position_of : exn -> nat,
      forall token_ids e,
        decode (fitted_on "ab" true) token_ids true = inl e ->
        first_absent_position (fitted_on "ab" true) token_ids
        = Some (position_of e).
Proof.
  split; [reflexivity|]. split; [reflexivity|].
  intros [position_of Hpos].
  pose proof (Hpos [999999] (KeyError (PyInt 999999)) eq_refl) as H0.
  pose proof (Hpos [2; 999999] (KeyError (PyInt 999999)) eq_refl) as H1.
  vm_compute in H0, H1. congruence.
Qed.

Lemma fit_built_keeps_absent (self : CharTokenizer) (i : Z) :
  fit_built self ->
  negb (dict_mem (itos self) i) = true ->
  negb (int_eq i (pad_id self)) && negb (int_eq i (unk_id self)) = true.
Proof.
  intros [sp [corpus [min_freq [_ ->]]]] Habs.
  destruct sp; simpl in *; [|reflexivity].
  unfold dict_mem in Habs. simpl in Habs.
  destruct (Z.eqb_spec i 0); [discriminate|].
  destruct (Z.eqb_spec i 1); [discriminate|]. reflexivity.
Qed.

(** C8, amended.  For every tokenizer that [fit] has fitted and every id
    sequence that contains an id absent from [itos], [decode] raises
    [KeyError] carrying the first such id, with or without [skip_specials]:
    the id is neither skipped nor replaced. *)
Theorem decode_unknown_id_raises (os : os_module) (fs : FS os) (src : pyval)
        (include_specials : bool) (min_freq : Z)
        (self0 self : CharTokenizer)
        (token_ids : list Z) (i : Z) (skip_specials : bool) :
  fit os fs src include_specials min_freq self0 = (inr tt, self) ->
  first_absent self token_ids = Some i ->
  decode self token_ids skip_specials = inl (KeyError (PyInt i)).
Proof.
  intros Hfit Habs.
  pose proof (fit_ok_fit_built _ _ _ _ _ _ _ Hfit) as Hb.
  pose proof (fit_ok_fitted _ _ _ _ _ _ _ Hfit) as Hf.
  assert (Hraise : forall l, first_absent self l = Some i ->
            mapM (getitem PyInt (itos self)) l = inl (KeyError (PyInt i))).
  { intros l. unfold first_absent.
    apply (mapM_first_failure _ _ (fun i => KeyError (PyInt i)));
      intros a; unfold getitem, dict_mem;
      destruct (dict_get (itos self) a); simpl; intros; eauto;
      discriminate. }
  unfold decode. rewrite Hf. simpl.
  destruct (skip_specials && negb (is_none (pad_id self))
            && negb (is_none (unk_id self))).
  - rewrite Hraise; [reflexivity|].
    unfold first_absent. rewrite find_filter; [exact Habs|].
    intros a. now apply fit_built_keeps_absent.
  - now rewrite Hraise.
Qed.

Lemma decode_unknown_id_raises_witness :
  (fit mem_os no_files (PyStr "ab") true 1 __init__
   = (inr tt, fitted_on "ab" true) /\
   first_absent (fitted_on "ab" true) [0; 2; 999999; 3] = Some 999999) /\
  decode (fitted_on "ab" true) [0; 2; 999999; 3] true
  = inl (KeyError (PyInt 999999)).
Proof.
  split; [split; reflexivity|].
  exact (decode_unknown_id_raises mem_os no_files (PyStr "ab") true 1
           __init__ (fitted_on "ab" true) [0; 2; 999999; 3] 999999 true
           eq_refl eq_refl).
Defined.

(** The scenario of the tests: specials are skipped, or rendered by their
    markers. *)
Example decode_skips_specials :
  decode (fitted_on "ab" true) [0; 2; 1; 3] true = inr "ab" /\
  decode (fitted_on "ab" true) [0; 2; 1; 3] false = inr "<PAD>a<UNK>b".
Proof. split; reflexivity. Qed.

(** ** The bodies of [save] and [load] under the intended bindings

    What lines 93-154 do once [json] and [tempfile] are bound to modules
    that behave as the standard ones: a decoder that reads back what the
    encoder wrote, and a file system in which a temporary file that was
    written and moved to [path] is then read at [path]. *)

Lemma stoi_of_entries_serialized (d acc : dict string Z) :
  NoDup (dict_keys acc ++ dict_keys d) ->
  stoi_of_entries (map (fun si => (fst si, PyInt (snd si))) d) acc
  = ok (acc ++ d).
Proof.
  revert acc. induction d as [|[s i] d IH]; simpl; intros acc Hnd.
  - now rewrite app_nil_r.
  - assert (Hfresh : ~ In s (dict_keys acc)).
    { apply NoDup_remove_2 in Hnd. intros Hin. apply Hnd.
      apply in_or_app. now left. }
    rewrite dict_set_fresh by exact Hfresh.
    rewrite IH.
    + now rewrite <- app_assoc.
    + unfold dict_keys in *. rewrite map_app. simpl.
      rewrite <- app_assoc. exact Hnd.
Qed.

Section Intended.
Context (os : os_module) (json : json_module) (tempfile : tempfile_module os).

Let G : globals os := intended_globals os json tempfile.

Hypothesis loads_dumps : forall v, loads json (dumps json v) = inr v.

Hypothesis written_then_replaced :
  forall fs dir prefix suffix fd tmp_path fs1 text fs2 path fs3,
    mkstemp tempfile fs dir prefix suffix = (inr (fd, tmp_path), fs1) ->
    write_fd os fs1 fd text = (inr tt, fs2) ->
    replace os fs2 tmp_path path = (inr tt, fs3) ->
    isfile os fs3 path = true /\
    exists f, open_r os fs3 path = inr f /\ read os f = inr text.

Lemma save_ok_inv (self : CharTokenizer) (path : string) (fs fs' : FS os) :
  save os G self path fs = (inr tt, fs') ->
  is_fitted self = true /\
  isfile os fs' path = true /\
  exists f, open_r os fs' path = inr f /\
            read os f = inr (dumps json (payload self)).
Proof.
  unfold save. destruct (is_fitted self); [|discriminate].
  simpl. intros Hsave. split; [reflexivity|].
  set (parent := dirname os (abspath os fs path)) in *.
  destruct (if negb (parent =? "")%string && negb (isdir os fs parent)
            then makedirs os fs parent else (ok tt, fs))
    as [[e|[]] fs0]; [discriminate|].
  destruct (mkstemp tempfile fs0
              (if negb (parent =? "")%string then Some parent else None)
              ".tmp_tok_" ".json") as [[e|[fd tmp_path]] fs1] eqn:Hmk;
    [discriminate|].
  destruct (write_fd os fs1 fd (dumps json (payload self)))
    as [[e|[]] fs2] eqn:Hw.
  { destruct (path_exists os fs2 tmp_path); [|discriminate].
    destruct (remove os fs2 tmp_path) as [[e'|[]] fs3]; discriminate. }
  destruct (replace os fs2 tmp_path path) as [[e|[]] fs3] eqn:Hrep.
  { destruct (path_exists os fs3 tmp_path); [|discriminate].
    destruct (remove os fs3 tmp_path) as [[e'|[]] fs4]; discriminate. }
  injection Hsave as <-.
  exact (written_then_replaced _ _ _ _ _ _ _ _ _ _ _ Hmk Hw Hrep).
Qed.

(** Persist, then restore into a fresh instance: the same instance. *)
Lemma restore_after_persist (self : CharTokenizer) (path : string)
      (fs fs' : FS os) :
  consistent self ->
  save os G self path fs = (inr tt, fs') ->
  from_file os G fs' path = inr self.
Proof.
  intros [Hk Hv Hi Hs] Hsave.
  apply save_ok_inv in Hsave.
  destruct Hsave as [Hf [Hfile [f [Hopen Hread]]]].
  unfold from_file, load, bind, lift. rewrite Hfile, Hopen. simpl.
  rewrite Hread. simpl. rewrite loads_dumps. simpl.
  rewrite stoi_of_entries_serialized
    by (simpl; exact Hk).
  simpl. unfold bind, get_self, set_stoi, set_pad_id, set_unk_id, set_itos,
    set_vocab_size, lift. simpl.
  rewrite mapping_mismatch_swap; simpl; auto.
  - unfold ok. f_equal. destruct self as [st it pad unk size].
    simpl in *. subst. now rewrite invert_NoDup.
  - now apply invert_NoDup.
Qed.
End Intended.

(** * Further properties of the code *)

(** ** [fit]: failure, refitting, what the vocabulary depends on *)

(** The outcome of [fit] on an instance that is not fitted, once the corpus
    has been read. *)
Lemma fit_unfitted (os : os_module) (fs : FS os) (src : pyval) (sp : bool)
      (min_freq : Z) (self : CharTokenizer) (corpus : string) :
  is_fitted self = false ->
  read_corpus os fs src = inr corpus ->
  fit os fs src sp min_freq self =
  if sp || dict_nonempty (survivors corpus min_freq)
  then (inr tt, built sp (ranked corpus min_freq))
  else (inl empty_vocabulary_error, self).
Proof.
  intros Hunfit Hread.
  destruct sp; simpl.
  - apply fit_run; auto.
  - destruct (survivors corpus min_freq) as [|k ks] eqn:Hs; simpl.
    + unfold fit, bind, get_self, lift. rewrite Hunfit, Hread.
      fold (survivors corpus min_freq). rewrite Hs. reflexivity.
    + apply fit_run; auto. right. congruence.
Qed.

Lemma survivors_nonempty_ranked (corpus : string) (min_freq : Z) :
  dict_nonempty (survivors corpus min_freq) = true <->
  ranked corpus min_freq <> [].
Proof.
  rewrite ranked_nil.
  destruct (survivors corpus min_freq); simpl; split; congruence.
Qed.

(** X1.  A call of [fit] that raises has assigned nothing: the instance is
    as it was. *)
Theorem fit_failure_keeps_state (os : os_module) (fs : FS os) (src : pyval)
        (include_specials : bool) (min_freq : Z)
        (self self' : CharTokenizer) (e : exn) :
  fit os fs src include_specials min_freq self = (inl e, self') ->
  self' = self.
Proof.
  intros Hfit. apply fit_inv in Hfit.
  destruct Hfit as [[e' [_ ->]] | [? _]]; [reflexivity | discriminate].
Qed.

Lemma fit_failure_keeps_state_witness :
  fit mem_os no_files (PyList []) true 1 (fitted_on "ab" false)
  = (inl already_fitted_error, fitted_on "ab" false) /\
  fitted_on "ab" false = fitted_on "ab" false.
Proof.
  split; [reflexivity|].
  apply (fit_failure_keeps_state mem_os no_files (PyList []) true 1
           (fitted_on "ab" false) (fitted_on "ab" false)
           already_fitted_error).
  reflexivity.
Defined.

(** X2.  Once [fit] has succeeded, every further call of [fit] on the
    instance, whatever its arguments, raises the error of line 20 and
    changes nothing. *)
Theorem refit_is_rejected (os : os_module) (fs fs' : FS os)
        (src src' : pyval) (sp sp' : bool) (min_freq min_freq' : Z)
        (self0 self : CharTokenizer) :
  fit os fs src sp min_freq self0 = (inr tt, self) ->
  fit os fs' src' sp' min_freq' self = (inl already_fitted_error, self).
Proof.
  intros Hfit. apply fit_ok_fitted in Hfit.
  unfold fit, bind, get_self. now rewrite Hfit.
Qed.

Lemma refit_is_rejected_witness :
  fit mem_os no_files (PyStr "ab") true 1 __init__
  = (inr tt, fitted_on "ab" true) /\
  fit mem_os no_files (PyStr "xyz") false 3 (fitted_on "ab" true)
  = (inl already_fitted_error, fitted_on "ab" true).
Proof.
  split; [reflexivity|].
  apply (refit_is_rejected mem_os no_files no_files (PyStr "ab")
           (PyStr "xyz") true false 1 3 __init__).
  reflexivity.
Defined.

(** Two duplicate-free lists sorted by the same asymmetric relation and
    holding the same elements are equal. *)
Lemma sorted_unique {A} (R : A -> A -> Prop) (l1 l2 : list A) :
  (forall x y, R x y -> R y x -> False) ->
  StronglySorted R l1 -> StronglySorted R l2 ->
  NoDup l1 -> NoDup l2 ->
  (forall x, In x l1 <-> In x l2) ->
  l1 = l2.
Proof.
  intros Hasym. revert l2.
  induction l1 as [|x1 l1 IH]; intros l2 Hs1 Hs2 Hn1 Hn2 Hsame.
  - destruct l2 as [|x2 l2]; [reflexivity|].
    exfalso. apply (Hsame x2). now left.
  - destruct l2 as [|x2 l2].
    { exfalso. apply (Hsame x1). now left. }
    inversion Hs1 as [|? ? Hs1' Hx1]; subst.
    inversion Hs2 as [|? ? Hs2' Hx2]; subst.
    inversion Hn1 as [|? ? Hnot1 Hn1']; subst.
    inversion Hn2 as [|? ? Hnot2 Hn2']; subst.
    rewrite Forall_forall in Hx1, Hx2.
    assert (Heq : x1 = x2).
    { destruct (proj1 (Hsame x1) (or_introl eq_refl)) as [E | Hin2];
        [now symmetry|].
      destruct (proj2 (Hsame x2) (or_introl eq_refl)) as [E | Hin1];
        [exact E|].
      exfalso. eapply Hasym; [apply (Hx1 _ Hin1) | apply (Hx2 _ Hin2)]. }
    subst x2. f_equal. apply IH; auto.
    intros x. split; intros Hin.
    + destruct (proj1 (Hsame x) (or_intror Hin)) as [E | H2]; [|exact H2].
      subst x. contradiction.
    + destruct (proj2 (Hsame x) (or_intror Hin)) as [E | H1]; [|exact H1].
      subst x. contradiction.
Qed.

Lemma precedes_asym (corpus a b : string) :
  precedes corpus a b -> precedes corpus b a -> False.
Proof.
  unfold precedes. intros [H1 | [E1 L1]] [H2 | [E2 L2]]; try lia.
  pose proof (string_ltb_trans _ _ _ L1 L2) as Haa.
  rewrite string_ltb_irrefl in Haa. discriminate.
Qed.

Lemma StronglySorted_impl {A} (R S : A -> A -> Prop) (l : list A) :
  (forall x y, R x y -> S x y) ->
  StronglySorted R l -> StronglySorted S l.
Proof.
  intros HRS. induction 1 as [|x l Hs IH Hx]; constructor; auto.
  eapply Forall_impl; [|exact Hx]. auto.
Qed.

(** The ranking depends on the corpus through the counts only. *)
Lemma ranked_counts (c1 c2 : string) (min_freq : Z) :
  (forall ch, occurrences ch c1 = occurrences ch c2) ->
  ranked c1 min_freq = ranked c2 min_freq.
Proof.
  intros Hocc.
  apply (sorted_unique (precedes c1)).
  - apply precedes_asym.
  - apply ranked_sorted.
  - eapply StronglySorted_impl; [|apply ranked_sorted].
    intros a b. unfold precedes. now rewrite !Hocc.
  - apply ranked_NoDup.
  - apply ranked_NoDup.
  - intros ch. rewrite !ranked_In, <- !occurrences_pos, Hocc. tauto.
Qed.

Lemma occurrences_perm (c1 c2 : string) :
  Permutation (chars c1) (chars c2) ->
  forall ch, occurrences ch c1 = occurrences ch c2.
Proof.
  intros Hp ch. unfold occurrences. f_equal.
  revert ch. now apply (Permutation_count_occ string_dec).
Qed.

(** X3.  The vocabulary depends on the corpus only through the number of
    occurrences of each character, and not on the instance [fit] is called
    on: two calls on unfitted instances whose corpora have the same counts
    succeed or fail alike and, on success, build the same instance. *)
Theorem fit_depends_on_counts (os : os_module) (fs1 fs2 : FS os)
        (src1 src2 : pyval) (sp : bool) (min_freq : Z)
        (self1 self2 : CharTokenizer) (c1 c2 : string) :
  is_fitted self1 = false -> is_fitted self2 = false ->
  read_corpus os fs1 src1 = inr c1 ->
  read_corpus os fs2 src2 = inr c2 ->
  (forall ch, occurrences ch c1 = occurrences ch c2) ->
  fst (fit os fs1 src1 sp min_freq self1)
  = fst (fit os fs2 src2 sp min_freq self2) /\
  (fst (fit os fs1 src1 sp min_freq self1) = inr tt ->
   snd (fit os fs1 src1 sp min_freq self1)
   = snd (fit os fs2 src2 sp min_freq self2)).
Proof.
  intros Hu1 Hu2 Hr1 Hr2 Hocc.
  rewrite (fit_unfitted os fs1 src1 sp min_freq self1 c1 Hu1 Hr1).
  rewrite (fit_unfitted os fs2 src2 sp min_freq self2 c2 Hu2 Hr2).
  pose proof (ranked_counts c1 c2 min_freq Hocc) as Hrank.
  assert (Hne : dict_nonempty (survivors c1 min_freq)
                = dict_nonempty (survivors c2 min_freq)).
  { apply eq_true_iff_eq.
    now rewrite !survivors_nonempty_ranked, Hrank. }
  rewrite Hrank, Hne.
  destruct (sp || dict_nonempty (survivors c2 min_freq)); simpl;
    split; auto; discriminate.
Qed.

Lemma fit_depends_on_counts_witness :
  (is_fitted __init__ = false /\ is_fitted leftover = false /\
   read_corpus mem_os no_files (PyStr "abca") = inr "abca" /\
   read_corpus mem_os [("f", "caab")] (PyStr "f") = inr "caab" /\
   (forall ch, occurrences ch "abca" = occurrences ch "caab")) /\
  fst (fit mem_os no_files (PyStr "abca") true 1 __init__)
  = fst (fit mem_os [("f", "caab")] (PyStr "f") true 1 leftover) /\
  (fst (fit mem_os no_files (PyStr "abca") true 1 __init__) = inr tt ->
   snd (fit mem_os no_files (PyStr "abca") true 1 __init__)
   = snd (fit mem_os [("f", "caab")] (PyStr "f") true 1 leftover)).
Proof.
  assert (Hocc : forall ch, occurrences ch "abca" = occurrences ch "caab").
  { apply occurrences_perm. simpl.
    apply (Permutation_cons_app ["c"] ["a"; "b"]).
    apply (Permutation_cons_app ["c"; "a"] []).
    reflexivity. }
  split.
  - repeat split; try reflexivity. exact Hocc.
  - apply (fit_depends_on_counts mem_os no_files [("f", "caab")]
             (PyStr "abca") (PyStr "f") true 1 __init__ leftover
             "abca" "caab");
      try reflexivity. exact Hocc.
Defined.

(** ** [fit]: the threshold and the size of the vocabulary *)

(** In a list sorted by descending count, the elements that reach a
    threshold come first. *)
Lemma sorted_threshold_prefix (corpus : string) (m : Z) (l : list string) :
  StronglySorted (precedes corpus) l ->
  l = filter (fun ch => m <=? occurrences ch corpus) l
      ++ filter (fun ch => negb (m <=? occurrences ch corpus)) l.
Proof.
  induction 1 as [|x l Hs IH Hx]; simpl; [reflexivity|].
  destruct (Z.leb_spec m (occurrences x corpus)) as [Hle | Hlt]; simpl.
  - now rewrite <- IH.
  - assert (Hnone : forall y, In y l ->
              (m <=? occurrences y corpus) = false).
    { rewrite Forall_forall in Hx. intros y Hy.
      specialize (Hx y Hy). unfold precedes in Hx.
      apply Z.leb_gt. lia. }
    replace (filter (fun ch => m <=? occurrences ch corpus) l) with
      (@nil string).
    + simpl. f_equal. symmetry. apply filter_all.
      intros y Hy. now rewrite Hnone.
    + symmetry. destruct (filter _ l) as [|y ys] eqn:E; [reflexivity|].
      assert (Hin : In y (filter (fun ch => m <=? occurrences ch corpus) l))
        by (rewrite E; now left).
      apply filter_In in Hin. destruct Hin as [Hy Hk].
      rewrite Hnone in Hk by exact Hy. discriminate.
Qed.

Lemma StronglySorted_filter {A} (R : A -> A -> Prop) (f : A -> bool)
      (l : list A) :
  StronglySorted R l -> StronglySorted R (filter f l).
Proof.
  induction 1 as [|x l Hs IH Hx]; simpl; [constructor|].
  destruct (f x); [|exact IH].
  constructor; [exact IH|].
  rewrite Forall_forall in *. intros y Hy. apply filter_In in Hy.
  apply Hx. tauto.
Qed.

(** Raising the threshold keeps a prefix of the ranking. *)
Lemma ranked_threshold (corpus : string) (m1 m2 : Z) :
  m1 <= m2 ->
  exists rest, ranked corpus m1 = ranked corpus m2 ++ rest.
Proof.
  intros Hle.
  exists (filter (fun ch => negb (m2 <=? occurrences ch corpus))
                 (ranked corpus m1)).
  rewrite (sorted_threshold_prefix corpus m2 (ranked corpus m1)
             (ranked_sorted corpus m1)) at 1.
  f_equal.
  apply (sorted_unique (precedes corpus)).
  - apply precedes_asym.
  - apply StronglySorted_filter, ranked_sorted.
  - apply ranked_sorted.
  - apply NoDup_filter, ranked_NoDup.
  - apply ranked_NoDup.
  - intros ch. rewrite filter_In, !ranked_In, Z.leb_le. split.
    + tauto.
    + intros [Hin Hm]. repeat split; auto. lia.
Qed.

(** X4.  Raising [min_freq] only truncates the vocabulary: with the same
    corpus and the same choice of specials, the [stoi] built with the
    higher threshold is an initial part of the one built with the lower, so
    every surviving character and both specials keep their ids. *)
Theorem raising_min_freq_truncates (os : os_module) (fs : FS os)
        (src : pyval) (sp : bool) (m1 m2 : Z)
        (self1 self2 low high : CharTokenizer) :
  m1 <= m2 ->
  fit os fs src sp m1 self1 = (inr tt, low) ->
  fit os fs src sp m2 self2 = (inr tt, high) ->
  (exists rest, stoi low = stoi high ++ rest) /\
  (forall ch i, dict_get (stoi high) ch = Some i ->
                dict_get (stoi low) ch = Some i).
Proof.
  intros Hle H1 H2.
  apply fit_ok_built in H1, H2.
  destruct H1 as [c1 [Hr1 [_ ->]]]. destruct H2 as [c2 [Hr2 [_ ->]]].
  assert (c2 = c1) as -> by congruence.
  destruct (ranked_threshold c1 m1 m2 Hle) as [rest Hrest].
  assert (Hpre : exists more,
             vocabulary sp (ranked c1 m1)
             = vocabulary sp (ranked c1 m2) ++ more).
  { unfold vocabulary. rewrite Hrest, number_app.
    eexists. now rewrite app_assoc. }
  split; [exact Hpre|].
  destruct Hpre as [more Hmore]. simpl. intros ch i Hg.
  now rewrite Hmore, dict_get_app, Hg.
Qed.

Lemma raising_min_freq_truncates_witness :
  (1 <= 2 /\
   fit mem_os no_files (PyStr "abcab") true 1 __init__
   = (inr tt, fitted_on "abcab" true) /\
   fit mem_os no_files (PyStr "abcab") true 2 __init__
   = (inr tt, built true ["a"; "b"])) /\
  (exists rest, stoi (fitted_on "abcab" true)
                = stoi (built true ["a"; "b"]) ++ rest) /\
  (forall ch i, dict_get (stoi (built true ["a"; "b"])) ch = Some i ->
                dict_get (stoi (fitted_on "abcab" true)) ch = Some i).
Proof.
  split; [split; [lia | split; vm_compute; reflexivity]|].
  apply (raising_min_freq_truncates mem_os no_files (PyStr "abcab") true
           1 2 __init__ __init__);
    [lia | vm_compute; reflexivity | vm_compute; reflexivity].
Defined.

Lemma number_values_range (keys : list string) (start i : Z) :
  In i (dict_values (number keys start)) <->
  start <= i < start + Z.of_nat (List.length keys).
Proof.
  revert start. induction keys as [|k keys IH]; intros start; simpl.
  - split; [tauto | lia].
  - rewrite IH, Zpos_P_of_succ_nat. split.
    + intros [<- | H]; lia.
    + intros H. destruct (Z.eq_dec start i); [now left | right; lia].
Qed.

(** The ids in use are the integers below the size of the vocabulary. *)
Lemma vocabulary_values_range (sp : bool) (order : list string) (i : Z) :
  In i (dict_values (vocabulary sp order)) <->
  0 <= i < dict_len (vocabulary sp order).
Proof.
  unfold vocabulary, dict_values, dict_len.
  rewrite map_app, in_app_iff, length_app, number_length.
  fold (dict_values (number order (first_id sp))).
  rewrite number_values_range, Nat2Z.inj_add.
  destruct sp; cbn [specials first_id map snd In List.length].
  - change (Z.of_nat 2) with 2.
    split; [intros [[<- | [<- | []]] | H]; lia|].
    intros H. destruct (Z.eq_dec i 0); [left; now left|].
    destruct (Z.eq_dec i 1); [left; right; now left|]. right. lia.
  - change (Z.of_nat 0) with 0.
    split; [intros [[] | H]; lia | intros H; right; lia].
Qed.

(** X5.  After a successful [fit] the ids are contiguous from 0: an integer
    is a key of [itos] exactly when it is at least 0 and below
    [vocab_size]; [get_vocab_size] returns that size, which is the number of
    distinct characters that reach [min_freq], plus 2 with specials. *)
Theorem fit_ids_are_contiguous (os : os_module) (fs : FS os) (src : pyval)
        (include_specials : bool) (min_freq : Z)
        (self0 self : CharTokenizer) :
  fit os fs src include_specials min_freq self0 = (inr tt, self) ->
  (forall i, dict_mem (itos self) i = true <-> 0 <= i < vocab_size self) /\
  get_vocab_size self = inr (vocab_size self) /\
  exists corpus survivors,
    read_corpus os fs src = inr corpus /\
    NoDup survivors /\
    (forall ch, In ch survivors <->
                In ch (chars corpus) /\ min_freq <= occurrences ch corpus) /\
    vocab_size self
    = (if include_specials then 2 else 0)
      + Z.of_nat (List.length survivors).
Proof.
  intros Hfit.
  pose proof (fit_ok_fitted _ _ _ _ _ _ _ Hfit) as Hf.
  apply fit_ok_built in Hfit. destruct Hfit as [corpus [Hread [_ ->]]].
  split; [|split].
  - intros i. rewrite dict_mem_true. simpl. rewrite swap_keys.
    apply vocabulary_values_range.
  - unfold get_vocab_size. now rewrite Hf.
  - exists corpus, (ranked corpus min_freq).
    split; [exact Hread|]. split; [apply ranked_NoDup|].
    split; [apply ranked_In|].
    cbn [vocab_size built]. unfold vocabulary, dict_len.
    rewrite length_app, number_length, Nat2Z.inj_add.
    now destruct include_specials.
Qed.

Lemma fit_ids_are_contiguous_witness :
  fit mem_os no_files (PyStr "aba") true 1 __init__
  = (inr tt, fitted_on "aba" true) /\
  vocab_size (fitted_on "aba" true) = 4 /\
  (forall i, dict_mem (itos (fitted_on "aba" true)) i = true <->
             0 <= i < vocab_size (fitted_on "aba" true)) /\
  get_vocab_size (fitted_on "aba" true)
  = inr (vocab_size (fitted_on "aba" true)) /\
  exists corpus survivors,
    read_corpus mem_os no_files (PyStr "aba") = inr corpus /\
    NoDup survivors /\
    (forall ch, In ch survivors <->
                In ch (chars corpus) /\ 1 <= occurrences ch corpus) /\
    vocab_size (fitted_on "aba" true)
    = 2 + Z.of_nat (List.length survivors).
Proof.
  split; [vm_compute; reflexivity|]. split; [vm_compute; reflexivity|].
  apply (fit_ids_are_contiguous mem_os no_files (PyStr "aba") true 1
           __init__).
  vm_compute. reflexivity.
Defined.

(** ** [encode] and [decode]: concatenation *)

Lemma mapM_app {A B} (f : A -> result B) (l1 l2 : list A) :
  mapM f (l1 ++ l2) =
  rbind (mapM f l1) (fun a => rbind (mapM f l2) (fun b => ok (a ++ b))).
Proof.
  induction l1 as [|x l1 IH]; simpl.
  - destruct (mapM f l2); reflexivity.
  - destruct (f x) as [e|y]; simpl; [reflexivity|].
    rewrite IH. destruct (mapM f l1) as [e|a]; simpl; [reflexivity|].
    destruct (mapM f l2); reflexivity.
Qed.

Lemma chars_app (t1 t2 : string) :
  chars (t1 ++ t2)%string = chars t1 ++ chars t2.
Proof.
  unfold chars. rewrite <- map_app. f_equal.
  induction t1 as [|c t1 IH]; simpl; [reflexivity|]. now rewrite IH.
Qed.

Lemma string_app_nil_r (s : string) : (s ++ "")%string = s.
Proof. induction s as [|c s IH]; simpl; [reflexivity|]. now rewrite IH. Qed.

Lemma string_app_assoc (a b c : string) :
  ((a ++ b) ++ c = a ++ (b ++ c))%string.
Proof. induction a as [|x a IH]; simpl; [reflexivity|]. now rewrite IH. Qed.

Lemma join_cons (x : string) (l : list string) :
  join (x :: l) = (x ++ join l)%string.
Proof.
  unfold join. destruct l as [|y l]; simpl; [|reflexivity].
  now rewrite string_app_nil_r.
Qed.

Lemma join_app (l1 l2 : list string) :
  join (l1 ++ l2) = (join l1 ++ join l2)%string.
Proof.
  induction l1 as [|x l1 IH]; [reflexivity|].
  rewrite <- app_comm_cons, !join_cons, IH. now rewrite string_app_assoc.
Qed.

(** X6.  [encode] and [decode] work piecewise: encoding a concatenation of
    two texts is encoding each and appending the ids, decoding a
    concatenation of two id sequences is decoding each and appending the
    texts; an exception of the first part comes before one of the second.
    This holds for every instance, fitted or not. *)
Theorem encode_decode_concatenation (self : CharTokenizer) :
  (forall t1 t2 strict,
     encode self (t1 ++ t2)%string strict =
     rbind (encode self t1 strict) (fun a =>
     rbind (encode self t2 strict) (fun b => ok (a ++ b)))) /\
  (forall ids1 ids2 skip_specials,
     decode self (ids1 ++ ids2) skip_specials =
     rbind (decode self ids1 skip_specials) (fun a =>
     rbind (decode self ids2 skip_specials) (fun b => ok (a ++ b)%string))).
Proof.
  split.
  - intros t1 t2 strict. unfold encode.
    destruct (is_fitted self); simpl; [|reflexivity].
    assert (Hl : lookup_all self (t1 ++ t2)%string =
                 rbind (lookup_all self t1) (fun a =>
                 rbind (lookup_all self t2) (fun b => ok (a ++ b)))).
    { unfold lookup_all. now rewrite chars_app, mapM_app. }
    destruct strict; [exact Hl|].
    destruct (is_none (unk_id self)); [exact Hl|].
    simpl. now rewrite chars_app, map_app.
  - intros ids1 ids2 skip. unfold decode.
    destruct (is_fitted self); simpl; [|reflexivity].
    assert (Hj : forall l1 l2,
               rbind (mapM (getitem PyInt (itos self)) (l1 ++ l2))
                     (fun parts => ok (join parts)) =
               rbind (rbind (mapM (getitem PyInt (itos self)) l1)
                            (fun parts => ok (join parts))) (fun a =>
               rbind (rbind (mapM (getitem PyInt (itos self)) l2)
                            (fun parts => ok (join parts)))
                     (fun b => ok (a ++ b)%string))).
    { intros l1 l2. rewrite mapM_app.
      destruct (mapM (getitem PyInt (itos self)) l1) as [e|a]; simpl;
        [reflexivity|].
      destruct (mapM (getitem PyInt (itos self)) l2) as [e|b]; simpl;
        [reflexivity|].
      now rewrite join_app. }
    destruct (skip && negb (is_none (pad_id self))
              && negb (is_none (unk_id self))).
    + rewrite filter_app. apply Hj.
    + apply Hj.
Qed.

(** ** [encode]: strict mode, and ids that are always valid *)

(** X7.  On a fitted instance strict [encode] succeeds exactly when every
    character is in the vocabulary; otherwise it raises [KeyError] for the
    first character that is not, whether or not an unknown-id is
    configured. *)
Theorem strict_encode_outcome (self : CharTokenizer) (text : string) :
  is_fitted self = true ->
  match first_unknown self text with
  | Some ch => encode self text true = inl (KeyError (PyStr ch))
  | None => encode self text true = inr (map PyInt (ids_of self text))
  end.
Proof.
  intros Hf. destruct (first_unknown self text) as [ch|] eqn:Hu.
  - unfold encode. rewrite Hf. simpl. now apply lookup_all_unknown.
  - apply encode_known; [exact Hf|].
    intros ch Hin. unfold first_unknown in Hu.
    pose proof (find_none _ _ Hu ch Hin) as Hk. simpl in Hk.
    now apply negb_false_iff in Hk.
Qed.

Lemma strict_encode_outcome_witness :
  is_fitted (fitted_on "ab" true) = true /\
  encode (fitted_on "ab" true) "abzq" true = inl (KeyError (PyStr "z")) /\
  match first_unknown (fitted_on "ab" true) "ba" with
  | Some ch => encode (fitted_on "ab" true) "ba" true
               = inl (KeyError (PyStr ch))
  | None => encode (fitted_on "ab" true) "ba" true
            = inr (map PyInt (ids_of (fitted_on "ab" true) "ba"))
  end.
Proof.
  split; [reflexivity|]. split; [reflexivity|].
  apply (strict_encode_outcome (fitted_on "ab" true) "ba"). reflexivity.
Defined.

Lemma Forall_PyInt (Q : Z -> Prop) (ids : list pyval) :
  Forall (fun y => exists z, y = PyInt z /\ Q z) ids ->
  exists zs, ids = map PyInt zs /\ Forall Q zs.
Proof.
  induction 1 as [|y ids [z [-> Hz]] _ [zs [-> Hzs]]].
  - exists []. split; [reflexivity | constructor].
  - exists (z :: zs). split; [reflexivity | now constructor].
Qed.

Lemma mapM_getitem_total {K V} `{Key K} (wrap : K -> pyval) (d : dict K V)
      (l : list K) :
  (forall k, In k l -> dict_mem d k = true) ->
  exists vs, mapM (getitem wrap d) l = inr vs.
Proof.
  induction l as [|k l IH]; simpl; intros Hall; [eexists; reflexivity|].
  assert (Hk : dict_mem d k = true) by (apply Hall; now left).
  destruct IH as [vs Hvs]; [auto|]. rewrite Hvs.
  unfold getitem, dict_mem in *.
  destruct (dict_get d k) as [v|]; [|discriminate]. simpl.
  eexists; reflexivity.
Qed.

(** Every element of a list that [encode] returns is an id in use. *)
Lemma encode_built_ids (sp : bool) (order : list string) (text : string)
      (strict : bool) (ids : list pyval) :
  sp = true \/ order <> [] ->
  encode (built sp order) text strict = inr ids ->
  Forall (fun y => exists z, y = PyInt z
                             /\ In z (dict_values (vocabulary sp order)))
         ids.
Proof.
  intros Hne Henc.
  pose proof (built_fitted sp order Hne) as Hf.
  destruct sp.
  - apply encode_inv in Henc.
    induction Henc as [|ch y l ids' Hy _ IH]; [constructor|].
    constructor; [|exact IH].
    subst y. unfold stoi_or_unk. cbn [stoi unk_id built].
    destruct (dict_get (vocabulary true order) ch) as [i|] eqn:Hg.
    + exists i. split; [reflexivity|].
      apply dict_get_In in Hg. now apply (in_map snd) in Hg.
    + exists 1. split; [reflexivity|]. right. now left.
  - assert (Hl : lookup_all (built false order) text = inr ids).
    { unfold encode in Henc. rewrite Hf in Henc. simpl in Henc.
      now destruct strict. }
    clear Henc. apply lookup_all_inv in Hl.
    induction Hl as [|ch y l ids' [i [Hg ->]] _ IH]; [constructor|].
    constructor; [|exact IH].
    exists i. split; [reflexivity|].
    apply dict_get_In in Hg. now apply (in_map snd) in Hg.
Qed.

(** X8.  After a successful [fit], whatever [encode] returns, strict or
    not, is a list of integers that are at least 0 and below [vocab_size],
    and [decode] accepts that list, with or without [skip_specials]. *)
Theorem encode_ids_are_valid (os : os_module) (fs : FS os) (src : pyval)
        (include_specials : bool) (min_freq : Z)
        (self0 self : CharTokenizer) (text : string) (strict : bool)
        (ids : list pyval) :
  fit os fs src include_specials min_freq self0 = (inr tt, self) ->
  encode self text strict = inr ids ->
  exists zs,
    ids = map PyInt zs /\
    (forall z, In z zs -> 0 <= z < vocab_size self) /\
    (forall skip_specials, exists out,
        decode self zs skip_specials = inr out).
Proof.
  intros Hfit Henc.
  pose proof (fit_ok_fitted _ _ _ _ _ _ _ Hfit) as Hf.
  apply fit_ok_built in Hfit. destruct Hfit as [corpus [_ [Hne ->]]].
  assert (Hne' : include_specials = true \/ ranked corpus min_freq <> []).
  { destruct Hne as [? | Hne]; [now left|]. right. now rewrite ranked_nil. }
  apply encode_built_ids in Henc; [|exact Hne'].
  apply Forall_PyInt in Henc. destruct Henc as [zs [-> Hzs]].
  rewrite Forall_forall in Hzs.
  exists zs. split; [reflexivity|]. split.
  - intros z Hz. apply vocabulary_values_range. auto.
  - intros skip.
    assert (Hmem : forall l, (forall z, In z l -> In z zs) ->
              exists vs, mapM (getitem PyInt
                                 (itos (built include_specials
                                          (ranked corpus min_freq)))) l
                         = inr vs).
    { intros l Hsub. apply mapM_getitem_total. intros z Hz.
      apply dict_mem_true. cbn [itos built]. rewrite swap_keys. auto. }
    set (self := built include_specials (ranked corpus min_freq)) in *.
    unfold decode. rewrite Hf. cbn [negb].
    destruct (skip && negb (is_none (pad_id self))
              && negb (is_none (unk_id self))).
    + destruct (Hmem (filter
                        (fun i => negb (int_eq i (pad_id self))
                                  && negb (int_eq i (unk_id self))) zs))
        as [vs Hvs].
      * intros z Hz. apply filter_In in Hz. tauto.
      * rewrite Hvs. simpl. eauto.
    + destruct (Hmem zs) as [vs Hvs]; [auto|].
      rewrite Hvs. simpl. eauto.
Qed.

Lemma encode_ids_are_valid_witness :
  (fit mem_os no_files (PyStr "ab") true 1 __init__
   = (inr tt, fitted_on "ab" true) /\
   encode (fitted_on "ab" true) "a?b" false
   = inr [PyInt 2; PyInt 1; PyInt 3]) /\
  exists zs,
    [PyInt 2; PyInt 1; PyInt 3] = map PyInt zs /\
    (forall z, In z zs -> 0 <= z < vocab_size (fitted_on "ab" true)) /\
    (forall skip_specials, exists out,
        decode (fitted_on "ab" true) zs skip_specials = inr out).
Proof.
  split; [split; reflexivity|].
  apply (encode_ids_are_valid mem_os no_files (PyStr "ab") true 1 __init__
           (fitted_on "ab" true) "a?b" false); reflexivity.
Defined.

(** ** Round trips *)

Lemma built_true_itos_unk (order : list string) :
  dict_get (itos (built true order)) 1 = Some "<UNK>".
Proof. reflexivity. Qed.

(** Decoding the lenient encoding of a list of characters, on an instance
    built with specials. *)
Lemma lenient_ids_decode (order : list string) (l : list string) :
  NoDup order -> Forall is_char order -> Forall is_char l ->
  let self := built true order in
  let ids := map (fun ch => dict_get_default (stoi self) ch 1) l in
  mapM (getitem PyInt (itos self))
       (filter (fun i => negb (int_eq i (pad_id self))
                         && negb (int_eq i (unk_id self))) ids)
  = inr (filter (known self) l) /\
  mapM (getitem PyInt (itos self)) ids
  = inr (map (fun ch => if known self ch then ch else "<UNK>") l).
Proof.
  intros Hnd Hord Hl self ids. subst ids.
  pose proof (built_consistent true order Hnd Hord) as Hc.
  fold self in Hc.
  induction Hl as [|ch l Hch _ [IH1 IH2]]; [split; reflexivity|].
  cbn [map filter]. unfold known, dict_mem, dict_get_default in *.
  destruct (dict_get (stoi self) ch) as [i|] eqn:Hg.
  - assert (Hi : 2 <= i).
    { apply (vocabulary_char_id true order ch i Hch). exact Hg. }
    apply (consistent_inverse self ch i Hc) in Hg.
    assert (Hkeep : negb (int_eq i (pad_id self))
                    && negb (int_eq i (unk_id self)) = true).
    { subst self. cbn [pad_id unk_id built int_eq].
      destruct (Z.eqb_spec i 0); [lia|].
      destruct (Z.eqb_spec i 1); [lia|]. reflexivity. }
    rewrite Hkeep. cbn [mapM]. unfold getitem at 1 3. rewrite Hg.
    cbn [rbind]. rewrite IH1, IH2. split; reflexivity.
  - assert (Hdrop : negb (int_eq 1 (pad_id self))
                    && negb (int_eq 1 (unk_id self)) = false)
      by reflexivity.
    rewrite Hdrop. cbn [mapM]. unfold getitem at 2.
    subst self. rewrite built_true_itos_unk.
    cbn [rbind]. rewrite IH2. split; [exact IH1 | reflexivity].
Qed.

(** X9.  After a successful [fit] with specials, non-strict [encode]
    accepts every text; decoding its result with [skip_specials] gives the
    text without the characters that are not in the vocabulary, and
    decoding it without [skip_specials] gives the text with each such
    character replaced by the marker [<UNK>]. *)
Theorem lenient_round_trip (os : os_module) (fs : FS os) (src : pyval)
        (min_freq : Z) (self0 self : CharTokenizer) (text : string) :
  fit os fs src true min_freq self0 = (inr tt, self) ->
  exists ids,
    encode self text false = inr (map PyInt ids) /\
    decode self ids true = inr (join (filter (known self) (chars text))) /\
    decode self ids false
    = inr (join (map (fun ch => if known self ch then ch else "<UNK>")
                     (chars text))).
Proof.
  intros Hfit.
  pose proof (fit_ok_fitted _ _ _ _ _ _ _ Hfit) as Hf.
  apply fit_ok_built in Hfit. destruct Hfit as [corpus [_ [_ ->]]].
  set (self := built true (ranked corpus min_freq)) in *.
  exists (map (fun ch => dict_get_default (stoi self) ch 1) (chars text)).
  destruct (lenient_ids_decode (ranked corpus min_freq) (chars text)
              (ranked_NoDup _ _) (ranked_is_char _ _)) as [H1 H2].
  { apply Forall_forall. intros ch. apply chars_is_char. }
  fold self in H1, H2.
  split; [|split].
  - unfold encode. rewrite Hf. cbn [negb is_none unk_id self built].
    unfold ok. f_equal. rewrite map_map. apply map_ext. intros ch.
    unfold dict_get_default. cbn [stoi self built].
    now destruct (dict_get (vocabulary true (ranked corpus min_freq)) ch).
  - unfold decode. rewrite Hf. cbn [negb].
    replace (true && negb (is_none (pad_id self))
             && negb (is_none (unk_id self))) with true by reflexivity.
    now rewrite H1.
  - unfold decode. rewrite Hf. cbn [negb andb]. now rewrite H2.
Qed.

Lemma lenient_round_trip_witness :
  fit mem_os no_files (PyStr "ab") true 1 __init__
  = (inr tt, fitted_on "ab" true) /\
  decode (fitted_on "ab" true) [2; 1; 3; 1] true = inr "ab" /\
  decode (fitted_on "ab" true) [2; 1; 3; 1] false = inr "a<UNK>b<UNK>" /\
  exists ids,
    encode (fitted_on "ab" true) "a?b!" false = inr (map PyInt ids) /\
    decode (fitted_on "ab" true) ids true
    = inr (join (filter (known (fitted_on "ab" true)) (chars "a?b!"))) /\
    decode (fitted_on "ab" true) ids false
    = inr (join (map (fun ch => if known (fitted_on "ab" true) ch
                                then ch else "<UNK>")
                     (chars "a?b!"))).
Proof.
  split; [reflexivity|]. split; [reflexivity|]. split; [reflexivity|].
  apply (lenient_round_trip mem_os no_files (PyStr "ab") 1 __init__).
  reflexivity.
Defined.

Lemma chars_join (l : list string) :
  Forall is_char l -> chars (join l) = l.
Proof.
  induction 1 as [|x l [c ->] _ IH]; [reflexivity|].
  rewrite join_cons. cbn. unfold chars in IH. now rewrite IH.
Qed.

(** The ids of characters, on an instance that [fit] has built: each is
    the id of one character, and the characters spell the ids back. *)
Lemma character_ids_decode (sp : bool) (order : list string)
      (ids : list Z) :
  NoDup order -> Forall is_char order ->
  (forall i, In i ids ->
             first_id sp <= i < dict_len (vocabulary sp order)) ->
  exists chs,
    Forall is_char chs /\
    mapM (getitem PyInt (itos (built sp order))) ids = inr chs /\
    (forall ch, In ch chs -> dict_mem (stoi (built sp order)) ch = true) /\
    map (fun ch => dict_get_default (stoi (built sp order)) ch 0) chs = ids.
Proof.
  intros Hnd Hord.
  pose proof (built_consistent sp order Hnd Hord) as Hc.
  induction ids as [|i ids IH]; intros Hrange.
  - exists []. repeat split; auto.
  - destruct IH as [chs [Hchs [Hm [Hk Hids]]]];
      [intros j Hj; apply Hrange; now right|].
    assert (Hi : first_id sp <= i < dict_len (vocabulary sp order))
      by (apply Hrange; now left).
    assert (Hin : In i (dict_values (vocabulary sp order))).
    { apply vocabulary_values_range. destruct sp; simpl in Hi; lia. }
    unfold dict_values in Hin. rewrite in_map_iff in Hin.
    destruct Hin as [[ch j] [E Hin]]. simpl in E. subst j.
    assert (Hch : is_char ch).
    { unfold vocabulary in Hin. apply in_app_or in Hin.
      destruct Hin as [Hin | Hin].
      - exfalso. destruct sp; simpl in Hin, Hi; [|tauto].
        destruct Hin as [[= _ <-] | [[= _ <-] | []]]; lia.
      - apply number_In in Hin. rewrite Forall_forall in Hord.
        apply Hord. tauto. }
    assert (Hg : dict_get (stoi (built sp order)) ch = Some i).
    { apply In_dict_get; [apply Hc | exact Hin]. }
    exists (ch :: chs). split; [now constructor|]. split; [|split].
    + cbn [mapM]. unfold getitem at 1.
      rewrite (proj1 (consistent_inverse _ ch i Hc) Hg).
      cbn [rbind]. now rewrite Hm.
    + intros ch' [<- | Hin']; [|auto].
      unfold dict_mem. now rewrite Hg.
    + cbn [map]. unfold dict_get_default at 1. rewrite Hg. now f_equal.
Qed.

(** X10.  After a successful [fit], a sequence of ids of characters (ids
    that are in use and, with specials, are at least 2) decodes to a text
    with one character per id, and encoding that text, strict or not,
    returns the sequence. *)
Theorem encode_decode_round_trip (os : os_module) (fs : FS os)
        (src : pyval) (include_specials : bool) (min_freq : Z)
        (self0 self : CharTokenizer) (ids : list Z)
        (strict skip_specials : bool) :
  fit os fs src include_specials min_freq self0 = (inr tt, self) ->
  (forall i, In i ids ->
             (if include_specials then 2 else 0) <= i < vocab_size self) ->
  exists text,
    decode self ids skip_specials = inr text /\
    String.length text = List.length ids /\
    encode self text strict = inr (map PyInt ids).
Proof.
  intros Hfit Hrange.
  pose proof (fit_ok_fitted _ _ _ _ _ _ _ Hfit) as Hf.
  pose proof (fit_ok_fit_built _ _ _ _ _ _ _ Hfit) as Hb.
  apply fit_ok_built in Hfit. destruct Hfit as [corpus [_ [_ ->]]].
  set (order := ranked corpus min_freq) in *.
  destruct (character_ids_decode include_specials order ids
              (ranked_NoDup _ _) (ranked_is_char _ _) Hrange)
    as [chs [Hchs [Hm [Hk Hids]]]].
  set (self := built include_specials order) in *.
  assert (Hchars : chars (join chs) = chs) by now apply chars_join.
  assert (Hknown : forall ch, In ch (chars (join chs)) ->
                              dict_mem (stoi self) ch = true)
    by (rewrite Hchars; exact Hk).
  assert (Hidsof : ids_of self (join chs) = ids)
    by (unfold ids_of; now rewrite Hchars).
  exists (join chs). split; [|split].
  - rewrite <- Hidsof. apply decode_ids_of; auto.
    + now apply fit_built_consistent.
    + intros i. now apply fit_built_plain_ids.
  - rewrite <- chars_length, Hchars, <- Hids. now rewrite length_map.
  - rewrite <- Hidsof. now apply encode_known.
Qed.

Lemma encode_decode_round_trip_witness :
  (fit mem_os no_files (PyStr "ab") true 1 __init__
   = (inr tt, fitted_on "ab" true) /\
   (forall i, In i [3; 2; 2] ->
              2 <= i < vocab_size (fitted_on "ab" true))) /\
  decode (fitted_on "ab" true) [3; 2; 2] true = inr "baa" /\
  exists text,
    decode (fitted_on "ab" true) [3; 2; 2] true = inr text /\
    String.length text = List.length [3; 2; 2] /\
    encode (fitted_on "ab" true) text true = inr (map PyInt [3; 2; 2]).
Proof.
  assert (Hr : forall i, In i [3; 2; 2] ->
                         2 <= i < vocab_size (fitted_on "ab" true)).
  { assert (Hv : vocab_size (fitted_on "ab" true) = 4)
      by (vm_compute; reflexivity).
    rewrite Hv. intros i [<- | [<- | [<- | []]]]; lia. }
  split; [split; [vm_compute; reflexivity | exact Hr]|].
  split; [vm_compute; reflexivity|].
  apply (encode_decode_round_trip mem_os no_files (PyStr "ab") true 1
           __init__ (fitted_on "ab" true) [3; 2; 2] true true eq_refl Hr).
Defined.

(** X11.  Fitting on a text given inline (a string that names no file)
    with [min_freq] at most 1 puts every character of the text in the
    vocabulary: the text itself then encodes and decodes back to itself,
    for both values of [strict] and of [skip_specials]. *)
Theorem fitted_text_round_trip (os : os_module) (fs : FS os)
        (text : string) (include_specials : bool) (min_freq : Z)
        (self0 self : CharTokenizer) (strict skip_specials : bool) :
  isfile os fs text = false ->
  min_freq <= 1 ->
  fit os fs (PyStr text) include_specials min_freq self0 = (inr tt, self) ->
  exists ids,
    encode self text strict = inr (map PyInt ids) /\
    decode self ids skip_specials = inr text.
Proof.
  intros Hnofile Hmin Hfit.
  pose proof (fit_ok_fitted _ _ _ _ _ _ _ Hfit) as Hf.
  pose proof (fit_ok_fit_built _ _ _ _ _ _ _ Hfit) as Hb.
  apply fit_ok_built in Hfit. destruct Hfit as [corpus [Hread [_ ->]]].
  simpl in Hread. rewrite Hnofile in Hread. injection Hread as <-.
  set (self := built include_specials (ranked text min_freq)) in *.
  assert (Hknown : forall ch, In ch (chars text) ->
                              dict_mem (stoi self) ch = true).
  { intros ch Hin. apply dict_mem_true.
    assert (Hr : In ch (ranked text min_freq)).
    { apply ranked_In. split; [exact Hin|].
      apply occurrences_pos in Hin. lia. }
    subst self. cbn [stoi built]. unfold vocabulary, dict_keys.
    rewrite map_app, in_app_iff. right.
    fold (dict_keys (number (ranked text min_freq)
                            (first_id include_specials))).
    now rewrite number_keys. }
  exists (ids_of self text). split.
  - now apply encode_known.
  - apply decode_ids_of; auto.
    + now apply fit_built_consistent.
    + intros i. now apply fit_built_plain_ids.
Qed.

Lemma fitted_text_round_trip_witness :
  (isfile mem_os no_files "aba" = false /\ 1 <= 1 /\
   fit mem_os no_files (PyStr "aba") true 1 __init__
   = (inr tt, fitted_on "aba" true)) /\
  exists ids,
    encode (fitted_on "aba" true) "aba" false = inr (map PyInt ids) /\
    decode (fitted_on "aba" true) ids true = inr "aba".
Proof.
  split; [split; [reflexivity | split; [lia | vm_compute; reflexivity]]|].
  apply (fitted_text_round_trip mem_os no_files "aba" true 1 __init__);
    [reflexivity | lia | vm_compute; reflexivity].
Defined.

(** X12.  After a successful [fit] without specials no reserved id is set:
    non-strict [encode] is strict [encode], and [skip_specials] makes no
    difference to [decode]. *)
Theorem without_specials_flags_are_inert (os : os_module) (fs : FS os)
        (src : pyval) (min_freq : Z) (self0 self : CharTokenizer) :
  fit os fs src false min_freq self0 = (inr tt, self) ->
  pad_id self = PyNone /\ unk_id self = PyNone /\
  (forall text, encode self text false = encode self text true) /\
  (forall ids, decode self ids true = decode self ids false).
Proof.
  intros Hfit. apply fit_ok_built in Hfit.
  destruct Hfit as [corpus [_ [_ ->]]].
  split; [reflexivity|]. split; [reflexivity|]. split.
  - intros text. unfold encode.
    now destruct (is_fitted (built false (ranked corpus min_freq))).
  - intros ids. unfold decode.
    now destruct (is_fitted (built false (ranked corpus min_freq))).
Qed.

Lemma without_specials_flags_are_inert_witness :
  fit mem_os no_files (PyStr "ab") false 1 __init__
  = (inr tt, fitted_on "ab" false) /\
  encode (fitted_on "ab" false) "abz" false = inl (KeyError (PyStr "z")) /\
  pad_id (fitted_on "ab" false) = PyNone /\
  unk_id (fitted_on "ab" false) = PyNone /\
  (forall text, encode (fitted_on "ab" false) text false
                = encode (fitted_on "ab" false) text true) /\
  (forall ids, decode (fitted_on "ab" false) ids true
               = decode (fitted_on "ab" false) ids false).
Proof.
  split; [reflexivity|]. split; [reflexivity|].
  apply (without_specials_flags_are_inert mem_os no_files (PyStr "ab") 1
           __init__).
  reflexivity.
Defined.

(** ** Instances that are not fitted *)

(** X13.  An instance in which [stoi] or [itos] is empty, a new one for
    example, refuses every operation that reads the vocabulary: [encode],
    [decode] and [get_vocab_size] raise the error of lines 74, 83 and 90,
    and [save] raises the error of line 99 before it touches the file
    system. *)
Theorem unfitted_instance_refuses (self : CharTokenizer) :
  is_fitted self = false ->
  (forall text strict, encode self text strict = inl not_fitted_error) /\
  (forall ids skip_specials,
     decode self ids skip_specials = inl not_fitted_error) /\
  get_vocab_size self = inl not_fitted_error /\
  (forall os G path fs,
     save os G self path fs = (inl save_not_fitted_error, fs)).
Proof.
  intros Hf. repeat split; intros;
    unfold encode, decode, get_vocab_size, save; now rewrite Hf.
Qed.

Lemma unfitted_instance_refuses_witness :
  is_fitted leftover = false /\
  (forall text strict, encode leftover text strict = inl not_fitted_error) /\
  (forall ids skip_specials,
     decode leftover ids skip_specials = inl not_fitted_error) /\
  get_vocab_size leftover = inl not_fitted_error /\
  (forall os G path fs,
     save os G leftover path fs = (inl save_not_fitted_error, fs)).
Proof.
  split; [reflexivity|].
  apply (unfitted_instance_refuses leftover). reflexivity.
Defined.

(** ** The corpus of [fit] *)

Lemma mapM_Forall2 {A B} (f : A -> result B) (l : list A) (ys : list B) :
  Forall2 (fun x y => f x = inr y) l ys -> mapM f l = inr ys.
Proof.
  induction 1 as [|x y l ys Hx _ IH]; simpl; [reflexivity|].
  now rewrite Hx, IH.
Qed.

Lemma read_corpus_list (os : os_module) (fs : FS os) (ps : list pyval) :
  read_corpus os fs (PyList ps) =
  rbind (mapM (read_entry os fs) ps)
        (fun parts =>
           match parts with
           | [] => throw no_files_error
           | _ => ok (String.concat newline parts)
           end).
Proof. reflexivity. Qed.

Lemma read_entry_readable (os : os_module) (fs : FS os) (p : pyval)
      (content : string) :
  readable os fs p content -> read_entry os fs p = inr content.
Proof.
  intros [s [-> [Hfile Hread]]]. simpl. now rewrite Hfile.
Qed.

Lemma read_entry_rejected (os : os_module) (fs : FS os) (p : pyval) :
  rejected os fs p -> read_entry os fs p = inl (bad_entry_error p).
Proof.
  destruct p; simpl; try reflexivity. now intros ->.
Qed.

(** X14.  For a list of paths, the corpus of [fit] is the contents of the
    files joined by newlines, in the order of the list; the empty list
    raises the error of line 35; and the first entry that is not a string
    naming a file raises the error of line 31, which carries that entry,
    whatever follows it. *)
Theorem corpus_of_paths (os : os_module) (fs : FS os) (ps : list pyval)
        (contents : list string) :
  Forall2 (readable os fs) ps contents ->
  read_corpus os fs (PyList ps)
  = match contents with
    | [] => inl no_files_error
    | _ => inr (String.concat newline contents)
    end /\
  forall p rest,
    rejected os fs p ->
    read_corpus os fs (PyList (ps ++ p :: rest)) = inl (bad_entry_error p).
Proof.
  intros Hall.
  assert (Hm : mapM (read_entry os fs) ps = inr contents).
  { apply mapM_Forall2. eapply Forall2_impl; [|exact Hall].
    intros p c. apply read_entry_readable. }
  split.
  - rewrite read_corpus_list, Hm. now destruct contents.
  - intros p rest Hrej.
    rewrite read_corpus_list, mapM_app, Hm. simpl.
    now rewrite (read_entry_rejected os fs p Hrej).
Qed.

Lemma corpus_of_paths_witness :
  Forall2 (readable mem_os [("f", "ab"); ("g", "cd")])
          [PyStr "f"; PyStr "g"] ["ab"; "cd"] /\
  read_corpus mem_os [("f", "ab"); ("g", "cd")] (PyList [PyStr "f"; PyStr "g"])
  = inr ("ab" ++ newline ++ "cd")%string /\
  read_corpus mem_os [("f", "ab"); ("g", "cd")] (PyList [PyStr "f"; PyStr "g"])
  = match ["ab"; "cd"] with
    | [] => inl no_files_error
    | _ => inr (String.concat newline ["ab"; "cd"])
    end /\
  forall p rest,
    rejected mem_os [("f", "ab"); ("g", "cd")] p ->
    read_corpus mem_os [("f", "ab"); ("g", "cd")]
                (PyList ([PyStr "f"; PyStr "g"] ++ p :: rest))
    = inl (bad_entry_error p).
Proof.
  assert (H : Forall2 (readable mem_os [("f", "ab"); ("g", "cd")])
                      [PyStr "f"; PyStr "g"] ["ab"; "cd"]).
  { repeat constructor; eexists; repeat split; reflexivity. }
  split; [exact H|]. split; [reflexivity|].
  exact (corpus_of_paths mem_os [("f", "ab"); ("g", "cd")]
           [PyStr "f"; PyStr "g"] ["ab"; "cd"] H).
Defined.

(** [fit] uses its source and the file system only to read the corpus. *)
Lemma fit_same_corpus (os : os_module) (fs1 fs2 : FS os)
      (src1 src2 : pyval) (sp : bool) (min_freq : Z)
      (self : CharTokenizer) :
  read_corpus os fs1 src1 = read_corpus os fs2 src2 ->
  fit os fs1 src1 sp min_freq self = fit os fs2 src2 sp min_freq self.
Proof.
  intros Hsame. unfold fit, bind, get_self, lift.
  destruct (is_fitted self); [reflexivity|]. now rewrite Hsame.
Qed.

(** X15.  Fitting on a list of files is fitting on their contents joined
    by newlines, given as one text (a text that names no file): the same
    outcome and the same instance. *)
Theorem fit_on_files_is_fit_on_joined_text (os : os_module) (fs : FS os)
        (ps : list pyval) (contents : list string) (sp : bool)
        (min_freq : Z) (self : CharTokenizer) :
  Forall2 (readable os fs) ps contents ->
  contents <> [] ->
  isfile os fs (String.concat newline contents) = false ->
  fit os fs (PyList ps) sp min_freq self
  = fit os fs (PyStr (String.concat newline contents)) sp min_freq self.
Proof.
  intros Hall Hne Hnofile. apply fit_same_corpus.
  assert (Hm : mapM (read_entry os fs) ps = inr contents).
  { apply mapM_Forall2. eapply Forall2_impl; [|exact Hall].
    intros p c. apply read_entry_readable. }
  rewrite read_corpus_list, Hm. simpl. rewrite Hnofile.
  destruct contents; [congruence | reflexivity].
Qed.

Lemma fit_on_files_is_fit_on_joined_text_witness :
  (Forall2 (readable mem_os [("f", "ab"); ("g", "cd")])
           [PyStr "f"; PyStr "g"] ["ab"; "cd"] /\
   ["ab"; "cd"] <> [] /\
   isfile mem_os [("f", "ab"); ("g", "cd")]
          (String.concat newline ["ab"; "cd"]) = false) /\
  fit mem_os [("f", "ab"); ("g", "cd")] (PyList [PyStr "f"; PyStr "g"])
      true 1 __init__
  = fit mem_os [("f", "ab"); ("g", "cd")]
        (PyStr (String.concat newline ["ab"; "cd"])) true 1 __init__.
Proof.
  assert (H : Forall2 (readable mem_os [("f", "ab"); ("g", "cd")])
                      [PyStr "f"; PyStr "g"] ["ab"; "cd"]).
  { repeat constructor; eexists; repeat split; reflexivity. }
  split; [split; [exact H | split; [discriminate | reflexivity]]|].
  apply (fit_on_files_is_fit_on_joined_text mem_os
           [("f", "ab"); ("g", "cd")] [PyStr "f"; PyStr "g"] ["ab"; "cd"]
           true 1 __init__ H); [discriminate | reflexivity].
Defined.


(** ** The body of [load], when [json.load] returns a document *)

(** Lines 138-154 on a document that has the three keys, [stoi] an
    object whose values [int] accepts. *)
Lemma load_document (os : os_module) (G : globals os) (fs : FS os)
      (path : string) (doc entries : list (string * pyval))
      (pad unk : pyval) (d : dict string Z) (self : CharTokenizer) :
  serves os G fs path (PyDict doc) ->
  dict_get doc "stoi" = Some (PyDict entries) ->
  dict_get doc "pad_id" = Some pad ->
  dict_get doc "unk_id" = Some unk ->
  stoi_of_entries entries [] = inr d ->
  exists b,
    mapping_mismatch (candidate d pad unk) = ok b /\
    load os G fs path self
    = (if b then inl inconsistent_error else inr tt, candidate d pad unk).
Proof.
  intros [Hfile [f [json [Hopen [Hjson Hdata]]]]] Hstoi Hpad Hunk Hd.
  destruct (mapping_mismatch_total (candidate d pad unk) eq_refl) as [b Hb].
  exists b. split; [exact Hb|].
  unfold load, bind, lift. rewrite Hfile, Hopen. cbn [negb].
  rewrite Hjson, Hdata.
  cbn [py_in py_getitem]. unfold getitem, dict_mem.
  rewrite Hstoi, Hpad, Hunk. cbn [negb rbind ok is_dict].
  rewrite Hd. unfold set_stoi, set_pad_id, set_unk_id, set_itos,
    set_vocab_size, get_self. cbn.
  unfold mapping_mismatch, candidate, invert, dict_keys in Hb.
  cbn in Hb. rewrite Hb. unfold candidate, invert. now destruct b.
Qed.

(** X16.  [load] overwrites the instance whatever it held: on a document
    with the keys [stoi], [pad_id] and [unk_id] whose [stoi] values [int]
    accepts, the outcome and the instance afterwards are determined by the
    document alone.  [pad_id] and [unk_id] are taken as they stand in the
    document; the sanity check decides between a normal return and the
    error of line 154, and either way the new values are installed. *)
Theorem load_overwrites (os : os_module) (G : globals os) (fs : FS os)
        (path : string) (doc entries : list (string * pyval))
        (pad unk : pyval) (d : dict string Z) :
  serves os G fs path (PyDict doc) ->
  dict_get doc "stoi" = Some (PyDict entries) ->
  dict_get doc "pad_id" = Some pad ->
  dict_get doc "unk_id" = Some unk ->
  stoi_of_entries entries [] = inr d ->
  exists outcome,
    (outcome = inr tt \/ outcome = inl inconsistent_error) /\
    forall self,
      load os G fs path self = (outcome, candidate d pad unk).
Proof.
  intros Hs Hstoi Hpad Hunk Hd.
  destruct (mapping_mismatch_total (candidate d pad unk) eq_refl) as [b Hb].
  exists (if b then inl inconsistent_error else inr tt).
  split; [destruct b; auto|].
  intros self.
  destruct (load_document os G fs path doc entries pad unk d self
              Hs Hstoi Hpad Hunk Hd) as [b' [Hb' Hload]].
  rewrite Hb in Hb'. injection Hb' as <-. exact Hload.
Qed.

Lemma serves_one_file (data : pyval) :
  serves mem_os (decoding_to data) one_file "vocab.json" data.
Proof.
  split; [reflexivity|].
  exists "doc", (json_table [("doc", data)]). repeat split.
Qed.

Lemma load_overwrites_witness :
  (serves mem_os (decoding_to two_letters) one_file "vocab.json"
          two_letters /\
   stoi_of_entries [("a", PyInt 0); ("b", PyInt 1)] []
   = inr [("a", 0); ("b", 1)]) /\
  load mem_os (decoding_to two_letters) one_file "vocab.json"
       (fitted_on "ab" true)
  = (inr tt, candidate [("a", 0); ("b", 1)] PyNone PyNone) /\
  exists outcome,
    (outcome = inr tt \/ outcome = inl inconsistent_error) /\
    forall self,
      load mem_os (decoding_to two_letters) one_file "vocab.json" self
      = (outcome, candidate [("a", 0); ("b", 1)] PyNone PyNone).
Proof.
  split; [split; [apply serves_one_file | reflexivity]|].
  split; [vm_compute; reflexivity|].
  apply (load_overwrites mem_os (decoding_to two_letters) one_file
           "vocab.json"
           [("stoi", PyDict [("a", PyInt 0); ("b", PyInt 1)]);
            ("pad_id", PyNone); ("unk_id", PyNone)]
           [("a", PyInt 0); ("b", PyInt 1)] PyNone PyNone
           [("a", 0); ("b", 1)]);
    try reflexivity.
  apply (serves_one_file two_letters).
Defined.

(** X17.  [load] validates before it assigns.  On a document that is an
    object: without a [stoi] key, or with a [stoi] that is not an object,
    it raises the error of line 140; with [stoi] an object but [pad_id] or
    [unk_id] missing, the error of line 142; with all three keys but a
    [stoi] value that [int] refuses, the exception of [int].  In each case
    the instance is as it was. *)
Theorem load_rejects_malformed (os : os_module) (G : globals os)
        (fs : FS os) (path : string) (doc : list (string * pyval))
        (self : CharTokenizer) :
  serves os G fs path (PyDict doc) ->
  ((forall entries, dict_get doc "stoi" <> Some (PyDict entries)) ->
   load os G fs path self = (inl bad_stoi_error, self)) /\
  (forall entries,
     dict_get doc "stoi" = Some (PyDict entries) ->
     dict_mem doc "pad_id" && dict_mem doc "unk_id" = false ->
     load os G fs path self = (inl missing_ids_error, self)) /\
  (forall entries e,
     dict_get doc "stoi" = Some (PyDict entries) ->
     dict_mem doc "pad_id" && dict_mem doc "unk_id" = true ->
     stoi_of_entries entries [] = inl e ->
     load os G fs path self = (inl e, self)).
Proof.
  intros [Hfile [f [json [Hopen [Hjson Hdata]]]]].
  split; [|split].
  - intros Hbad. unfold load, bind, lift. rewrite Hfile, Hopen.
    cbn [negb]. rewrite Hjson, Hdata.
    cbn [py_in py_getitem]. unfold getitem, dict_mem.
    destruct (dict_get doc "stoi") as [v|]; [|reflexivity].
    destruct v; try reflexivity.
    exfalso. now apply (Hbad entries).
  - intros entries Hstoi Hmiss. unfold load, bind, lift.
    rewrite Hfile, Hopen. cbn [negb]. rewrite Hjson, Hdata.
    cbn [py_in py_getitem]. unfold getitem.
    unfold dict_mem in *. rewrite Hstoi. cbn [negb rbind ok is_dict].
    destruct (dict_get doc "pad_id"); [|reflexivity].
    destruct (dict_get doc "unk_id"); [discriminate | reflexivity].
  - intros entries e Hstoi Hboth Hint. unfold load, bind, lift.
    rewrite Hfile, Hopen. cbn [negb]. rewrite Hjson, Hdata.
    cbn [py_in py_getitem]. unfold getitem.
    unfold dict_mem in *. rewrite Hstoi. cbn [negb rbind ok is_dict].
    destruct (dict_get doc "pad_id"); [|discriminate].
    destruct (dict_get doc "unk_id"); [|discriminate].
    cbn [negb rbind ok]. now rewrite Hint.
Qed.

Lemma load_rejects_malformed_witness :
  serves mem_os (decoding_to no_unk_doc) one_file "vocab.json" no_unk_doc /\
  load mem_os (decoding_to (PyDict [("pad_id", PyNone); ("unk_id", PyNone)]))
       one_file "vocab.json" (fitted_on "ab" true)
  = (inl bad_stoi_error, fitted_on "ab" true) /\
  load mem_os (decoding_to no_unk_doc) one_file "vocab.json"
       (fitted_on "ab" true)
  = (inl missing_ids_error, fitted_on "ab" true) /\
  load mem_os
       (decoding_to (PyDict [("stoi", PyDict [("a", PyStr "x")]);
                             ("pad_id", PyNone); ("unk_id", PyNone)]))
       one_file "vocab.json" (fitted_on "ab" true)
  = (inl (ValueError (MsgReprUpTo "invalid literal for int() with base 10: "
                                  200 (PyStr "x"))),
     fitted_on "ab" true) /\
  load mem_os
       (decoding_to
          (PyDict [("stoi", PyDict [("a", PyInt 0);
                                    ("b", PyStr (String (ascii_of_nat 28)
                                                        "7"))]);
                   ("pad_id", PyNone); ("unk_id", PyNone)]))
       one_file "vocab.json" (fitted_on "ab" true)
  = (inl (ValueError (MsgReprUpTo "invalid literal for int() with base 10: "
                                  200 (PyStr (String (ascii_of_nat 28) "7")))),
     fitted_on "ab" true) /\
  load mem_os
       (decoding_to (PyDict [("stoi", PyDict [("a", PyNone)]);
                             ("pad_id", PyNone); ("unk_id", PyNone)]))
       one_file "vocab.json" (fitted_on "ab" true)
  = (inl (TypeError (Msg "int() argument must be a string, a bytes-like object or a real number, not 'NoneType'")),
     fitted_on "ab" true) /\
  ((forall entries,
      dict_get [("stoi", PyDict [("a", PyInt 0)]); ("pad_id", PyNone)]
               "stoi" <> Some (PyDict entries)) ->
   load mem_os (decoding_to no_unk_doc) one_file "vocab.json"
        (fitted_on "ab" true)
   = (inl bad_stoi_error, fitted_on "ab" true)) /\
  (forall entries,
     dict_get [("stoi", PyDict [("a", PyInt 0)]); ("pad_id", PyNone)]
              "stoi" = Some (PyDict entries) ->
     dict_mem [("stoi", PyDict [("a", PyInt 0)]); ("pad_id", PyNone)]
              "pad_id"
     && dict_mem [("stoi", PyDict [("a", PyInt 0)]); ("pad_id", PyNone)]
                 "unk_id" = false ->
     load mem_os (decoding_to no_unk_doc) one_file "vocab.json"
          (fitted_on "ab" true)
     = (inl missing_ids_error, fitted_on "ab" true)) /\
  (forall entries e,
     dict_get [("stoi", PyDict [("a", PyInt 0)]); ("pad_id", PyNone)]
              "stoi" = Some (PyDict entries) ->
     dict_mem [("stoi", PyDict [("a", PyInt 0)]); ("pad_id", PyNone)]
              "pad_id"
     && dict_mem [("stoi", PyDict [("a", PyInt 0)]); ("pad_id", PyNone)]
                 "unk_id" = true ->
     stoi_of_entries entries [] = inl e ->
     load mem_os (decoding_to no_unk_doc) one_file "vocab.json"
          (fitted_on "ab" true)
     = (inl e, fitted_on "ab" true)).
Proof.
  split; [apply serves_one_file|].
  split; [vm_compute; reflexivity|].
  split; [vm_compute; reflexivity|].
  split; [vm_compute; reflexivity|].
  split; [vm_compute; reflexivity|].
  split; [vm_compute; reflexivity|].
  apply (load_rejects_malformed mem_os (decoding_to no_unk_doc) one_file
           "vocab.json"
           [("stoi", PyDict [("a", PyInt 0)]); ("pad_id", PyNone)]
           (fitted_on "ab" true)).
  apply (serves_one_file no_unk_doc).
Defined.



(** X19.  [load] accepts a document whose [stoi] is empty: it returns
    normally, with the reserved ids of the document installed, and leaves
    an instance that is not fitted, on which [encode] raises the error of
    line 74.  ([fit] refuses to build an empty vocabulary.) *)
Theorem load_accepts_empty_stoi (os : os_module) (G : globals os)
        (fs : FS os) (path : string) (doc : list (string * pyval))
        (pad unk : pyval) (self : CharTokenizer) :
  serves os G fs path (PyDict doc) ->
  dict_get doc "stoi" = Some (PyDict []) ->
  dict_get doc "pad_id" = Some pad ->
  dict_get doc "unk_id" = Some unk ->
  load os G fs path self
  = (inr tt, {| stoi := []; itos := []; pad_id := pad; unk_id := unk;
                vocab_size := 0 |}) /\
  is_fitted (snd (load os G fs path self)) = false /\
  forall text strict,
    encode (snd (load os G fs path self)) text strict
    = inl not_fitted_error.
Proof.
  intros Hs Hstoi Hpad Hunk.
  destruct (load_document os G fs path doc [] pad unk [] self
              Hs Hstoi Hpad Hunk eq_refl) as [b [Hb Hload]].
  cbn in Hb. injection Hb as <-.
  rewrite Hload. repeat split.
Qed.

Lemma load_accepts_empty_stoi_witness :
  serves mem_os (decoding_to empty_stoi_doc) one_file "vocab.json"
         empty_stoi_doc /\
  load mem_os (decoding_to empty_stoi_doc) one_file "vocab.json"
       (fitted_on "ab" true)
  = (inr tt, leftover) /\
  is_fitted (snd (load mem_os (decoding_to empty_stoi_doc) one_file
                       "vocab.json" (fitted_on "ab" true))) = false /\
  forall text strict,
    encode (snd (load mem_os (decoding_to empty_stoi_doc) one_file
                      "vocab.json" (fitted_on "ab" true))) text strict
    = inl not_fitted_error.
Proof.
  split; [apply serves_one_file|].
  apply (load_accepts_empty_stoi mem_os (decoding_to empty_stoi_doc)
           one_file "vocab.json"
           [("stoi", PyDict []); ("pad_id", PyInt 7); ("unk_id", PyInt 8)]
           (PyInt 7) (PyInt 8) (fitted_on "ab" true));
    try reflexivity.
  apply (serves_one_file empty_stoi_doc).
Defined.

(** X20.  Restoring is the inverse of building the payload: when
    [json.load] returns the payload that [save] builds for a consistent
    instance, [from_file] returns that very instance, and [load] installs
    it over whatever instance it is called on. *)
Theorem from_file_restores_payload (os : os_module) (G : globals os)
        (fs : FS os) (path : string) (self : CharTokenizer) :
  serves os G fs path (payload self) ->
  consistent self ->
  from_file os G fs path = inr self /\
  forall other, load os G fs path other = (inr tt, self).
Proof.
  intros Hs [Hk Hv Hi Hsize].
  assert (Hcand : candidate (stoi self) (pad_id self) (unk_id self) = self).
  { destruct self as [st it pad unk size]. unfold candidate. simpl in *.
    subst. now rewrite invert_NoDup. }
  assert (Hload : forall other, load os G fs path other = (inr tt, self)).
  { intros other.
    destruct (load_document os G fs path _ _ (pad_id self) (unk_id self)
                (stoi self) other Hs eq_refl eq_refl eq_refl)
      as [b [Hb Hload]].
    - apply stoi_of_entries_serialized. exact Hk.
    - rewrite Hcand in *.
      rewrite (mapping_mismatch_swap self Hk Hv Hi) in Hb.
      injection Hb as <-. exact Hload. }
  split; [|exact Hload].
  unfold from_file. now rewrite Hload.
Qed.

Lemma from_file_restores_payload_witness :
  (serves mem_os (decoding_to (payload (fitted_on "ab" true))) one_file
          "vocab.json" (payload (fitted_on "ab" true)) /\
   consistent (fitted_on "ab" true)) /\
  from_file mem_os (decoding_to (payload (fitted_on "ab" true))) one_file
            "vocab.json"
  = inr (fitted_on "ab" true) /\
  forall other,
    load mem_os (decoding_to (payload (fitted_on "ab" true))) one_file
         "vocab.json" other
    = (inr tt, fitted_on "ab" true).
Proof.
  assert (Hc : consistent (fitted_on "ab" true)).
  { apply fit_built_consistent.
    apply (fit_ok_fit_built mem_os no_files (PyStr "ab") true 1 __init__).
    vm_compute. reflexivity. }
  split; [split; [apply serves_one_file | exact Hc]|].
  apply (from_file_restores_payload mem_os
           (decoding_to (payload (fitted_on "ab" true))) one_file
           "vocab.json" (fitted_on "ab" true)
           (serves_one_file (payload (fitted_on "ab" true))) Hc).
Defined.

(** ** [fit]: thresholds below 1 *)

Lemma survivors_low (corpus : string) (min_freq : Z) :
  min_freq <= 1 -> survivors corpus min_freq = survivors corpus 1.
Proof.
  intros Hlow. unfold survivors. apply filter_ext_in.
  intros [ch c] Hin. apply Counter_In in Hin. destruct Hin as [Hin ->].
  apply occurrences_pos in Hin. simpl.
  destruct (Z.leb_spec min_freq (occurrences ch corpus));
    destruct (Z.leb_spec 1 (occurrences ch corpus)); auto; lia.
Qed.

(** X21.  A threshold of 0 or less is the threshold 1: every character of
    the corpus occurs at least once, so [fit] with any [min_freq] up to 1
    does what it does with [min_freq = 1], on every instance and every
    source. *)
Theorem min_freq_below_one (os : os_module) (fs : FS os) (src : pyval)
        (sp : bool) (min_freq : Z) (self : CharTokenizer) :
  min_freq <= 1 ->
  fit os fs src sp min_freq self = fit os fs src sp 1 self.
Proof.
  intros Hlow. unfold fit, bind, get_self, lift.
  destruct (is_fitted self); [reflexivity|].
  destruct (read_corpus os fs src) as [e|corpus]; [reflexivity|].
  fold (survivors corpus min_freq). fold (survivors corpus 1).
  now rewrite (survivors_low corpus min_freq Hlow).
Qed.

Lemma min_freq_below_one_witness :
  -3 <= 1 /\
  fit mem_os no_files (PyStr "ab") true (-3) __init__
  = fit mem_os no_files (PyStr "ab") true 1 __init__.
Proof.
  split; [lia|].
  apply (min_freq_below_one mem_os no_files (PyStr "ab") true (-3) __init__).
  lia.
Defined.
